(** * Checkpointed capture of solver statistics: [data_generation/run_solver.py]

    A shallow embedding of [run_problem] and of the helpers it calls
    ([reached_save_point], [is_stat_related], [is_stat_value], [stat_block_end],
    [is_solution]), of the database functions ([read_next_problem_from_db],
    [insert_result_set_in_db], [setup_db], [remove_id_from_todo_list]) and of
    the script that drives them, and the properties proved on them.

    Modelling conventions.
    - A Python [str] is a [string] holding its UTF-8 encoding, as the string
      literals of this file do; a [bytes] object is the [string] of its
      bytes. Decoding checks the bytes and keeps them; what the program does
      to a [str] by characters ([s[:n]], [s[n:]], [float]) is written on the
      encoding.
    - A Python [int] is a [Z]; a Python [float] is a binary64 number, the
      kernel's [float], with the rounding of Python's operations written out.
    - A Python [dict] from names to floats is a [gmap string float].
    - An exception is the [Raise] case of [result]; the local variables of
      [run_problem] are threaded through the loop as a [Frame].
    - The world outside the program (the [which] lookup, the file system, the
      child process and the clock) is a [World] record; the output of the
      child is the list of its lines, as [bytes], each with the elapsed
      time [time.time() - start_time] sampled when that line is handled. *)

From Stdlib Require Import ZArith Ascii Floats.
From stdpp Require Import gmap strings list fin_maps pretty.

Local Open Scope Z_scope.

(** ** Exceptions *)

Inductive exn : Type :=
  | FileNotFoundError (msg : string)
  | IndexError
  | ValueError
  | ZeroDivisionError
  | OverflowError
  | UnicodeDecodeError.

Inductive result (A : Type) : Type :=
  | Ok (a : A)
  | Raise (e : exn).
Arguments Ok {A} a.
Arguments Raise {A} e.

Definition bind {A B : Type} (r : result A) (k : A -> result B) : result B :=
  match r with
  | Ok a => k a
  | Raise e => Raise e
  end.

Notation "'let*' x ':=' r 'in' k" := (bind r (fun x => k))
  (at level 10, x name, r at level 100, k at level 200).

Definition is_ok {A : Type} (r : result A) : bool :=
  match r with Ok _ => true | Raise _ => false end.

(** ** Python built-ins used by the program *)

Module Py.

(** *** Text *)

Definition nl : string := String (ascii_of_nat 10) "".

Definition byte_of (c : ascii) : Z := Z.of_nat (nat_of_ascii c).

(** The number of bytes of the character whose encoding the byte [c]
    begins: one for an ASCII character, two to four for the others. *)
Definition char_width (c : ascii) : nat :=
  let b := byte_of c in
  if b <? 192 then 1 else if b <? 224 then 2 else if b <? 240 then 3 else 4.

(** The first [n] characters of [s], after the [pending] bytes that finish
    the character before them. *)
Fixpoint take_chars (n pending : nat) (s : string) : string :=
  match s with
  | "" => ""
  | String c s' =>
      match pending, n with
      | S p, _ => String c (take_chars n p s')
      | O, S n' => String c (take_chars n' (char_width c - 1) s')
      | O, O => ""
      end
  end.

(** What follows them. *)
Fixpoint drop_chars (n pending : nat) (s : string) : string :=
  match s with
  | "" => ""
  | String c s' =>
      match pending, n with
      | S p, _ => drop_chars n p s'
      | O, S n' => drop_chars n' (char_width c - 1) s'
      | O, O => s
      end
  end.

(** [s[:n]] for a literal [n >= 0]: the first [n] characters. *)
Definition slice_to (n : nat) (s : string) : string := take_chars n 0 s.

(** [s[n:]] for a literal [n >= 0]: all but the first [n] characters. *)
Definition slice_from (n : nat) (s : string) : string := drop_chars n 0 s.

(** What may follow the first byte [b] of a character in UTF-8: how many
    bytes, and the range of the first of them (the others are in
    [128..191]). Encodings longer than needed, the surrogates and the
    numbers above 0x10FFFF are left out by these ranges. *)
Definition utf8_lead (b : Z) : option (nat * (Z * Z)) :=
  if b <? 128 then Some (0%nat, (0, 0))
  else if (194 <=? b) && (b <=? 223) then Some (1%nat, (128, 191))
  else if b =? 224 then Some (2%nat, (160, 191))
  else if b =? 237 then Some (2%nat, (128, 159))
  else if (225 <=? b) && (b <=? 239) then Some (2%nat, (128, 191))
  else if b =? 240 then Some (3%nat, (144, 191))
  else if (241 <=? b) && (b <=? 243) then Some (3%nat, (128, 191))
  else if b =? 244 then Some (3%nat, (128, 143))
  else None.

Fixpoint valid_from (pending : nat) (range : Z * Z) (s : string) : bool :=
  match s with
  | "" => match pending with O => true | S _ => false end
  | String c s' =>
      let b := byte_of c in
      match pending with
      | S p =>
          (fst range <=? b) && (b <=? snd range) && valid_from p (128, 191) s'
      | O =>
          match utf8_lead b with
          | Some (k, range') => valid_from k range' s'
          | None => false
          end
      end
  end.

(** The bytes are the UTF-8 encoding of some text. *)
Definition valid_utf8 (b : string) : bool := valid_from 0 (0, 0) b.

(** [b.decode('utf-8')]: the text the bytes encode, held as these bytes. *)
Definition decode (b : string) : result string :=
  if valid_utf8 b then Ok b else Raise UnicodeDecodeError.

(** The code points of a text, read off its encoding. *)
Fixpoint codepoints_from (pending : nat) (acc : Z) (s : string) : list Z :=
  match s with
  | "" => []
  | String c s' =>
      let b := byte_of c in
      match pending with
      | 1%nat => (64 * acc + b mod 64) :: codepoints_from 0 0 s'
      | S p => codepoints_from p (64 * acc + b mod 64) s'
      | O =>
          match char_width c with
          | 1%nat => b :: codepoints_from 0 0 s'
          | 2%nat => codepoints_from 1 (b mod 32) s'
          | 3%nat => codepoints_from 2 (b mod 16) s'
          | _ => codepoints_from 3 (b mod 8) s'
          end
      end
  end.

Definition codepoints (s : string) : list Z := codepoints_from 0 0 s.

(** [s.split(sep)] for a separator of one ASCII character (a byte that is
    part of no longer character): the pieces between the occurrences of
    [sep], one more than there are occurrences. *)
Fixpoint split (sep : ascii) (s : string) : list string :=
  match s with
  | "" => [""]
  | String c s' =>
      if Ascii.eqb c sep then "" :: split sep s'
      else match split sep s' with
           | p :: ps => String c p :: ps
           | [] => [String c ""]
           end
  end.

(** [a, b = l]: unpacking into two names. *)
Definition unpack2 {A : Type} (l : list A) : result (A * A) :=
  match l with
  | [a; b] => Ok (a, b)
  | _ => Raise ValueError
  end.

(** [l[i]] with Python's negative indices. *)
Definition getitem {A : Type} (l : list A) (i : Z) : result A :=
  let n := Z.of_nat (length l) in
  let j := if i <? 0 then i + n else i in
  if (j <? 0) || (n <=? j) then Raise IndexError
  else match l !! Z.to_nat j with
       | Some a => Ok a
       | None => Raise IndexError
       end.

(** *** Numbers *)

(** The binary64 number nearest to [n / d] (ties to even) for [n >= 0], with
    the sign [neg]: the rounding of both [int / int] and [float(str)]. *)
Definition round_ratio (neg : bool) (n : Z) (d : positive) : spec_float :=
  match n with
  | Zpos m =>
      let '(q, e, l) := SFdiv_core_binary prec emax (Zpos m) 0 (Zpos d) 0 in
      binary_round_aux prec emax neg q e l
  | _ => S754_zero neg
  end.

(** [a / b] on two [int]s: the correctly rounded quotient, negative (also
    when it is zero) exactly when one of the two is negative. *)
Definition int_truediv (a b : Z) : result float :=
  if b =? 0 then Raise ZeroDivisionError
  else
    match round_ratio (xorb (a <? 0) (b <? 0)) (Z.abs a) (Z.to_pos (Z.abs b)) with
    | S754_infinity _ => Raise OverflowError
    | q => Ok (SF2Prim q)
    end.

(** [x / y] on two [float]s. *)
Definition float_truediv (x y : float) : result float :=
  if PrimFloat.eqb y 0%float then Raise ZeroDivisionError
  else Ok (PrimFloat.div x y).

(** [x >= y] on two [float]s. *)
Definition float_ge (x y : float) : bool := PrimFloat.leb y x.

(** *** [float(str)] *)

(** [float] first rewrites a text with characters outside ASCII: a blank
    for every white-space character, the ASCII digit for every decimal digit
    of another script, and a question mark, at which the text is cut, for
    any other character from code point 127 on. The tables are those of
    Unicode 14.0 (CPython 3.11): the white space outside ASCII, and the
    zeros of the 65 runs of ten decimal digits outside ASCII. *)
Definition unicode_space (cp : Z) : bool :=
  (cp =? 133) || (cp =? 160) || (cp =? 5760)
  || ((8192 <=? cp) && (cp <=? 8202))
  || (cp =? 8232) || (cp =? 8233) || (cp =? 8239) || (cp =? 8287)
  || (cp =? 12288).

Definition decimal_zeros : list Z :=
  [1632; 1776; 1984; 2406; 2534; 2662; 2790; 2918;
   3046; 3174; 3302; 3430; 3558; 3664; 3792; 3872;
   4160; 4240; 6112; 6160; 6470; 6608; 6784; 6800;
   6992; 7088; 7232; 7248; 42528; 43216; 43264; 43472;
   43504; 43600; 44016; 65296; 66720; 68912; 69734; 69872;
   69942; 70096; 70384; 70736; 70864; 71248; 71360; 71472;
   71904; 72016; 72784; 73040; 73120; 92768; 92864; 93008;
   120782; 120792; 120802; 120812; 120822; 123200; 123632; 125264;
   130032].

Definition unicode_decimal (cp : Z) : option Z :=
  match List.find (fun z => (z <=? cp) && (cp <=? z + 9)) decimal_zeros with
  | Some z => Some (cp - z)
  | None => None
  end.

Fixpoint to_ascii (cps : list Z) : list ascii :=
  match cps with
  | [] => []
  | cp :: rest =>
      if cp <? 127 then ascii_of_nat (Z.to_nat cp) :: to_ascii rest
      else if unicode_space cp then " "%char :: to_ascii rest
      else match unicode_decimal cp with
           | Some d => ascii_of_nat (Z.to_nat (48 + d)) :: to_ascii rest
           | None => ["?"%char]
           end
  end.

(** A text of ASCII characters is taken as it is. *)
Definition ascii_text (s : string) : list ascii :=
  let l := String.list_ascii_of_string s in
  if forallb (fun c => byte_of c <? 128) l then l
  else to_ascii (codepoints s).

(** The characters [float] then strips from both ends: the blank and the
    control characters 9 to 13. (The separators 28 to 31, white space for
    [str.isspace], are not among them.) *)
Definition is_space (c : ascii) : bool :=
  let n := byte_of c in
  ((9 <=? n) && (n <=? 13)) || (n =? 32).

Definition digit_of (c : ascii) : option Z :=
  let n := Z.of_nat (nat_of_ascii c) in
  if (48 <=? n) && (n <=? 57) then Some (n - 48) else None.

Definition lower (c : ascii) : ascii :=
  let n := nat_of_ascii c in
  if (65 <=? n)%nat && (n <=? 90)%nat then ascii_of_nat (n + 32) else c.

Fixpoint lstrip (l : list ascii) : list ascii :=
  match l with
  | c :: l' => if is_space c then lstrip l' else l
  | [] => []
  end.

Definition strip (l : list ascii) : list ascii :=
  rev (lstrip (rev (lstrip l))).

(** [digitpart ::= digit (["_"] digit)*]: reads the longest digit part at the
    head of [l], continuing the number [acc] of [cnt] digits read so far (an
    underscore is read only between two digits); returns the number, how many
    digits it has, and the rest. *)
Fixpoint digitpart (l : list ascii) (acc : Z) (cnt : nat)
  : Z * nat * list ascii :=
  match l with
  | c :: l' =>
      match digit_of c with
      | Some d => digitpart l' (10 * acc + d) (S cnt)
      | None =>
          match cnt, l' with
          | S _, c' :: _ =>
              if Ascii.eqb c "_" && bool_decide (is_Some (digit_of c'))
              then digitpart l' acc cnt
              else (acc, cnt, l)
          | _, _ => (acc, cnt, l)
          end
      end
  | [] => (acc, cnt, l)
  end.

Definition sign (l : list ascii) : bool * list ascii :=
  match l with
  | c :: l' =>
      if Ascii.eqb c "-" then (true, l')
      else if Ascii.eqb c "+" then (false, l')
      else (false, l)
  | [] => (false, l)
  end.

(** [exponent ::= ("e" | "E") [sign] digitpart], or nothing. *)
Definition exponent (l : list ascii) : option Z :=
  match l with
  | [] => Some 0
  | c :: l' =>
      if Ascii.eqb (lower c) "e" then
        let '(neg, l'') := sign l' in
        match digitpart l'' 0 0 with
        | (e, S _, []) => Some (if neg then - e else e)
        | _ => None
        end
      else None
  end.

(** [number ::= [digitpart] "." digitpart | digitpart ["."]], then the
    exponent: the mantissa and the power of ten it is scaled by. *)
Definition floatnumber (l : list ascii) : option (Z * Z) :=
  let '(ip, ni, l1) := digitpart l 0 0 in
  let '(m, nf, l2) :=
    match l1 with
    | c :: l1' => if Ascii.eqb c "." then digitpart l1' ip 0 else (ip, 0%nat, l1)
    | [] => (ip, 0%nat, l1)
    end in
  match (ni + nf)%nat with
  | O => None
  | S _ =>
      match exponent l2 with
      | Some e => Some (m, e - Z.of_nat nf)
      | None => None
      end
  end.

Definition scaled (neg : bool) (m e : Z) : float :=
  match e with
  | Zneg k => SF2Prim (round_ratio neg m (10 ^ k)%positive)
  | _ => SF2Prim (round_ratio neg (m * 10 ^ e) 1)
  end.

(** [float(s)] on a [str]: [None] stands for the [ValueError]. *)
Definition float (s : string) : option float :=
  let '(neg, l) := sign (strip (ascii_text s)) in
  let word := String.string_of_list_ascii (map lower l) in
  if String.eqb word "inf" || String.eqb word "infinity"
  then Some (if neg then neg_infinity else infinity)
  else if String.eqb word "nan" then Some nan
  else match floatnumber l with
       | Some (m, e) => Some (scaled neg m e)
       | None => None
       end.

End Py.

(** ** The data classes *)

Record Output : Type := {
  percent : Z;                     (* percentage of the time limit at which the capture occurs *)
  features : gmap string float
}.

(** [Output(percent=p)]: the [features] default is a fresh empty [dict]. *)
Definition new_Output (p : Z) : Output := {| percent := p; features := ∅ |}.

Record ProblemResults : Type := {
  model : string;
  problem_instance : option string;
  solved : bool;                   (* solved within the time limit *)
  results : list Output
}.

(** [ProblemResults(model, problem_instance)]. *)
Definition new_ProblemResults (m : string) (p : option string) : ProblemResults :=
  {| model := m; problem_instance := p; solved := false; results := [] |}.

(** ** The line classifiers *)

Definition stat_prefix : string := "%%%mzn-stat".
Definition stat_value_prefix : string := "%%%mzn-stat: ".
Definition stat_end_prefix : string := "%%%mzn-stat-end".
Definition solution_line : string := "----------" +:+ Py.nl.

Definition is_stat_related (line : string) : bool :=
  String.eqb (Py.slice_to 11 line) stat_prefix.

Definition is_stat_value (line : string) : bool :=
  String.eqb (Py.slice_to 13 line) stat_value_prefix.

Definition stat_block_end (line : string) : bool :=
  String.eqb (Py.slice_to 15 line) stat_end_prefix.

Definition is_solution (line : string) : bool :=
  String.eqb line solution_line.

(** ** The checkpoint test *)

Definition reached_save_point (elapsed : float) (timeout : Z)
    (save_percentages : list Z) (save_idx : Z) : result bool :=
  if save_idx =? Z.of_nat (length save_percentages) then Ok false
  else
    let* budget := Py.int_truediv timeout 1000 in
    let* percentage_time_elapsed := Py.float_truediv elapsed budget in
    let* target := Py.getitem save_percentages save_idx in
    let* save_point_percentage := Py.int_truediv target 100 in
    Ok (Py.float_ge percentage_time_elapsed save_point_percentage).

(** ** The local variables of [run_problem] *)

Record Frame : Type := {
  results_obj : ProblemResults;    (* the local [results] *)
  save_idx : Z;
  next_save_point : Z;
  output : Output;
  capture_next_block : bool;
  is_next_block : bool;
  found_one_solution : bool
}.

Definition set_found_one_solution (b : bool) (fr : Frame) : Frame :=
  {| results_obj := results_obj fr; save_idx := save_idx fr;
     next_save_point := next_save_point fr; output := output fr;
     capture_next_block := capture_next_block fr;
     is_next_block := is_next_block fr; found_one_solution := b |}.

(** Lines 91-93: [capture_next_block = True], the label of the target, and
    [save_idx += 1]. *)
Definition begin_capture (target : Z) (fr : Frame) : Frame :=
  {| results_obj := results_obj fr; save_idx := save_idx fr + 1;
     next_save_point := target; output := output fr;
     capture_next_block := true;
     is_next_block := is_next_block fr;
     found_one_solution := found_one_solution fr |}.

(** Line 98: [output.features[name] = value]. *)
Definition store_feature (name : string) (value : float) (fr : Frame) : Frame :=
  {| results_obj := results_obj fr; save_idx := save_idx fr;
     next_save_point := next_save_point fr;
     output := {| percent := percent (output fr);
                  features := <[name := value]> (features (output fr)) |};
     capture_next_block := capture_next_block fr;
     is_next_block := is_next_block fr;
     found_one_solution := found_one_solution fr |}.

(** [results.results.append(o)]. *)
Definition append_result (o : Output) (r : ProblemResults) : ProblemResults :=
  {| model := model r; problem_instance := problem_instance r;
     solved := solved r; results := results r ++ [o] |}.

(** Lines 101-104: both flags are cleared, the pending snapshot is appended
    and a fresh one, labelled [next_save_point], takes its place. *)
Definition end_capture (fr : Frame) : Frame :=
  {| results_obj := append_result (output fr) (results_obj fr);
     save_idx := save_idx fr;
     next_save_point := next_save_point fr;
     output := new_Output (next_save_point fr);
     capture_next_block := false;
     is_next_block := false;
     found_one_solution := found_one_solution fr |}.

(** Line 107: [is_next_block = True]. *)
Definition arm_next_block (fr : Frame) : Frame :=
  {| results_obj := results_obj fr; save_idx := save_idx fr;
     next_save_point := next_save_point fr; output := output fr;
     capture_next_block := capture_next_block fr;
     is_next_block := true;
     found_one_solution := found_one_solution fr |}.

(** Lines 97-98, the right-hand sides: [line[13:].split('=')] unpacked into
    two names, then [float(stat)]. *)
Definition parse_value (line : string) : result (string * float) :=
  let* pieces := Py.unpack2 (Py.split "=" (Py.slice_from 13 line)) in
  let '(name, stat) := pieces in
  match Py.float stat with
  | Some v => Ok (name, v)
  | None => Raise ValueError
  end.

(** The solution test at the head of an iteration (lines 83-84). *)
Definition note_solution (line : string) (fr : Frame) : Frame :=
  if negb (found_one_solution fr) && is_solution line
  then set_found_one_solution true fr else fr.

(** Lines 89-93: the due check, skipped while a capture is pending. *)
Definition check_capture (time_limit : Z) (save_percentages : list Z)
    (elapsed : float) (fr : Frame) : result Frame :=
  if capture_next_block fr then Ok fr
  else
    let* due := reached_save_point elapsed time_limit save_percentages (save_idx fr) in
    if due then
      let* target := Py.getitem save_percentages (save_idx fr) in
      Ok (begin_capture target fr)
    else Ok fr.

(** Lines 95-107. *)
Definition capture_line (line : string) (fr : Frame) : result Frame :=
  if capture_next_block fr && is_next_block fr then
    if is_stat_value line then
      let* item := parse_value line in
      Ok (store_feature (fst item) (snd item) fr)
    else if stat_block_end line then Ok (end_capture fr)
    else Ok fr
  else if capture_next_block fr && stat_block_end line then Ok (arm_next_block fr)
  else Ok fr.

(** Lines 82-107: one iteration of the loop, on a line of the output as
    the child wrote it and the elapsed time sampled for it. *)
Definition loop_body (time_limit : Z) (save_percentages : list Z)
    (fr : Frame) (timed_line : float * string) : result Frame :=
  let '(elapsed, line) := timed_line in
  let* line := Py.decode line in
  let fr := note_solution line fr in
  if is_stat_related line then
    let* fr := check_capture time_limit save_percentages elapsed fr in
    capture_line line fr
  else Ok fr.

(** Lines 81-107: the loop over the lines of the child's output. *)
Fixpoint run_loop (time_limit : Z) (save_percentages : list Z)
    (fr : Frame) (lines : list (float * string)) : result Frame :=
  match lines with
  | [] => Ok fr
  | tl :: rest =>
      let* fr' := loop_body time_limit save_percentages fr tl in
      run_loop time_limit save_percentages fr' rest
  end.

(** ** The world around a run *)

Record World : Type := {
  which : string -> bool;          (* [which name] exits with status 0 *)
  path_exists : string -> bool;    (* [os.path.exists] *)
  proc_stdout : list string -> list (float * string)
                                   (* the lines the child of a command writes,
                                      as bytes, each with the time elapsed
                                      when it is read *)
}.

(** What a call leaves behind: the commands it spawned and its result. *)
Record Outcome : Type := {
  spawned : list (list string);
  returned : result ProblemResults
}.

(** Truth value of [problem_instance] in a condition. *)
Definition truthy (p : option string) : bool :=
  match p with
  | Some s => negb (String.eqb s "")
  | None => false
  end.

Definition default_executable : string := "minizinc".
Definition default_time_limit : Z := 7200000.
Definition default_save_percentages : list Z := [5; 10; 15; 20].
Definition default_solver : string := "org.chuffed.modded-chuffed".

(** Lines 62-70: the frame the loop starts from, once [save_percentages[0]]
    was read. *)
Definition initial_frame (m : string) (p : option string) (first : Z) : Frame :=
  {| results_obj := new_ProblemResults m p;
     save_idx := 0;
     next_save_point := first;
     output := new_Output first;
     capture_next_block := false;
     is_next_block := false;
     found_one_solution := false |}.

(** Lines 72-75. *)
Definition command_of (executable model : string) (problem_instance : option string)
    (solver : string) (time_limit : Z) : list string :=
  match problem_instance with
  | Some p => [executable; model; p; "--solver"; solver; "-t"; pretty time_limit]
  | None => [executable; model; "--solver"; solver; "-t"; pretty time_limit]
  end.

(** Lines 111-113. *)
Definition finish (fr : Frame) : ProblemResults :=
  {| model := model (results_obj fr);
     problem_instance := problem_instance (results_obj fr);
     solved := found_one_solution fr;
     results := results (results_obj fr) |}.

Definition run_problem (w : World) (model : string) (problem_instance : option string)
    (executable : string) (time_limit : Z) (save_percentages : list Z)
    (solver : string) : Outcome :=
  if negb (which w executable) then
    {| spawned := [];
       returned := Raise (FileNotFoundError
                            ("Executable (" +:+ executable +:+ ") was not found")) |}
  else if negb (path_exists w model) then
    {| spawned := [];
       returned := Raise (FileNotFoundError
                            ("Model (" +:+ model +:+ ") was not found")) |}
  else if truthy problem_instance
          && negb (path_exists w (default "" problem_instance)) then
    {| spawned := [];
       returned := Raise (FileNotFoundError
                            ("Problem instance (" +:+ default "" problem_instance
                             +:+ ") was not found")) |}
  else
    match Py.getitem save_percentages 0 with
    | Raise e => {| spawned := []; returned := Raise e |}
    | Ok first =>
        let command := command_of executable model problem_instance solver time_limit in
        {| spawned := [command];
           returned :=
             let* fr := run_loop time_limit save_percentages
                          (initial_frame model problem_instance first)
                          (proc_stdout w command) in
             Ok (finish fr) |}
    end.

(** ** The database of problems and results *)

(** What a column of a row can hold. *)
Inductive sql_value : Type :=
  | Null
  | Integer (z : Z)
  | Real (f : float)
  | Text (s : string).

(** Modelled from the spec: the declaration of the table [todo] is not in
    the source. A row is a problem id, a model path and an optional instance
    path, read back as an [int] and as [str] or [None]. *)
Record TodoRow : Type := {
  todo_id : Z;
  todo_mzn : option string;
  todo_dzn : option string
}.

(** The database file: each of the two tables is there or not; a table is
    the list of its rows in the order a scan yields them. A table [features]
    that is there is the table [setup_db] declares: a file in which something
    else goes by that name, which [CREATE TABLE if not exists] would keep as
    it is, is not a [Database]. A row of [features] holds the values as they
    were bound to the statement; the conversion a column's declared type
    applies on storage is not modelled (nothing reads the table back). *)
Record Database : Type := {
  todo_table : option (list TodoRow);
  features_table : option (list (list sql_value))
}.

(** The exceptions of the database functions and of the script: those of
    [run_problem], and those of the subscripts and of [sqlite3]. *)
Inductive error : Type :=
  | Core (e : exn)
  | KeyError (key : string)
  | IntegrityError
  | OperationalError
  | ProgrammingError.

Inductive attempt (A : Type) : Type :=
  | Done (a : A)
  | Failed (e : error).
Arguments Done {A} a.
Arguments Failed {A} e.

Definition and_then {A B : Type} (r : attempt A) (k : A -> attempt B)
    : attempt B :=
  match r with
  | Done a => k a
  | Failed e => Failed e
  end.

(** The elements of a tuple are evaluated from left to right: the first
    failure is the failure of the whole. *)
Fixpoint collect {A : Type} (l : list (attempt A)) : attempt (list A) :=
  match l with
  | [] => Done []
  | r :: rest =>
      and_then r (fun a => and_then (collect rest) (fun l' => Done (a :: l')))
  end.

(** The Python values the script binds to a statement. *)
Inductive py_value : Type :=
  | PyNone
  | PyStr (s : string)
  | PyFloat (f : float)
  | PyBool (b : bool).

Definition py_of_path (p : option string) : py_value :=
  match p with
  | Some s => PyStr s
  | None => PyNone
  end.

(** How [sqlite3] binds a Python value: [None] as NULL, a [bool] as 0 or 1,
    and a [float] as itself, but for NaN, which is stored as NULL. *)
Definition adapt (v : py_value) : sql_value :=
  match v with
  | PyNone => Null
  | PyStr s => Text s
  | PyFloat f => if PrimFloat.is_nan f then Null else Real f
  | PyBool b => Integer (if b then 1 else 0)
  end.

(** The columns [setup_db] declares for one checkpoint, after the prefix
    [pN_], each with whether it is [not null]; the same 35 for each of
    [p5_], [p10_], [p15_] and [p20_]. *)
Definition checkpoint_columns : list (string * bool) :=
  [
   ("restarts", true); ("conflicts", true); ("ewma_conflicts", true);
   ("ewma_roc_conflicts", true); ("decision_level_mip", false);
   ("ewma_decision_level_mip", false); ("decision_level_engine", false);
   ("ewma_decision_level_engine", false); ("decision_level_sat", false);
   ("ewma_decision_level_sat", false); ("nodes", true);
   ("ewma_opennodes", true); ("ewma_roc_opennodes", true); ("vars", true);
   ("back_jumps", true); ("ewma_back_jumps", true);
   ("ewma_roc_back_jumps", true); ("solutions", true);
   ("ewma_roc_solutions", true); ("total_time", true);
   ("search_time", true); ("intVars", true); ("propagations", true);
   ("ewma_propagations", true); ("ewma_roc_propagations", true);
   ("propagators", true); ("boolVars", true); ("learnt", true);
   ("bin", true); ("tern", true); ("long_vars", true);
   ("peak_depth", true); ("best_objective", false);
   ("ewma_best_objective", false); ("ewma_roc_best_objective", false)
  ].

(** The prefixes of the four groups of columns. *)
Definition checkpoint_prefixes : list string := ["p5_"; "p10_"; "p15_"; "p20_"].

(** The table [features] as [setup_db] declares it: the name of every
    column and whether it is [not null]. The primary key is [(mzn, dzn)]. *)
Definition features_columns : list (string * bool) :=
  [("mzn", true); ("dzn", true)]
  ++ flat_map (fun p => map (fun c => (p +:+ fst c, snd c)) checkpoint_columns)
       checkpoint_prefixes
  ++ [("solved_within_time_limit", true)].

(** The columns the [INSERT] statement names for one checkpoint, after the
    prefix. *)
Definition insert_checkpoint_columns : list string :=
  [
   "restarts"; "conflicts"; "ewma_conflicts"; "ewma_roc_conflicts";
   "decision_level_mip"; "ewma_decision_level_mip";
   "decision_level_engine"; "ewma_decision_level_engine";
   "decision_level_sat"; "ewma_decision_level_sat"; "nodes";
   "ewma_opennodes"; "ewma_roc_opennodes"; "vars"; "back_jumps";
   "ewma_back_jumps"; "ewma_roc_back_jumps"; "solutions";
   "ewma_roc_solutions"; "total_time"; "search_time"; "intVars";
   "propagations"; "ewma_propagations"; "ewma_roc_propagations";
   "propagators"; "boolVars"; "learnt"; "bin"; "tern"; "long_vars";
   "peak_depth"; "best_objective"; "ewma_best_objective";
   "ewma_roc_best_objective"
  ].

(** The columns the [INSERT] statement names, in its order. *)
Definition insert_columns : list string :=
  ["mzn"; "dzn"]
  ++ flat_map (fun p => map (fun c => p +:+ c) insert_checkpoint_columns)
       checkpoint_prefixes
  ++ ["solved_within_time_limit"].

(** The [?] of the statement: two, four lines of 35, and one. *)
Definition insert_placeholders : nat := (2 + 4 * 35 + 1)%nat.

(** The keys read from the features of one snapshot, in the order of the
    tuple. *)
Definition insert_feature_keys : list string :=
  [
   "restarts"; "conflicts"; "ewma_conflicts"; "ewma_roc_conflicts";
   "decision_level_mip"; "ewma_decision_level_mip";
   "decision_level_engine"; "ewma_decision_level_engine";
   "decision_level_sat"; "ewma_decision_level_sat"; "nodes";
   "ewma_opennodes"; "ewma_roc_opennodes"; "vars"; "back_jumps";
   "ewma_back_jumps"; "ewma_roc_back_jumps"; "solutions";
   "ewma_roc_solutions"; "total_time"; "search_time"; "intVars";
   "propagations"; "ewma_propagations"; "ewma_roc_propagations";
   "propagators"; "boolVars"; "learnt"; "bin"; "tern"; "long";
   "peak_depth"; "best_objective"; "ewma_best_objective";
   "ewma_roc_best_objective"
  ].

(** [result_set[i].features[key]]. *)
Definition feature_of (result_set : list Output) (i : nat) (key : string)
    : attempt py_value :=
  match result_set !! i with
  | None => Failed (Core IndexError)
  | Some o =>
      match features o !! key with
      | Some v => Done (PyFloat v)
      | None => Failed (KeyError key)
      end
  end.

(** The tuple of parameters of the [INSERT] (lines 338-483). *)
Definition insert_parameters (mzn dzn : option string)
    (problem_results : ProblemResults) : attempt (list py_value) :=
  let result_set := results problem_results in
  and_then
    (collect (flat_map (fun i => map (feature_of result_set i) insert_feature_keys)
                [0; 1; 2; 3]%nat))
    (fun values =>
       Done (py_of_path mzn :: py_of_path dzn :: values
             ++ [PyBool (solved problem_results)])).

(** The position of a name in a list of names. *)
Fixpoint index_of (name : string) (names : list string) : option nat :=
  match names with
  | [] => None
  | n :: rest =>
      if String.eqb n name then Some 0%nat
      else option_map S (index_of name rest)
  end.

(** The row an [INSERT] makes: every column of the table takes the value
    bound to the placeholder of its name, and NULL when the statement does
    not name it. *)
Definition row_of_insert (table : list (string * bool)) (columns : list string)
    (values : list sql_value) : list sql_value :=
  map (fun c =>
         match index_of (fst c) columns with
         | Some i => default Null (values !! i)
         | None => Null
         end) table.

(** A [not null] column of the row holds NULL. *)
Definition violates_not_null (table : list (string * bool))
    (row : list sql_value) : bool :=
  existsb (fun cv =>
             snd (fst cv)
             && match snd cv with Null => true | _ => false end)
    (zip table row).

Definition sql_text_eqb (a b : sql_value) : bool :=
  match a, b with
  | Text s, Text t => String.eqb s t
  | _, _ => false
  end.

(** The primary key [(mzn, dzn)] of the row is the key of a row of the
    table. *)
Definition duplicates_key (rows : list (list sql_value))
    (row : list sql_value) : bool :=
  existsb (fun r =>
             sql_text_eqb (default Null (r !! 0%nat)) (default Null (row !! 0%nat))
             && sql_text_eqb (default Null (r !! 1%nat)) (default Null (row !! 1%nat)))
    rows.

(** [CREATE TABLE if not exists features]. *)
Definition setup_db (db : Database) : Database :=
  match features_table db with
  | Some _ => db
  | None => {| todo_table := todo_table db; features_table := Some [] |}
  end.

(** [SELECT id, mzn, dzn from todo limit 1], or three times [None]. *)
Definition read_next_problem_from_db (db : Database)
    : attempt (option Z * option string * option string) :=
  match todo_table db with
  | None => Failed OperationalError
  | Some [] => Done (None, None, None)
  | Some (row :: _) => Done (Some (todo_id row), todo_mzn row, todo_dzn row)
  end.

(** [DELETE FROM todo WHERE id=(?)]: no row has an id equal to NULL. *)
Definition remove_id_from_todo_list (db : Database) (id : option Z)
    : attempt Database :=
  match todo_table db with
  | None => Failed OperationalError
  | Some rows =>
      Done {| todo_table :=
                Some (match id with
                      | Some i => List.filter (fun r => negb (todo_id r =? i)) rows
                      | None => rows
                      end);
              features_table := features_table db |}
  end.

(** The tuple is built before the statement runs; the statement fails
    without a table, on a wrong number of parameters, and on a row that
    breaks a constraint; a failed statement leaves the table as it was. *)
Definition insert_result_set_in_db (db : Database) (mzn dzn : option string)
    (problem_results : ProblemResults) : attempt Database :=
  and_then (insert_parameters mzn dzn problem_results) (fun parameters =>
    match features_table db with
    | None => Failed OperationalError
    | Some rows =>
        if negb (length parameters =? insert_placeholders)%nat
        then Failed ProgrammingError
        else
          let row := row_of_insert features_columns insert_columns
                       (map adapt parameters) in
          if violates_not_null features_columns row || duplicates_key rows row
          then Failed IntegrityError
          else Done {| todo_table := todo_table db;
                       features_table := Some (rows ++ [row]) |}
    end).

(** ** The script *)

Definition save_points : list Z := [5; 10; 15; 20].

(** What a run of the script leaves behind: the database, the problems it
    announced with [Running id: ...], in order, and the exception that
    stopped it, if any. *)
Record Script : Type := {
  database : Database;
  announced : list (option Z * string * option string);
  stopped : option error
}.

(** The [while] loop of the script, entered with the problem read last and
    already removed from [todo]; [worlds n] is the world around the [n]-th
    call of [run_problem]. The loop is unfolded [fuel] times at most. *)
Fixpoint main_loop (fuel : nat) (worlds : nat -> World) (n : nat)
    (db : Database) (current : option Z * option string * option string)
    (log : list (option Z * string * option string)) : option Script :=
  let '(id, mzn, dzn) := current in
  match mzn with
  | None => Some {| database := db; announced := log; stopped := None |}
  | Some mzn =>
      match fuel with
      | O => None
      | S fuel =>
          let log := log ++ [(id, mzn, dzn)] in
          match returned (run_problem (worlds n) mzn dzn default_executable
                            default_time_limit save_points default_solver) with
          | Raise e =>
              Some {| database := db; announced := log;
                      stopped := Some (Core e) |}
          | Ok problem_results =>
              match (if (length (results problem_results)
                         =? length save_points)%nat
                     then insert_result_set_in_db db (Some mzn) dzn
                            problem_results
                     else Done db) with
              | Failed e =>
                  Some {| database := db; announced := log; stopped := Some e |}
              | Done db =>
                  match read_next_problem_from_db db with
                  | Failed e =>
                      Some {| database := db; announced := log;
                              stopped := Some e |}
                  | Done next =>
                      match remove_id_from_todo_list db (fst (fst next)) with
                      | Failed e =>
                          Some {| database := db; announced := log;
                                  stopped := Some e |}
                      | Done db => main_loop fuel worlds (S n) db next log
                      end
                  end
              end
          end
      end
  end.

(** The rows of [todo], none when the table is not there. *)
Definition todo_rows (db : Database) : list TodoRow :=
  default [] (todo_table db).

(** The script: the table is set up, the first problem is read and removed,
    and the loop is run, with one unfolding for every row of [todo]. *)
Definition main (worlds : nat -> World) (db : Database) : option Script :=
  let db := setup_db db in
  match read_next_problem_from_db db with
  | Failed e => Some {| database := db; announced := []; stopped := Some e |}
  | Done next =>
      match remove_id_from_todo_list db (fst (fst next)) with
      | Failed e => Some {| database := db; announced := []; stopped := Some e |}
      | Done db' => main_loop (length (todo_rows db)) worlds 0 db' next []
      end
  end.

(** ** Vocabulary of the properties *)

(** [line] starts with the literal [p]. *)
Definition starts_with (p line : string) : Prop :=
  exists rest, line = p +:+ rest.

(** Every character of [p] is an ASCII character. *)
Fixpoint all_ascii (p : string) : bool :=
  match p with
  | "" => true
  | String c p' => (Py.byte_of c <? 128) && all_ascii p'
  end.

(** The three checks made before the child is spawned (lines 54-59). *)
Definition checks_pass (w : World) (executable model : string)
    (problem_instance : option string) : bool :=
  which w executable && path_exists w model
  && (negb (truthy problem_instance)
      || path_exists w (default "" problem_instance)).

(** The condition of the checkpoint test in the words of its contract: a
    target remains, and the elapsed share of the budget has reached it. *)
Definition target_due (elapsed : float) (timeout : Z)
    (save_percentages : list Z) (save_idx : Z) : Prop :=
  save_idx < Z.of_nat (length save_percentages) /\
  exists budget share target goal,
    Py.int_truediv timeout 1000 = Ok budget /\
    Py.float_truediv elapsed budget = Ok share /\
    Py.getitem save_percentages save_idx = Ok target /\
    Py.int_truediv target 100 = Ok goal /\
    Py.float_ge share goal = true.

(** The due check returned [True]. *)
Definition is_due (elapsed : float) (time_limit : Z)
    (save_percentages : list Z) (save_idx : Z) : bool :=
  match reached_save_point elapsed time_limit save_percentages save_idx with
  | Ok true => true
  | _ => false
  end.

(** A capture is begun on this line: it is a statistics line, no capture is
    pending, and the due check succeeds. *)
Definition capture_begins (time_limit : Z) (save_percentages : list Z)
    (fr : Frame) (timed_line : float * string) : bool :=
  is_stat_related (snd timed_line)
  && negb (capture_next_block fr)
  && is_due (fst timed_line) time_limit save_percentages (save_idx fr).

(** The checkpoint targets consumed so far, counted from what they produced:
    one per finalized snapshot, and one for a capture still pending. *)
Definition consumed_targets (fr : Frame) : Z :=
  Z.of_nat (length (results (results_obj fr)))
  + (if capture_next_block fr then 1 else 0).

(** The machine is in the capturing-next-block state. *)
Definition capturing_next_block (fr : Frame) : Prop :=
  capture_next_block fr = true /\ is_next_block fr = true.

(** The text after the 13-character prefix does not split at ['='] into
    exactly a name and a value, or the value is not a number for [float]. *)
Definition malformed_value (line : string) : bool :=
  match Py.split "=" (Py.slice_from 13 line) with
  | [_; stat] => match Py.float stat with Some _ => false | None => true end
  | _ => true
  end.

(** This line finalizes the pending snapshot. *)
Definition finalizes (fr : Frame) (line : string) : bool :=
  is_stat_related line && capture_next_block fr && is_next_block fr
  && negb (is_stat_value line) && stat_block_end line.

(** How many snapshots the loop finalizes on [lines], starting in [fr]. *)
Fixpoint finalized_count (time_limit : Z) (save_percentages : list Z)
    (fr : Frame) (lines : list (float * string)) : nat :=
  match lines with
  | [] => 0
  | tl :: rest =>
      match loop_body time_limit save_percentages fr tl with
      | Ok fr' =>
          ((if finalizes fr (snd tl) then 1 else 0)
           + finalized_count time_limit save_percentages fr' rest)%nat
      | Raise _ => 0%nat
      end
  end.

(** A statistics block: value lines, then the block-end line; every line
    with the elapsed time at which it is read. *)
Record Block : Type := {
  value_lines : list (float * string);
  end_line : float * string
}.

Definition block_lines (b : Block) : list (float * string) :=
  value_lines b ++ [end_line b].

(** The elapsed time at the first line of the block. *)
Definition block_start (b : Block) : float :=
  fst (hd (end_line b) (value_lines b)).

(** A value line that decodes and is read without error. *)
Definition well_formed_value (line : string) : bool :=
  Py.valid_utf8 line && is_stat_value line && is_ok (parse_value line).

(** Value lines of that kind, closed by a block-end line that decodes. *)
Definition well_formed (b : Block) : bool :=
  forallb (fun tl => well_formed_value (snd tl)) (value_lines b)
  && Py.valid_utf8 (snd (end_line b)) && stat_block_end (snd (end_line b)).

(** The values of a list of value lines, stored in order over [m]. *)
Definition store_values (m : gmap string float) (ls : list (float * string))
    : gmap string float :=
  foldl (fun m tl =>
           match parse_value (snd tl) with
           | Ok item => <[fst item := snd item]> m
           | Raise _ => m
           end) m ls.

(** The feature mapping a block describes. *)
Definition block_features (b : Block) : gmap string float :=
  store_values ∅ (value_lines b).

(** A stream in which every snapshot takes two blocks: the one at whose
    first line the capture begins, and the one after it. *)
Definition paired_stream (pairs : list (Block * Block)) : list (float * string) :=
  flat_map (fun p => block_lines (fst p) ++ block_lines (snd p)) pairs.

(** The target of index [k], [k + 1], ... is due at the first line of the
    first block of each pair in turn. *)
Fixpoint targets_due (time_limit : Z) (save_percentages : list Z) (k : Z)
    (pairs : list (Block * Block)) : bool :=
  match pairs with
  | [] => true
  | p :: rest =>
      is_due (block_start (fst p)) time_limit save_percentages k
      && targets_due time_limit save_percentages (k + 1) rest
  end.

(** [n] milliseconds of elapsed time, in seconds. *)
Definition ms (n : Z) : float := SF2Prim (Py.round_ratio false n 1000).

Definition value_line (name text : string) : string :=
  stat_value_prefix +:+ name +:+ "=" +:+ text +:+ Py.nl.

Definition block_end_line : string := stat_end_prefix +:+ Py.nl.

(** A world in which every check passes and the child writes [lines]. *)
Definition scripted_world (lines : list (float * string)) : World :=
  {| which := fun _ => true;
     path_exists := fun _ => true;
     proc_stdout := fun _ => lines |}.

(** The frame after the value lines [ls] were stored one after the other. *)
Definition store_all (ls : list (float * string)) (fr : Frame) : Frame :=
  foldl (fun fr tl =>
           match parse_value (snd tl) with
           | Ok item => store_feature (fst item) (snd item) fr
           | Raise _ => fr
           end) fr ls.

(** No capture is pending and the pending snapshot is still empty. *)
Definition idle (fr : Frame) : Prop :=
  capture_next_block fr = false /\ is_next_block fr = false /\
  features (output fr) = ∅.

(** The scenario of a single block read 600 ms into the run. *)
Definition block_at_600ms : list (float * string) :=
  [(ms 600, value_line "x" "1.0"); (ms 600, block_end_line)].

(** A result with the given snapshots and no solution seen. *)
Definition unsolved (m : string) (p : option string) (snapshots : list Output)
    : ProblemResults :=
  {| model := m; problem_instance := p; solved := false; results := snapshots |}.

(** A block of one value line, all of it read at [t] milliseconds. *)
Definition block_at (t : Z) (name text : string) : Block :=
  {| value_lines := [(ms t, value_line name text)];
     end_line := (ms t, block_end_line) |}.

(** A run on the default checkpoints with a budget of one second that ends
    early: two snapshots are finalized, a solution is reported in between,
    and the capture of the third target is still pending at the end. *)
Definition early_exit_stream : list (float * string) :=
  paired_stream [(block_at 60 "nodes" "10", block_at 70 "nodes" "25");
                 (block_at 120 "nodes" "40", block_at 130 "nodes" "55")]
  ++ [(ms 140, solution_line)]
  ++ block_lines (block_at 160 "nodes" "70")
  ++ [(ms 170, value_line "nodes" "85")].

(** What the due check of an iteration can do to the frame. *)
Inductive check_step (time_limit : Z) (save_percentages : list Z)
    (elapsed : float) (fr : Frame) : Frame -> Prop :=
  | check_begin target :
      capture_next_block fr = false ->
      is_due elapsed time_limit save_percentages (save_idx fr) = true ->
      Py.getitem save_percentages (save_idx fr) = Ok target ->
      check_step time_limit save_percentages elapsed fr (begin_capture target fr)
  | check_pass :
      negb (capture_next_block fr)
      && is_due elapsed time_limit save_percentages (save_idx fr) = false ->
      check_step time_limit save_percentages elapsed fr fr.

(** What the capture branch of an iteration can do to the frame. *)
Inductive capture_step (line : string) (fr : Frame) : Frame -> Prop :=
  | capture_store name value :
      capturing_next_block fr ->
      is_stat_value line = true ->
      parse_value line = Ok (name, value) ->
      capture_step line fr (store_feature name value fr)
  | capture_end :
      capturing_next_block fr ->
      is_stat_value line = false ->
      stat_block_end line = true ->
      capture_step line fr (end_capture fr)
  | capture_arm :
      capture_next_block fr = true ->
      is_next_block fr = false ->
      stat_block_end line = true ->
      capture_step line fr (arm_next_block fr)
  | capture_skip :
      capture_next_block fr && is_next_block fr
      && (is_stat_value line || stat_block_end line) = false ->
      capture_next_block fr && negb (is_next_block fr)
      && stat_block_end line = false ->
      capture_step line fr fr.

(** What holds of the frame at every line of every run. *)
Record frame_ok (save_percentages : list Z) (fr : Frame) : Prop := {
  idx_range : 0 <= save_idx fr <= Z.of_nat (length save_percentages);
  idx_consumed : save_idx fr = consumed_targets fr;
  next_needs_capture : is_next_block fr = true -> capture_next_block fr = true
}.

(** ** Vocabulary of the further properties *)

Definition result_map {A B : Type} (f : A -> B) (r : result A) : result B :=
  match r with
  | Ok a => Ok (f a)
  | Raise e => Raise e
  end.

(** The frame without its memory of a solution. *)
Definition forget_solution (fr : Frame) : Frame :=
  set_found_one_solution false fr.

(** The statistics lines of a stream, with their times. *)
Definition statistics_lines (lines : list (float * string))
    : list (float * string) :=
  List.filter (fun tl => is_stat_related (snd tl)) lines.

(** How often the character [c] occurs in [s]. *)
Fixpoint count_char (c : ascii) (s : string) : nat :=
  match s with
  | EmptyString => 0%nat
  | String a s' => ((if Ascii.eqb a c then 1 else 0) + count_char c s')%nat
  end.

(** The five kinds of line the loop tells apart, as a number: the solution
    marker, a value line, a block end, another statistics line, any other. *)
Definition line_kinds (line : string) : list bool :=
  [is_solution line;
   is_stat_value line;
   stat_block_end line;
   is_stat_related line && negb (is_stat_value line) && negb (stat_block_end line);
   negb (is_solution line) && negb (is_stat_related line)].

(** The labels a run gives its snapshots, as the program assigns them. *)
Definition labels_given (save_percentages : list Z) (n : nat) : list Z :=
  match save_percentages with
  | [] => []
  | first :: _ => take n (first :: save_percentages)
  end.

(** What holds of the labels in the frame at every line of every run. *)
Record labels_ok (first : Z) (save_percentages : list Z) (fr : Frame)
    : Prop := {
  labels_so_far :
    map percent (results (results_obj fr))
    = take (length (results (results_obj fr))) (first :: save_percentages);
  label_pending :
    (first :: save_percentages) !! length (results (results_obj fr))
    = Some (percent (output fr));
  label_next :
    (first :: save_percentages) !! Z.to_nat (save_idx fr)
    = Some (next_save_point fr)
}.

(** The exceptions the loop can raise. *)
Definition loop_error (e : exn) : Prop :=
  e = UnicodeDecodeError \/ e = ValueError \/ e = ZeroDivisionError
  \/ e = OverflowError.

(** The value a snapshot gives for a key, as it is stored; NULL stands in
    where the snapshot has no such key. *)
Definition stored_feature (o : Output) (key : string) : sql_value :=
  match features o !! key with
  | Some v => adapt (PyFloat v)
  | None => Null
  end.

(** A snapshot has every feature the [INSERT] reads. *)
Definition has_all_features (o : Output) : Prop :=
  Forall (fun key => is_Some (features o !! key)) insert_feature_keys.

(** The row the [INSERT] is meant to store, column by column: the two
    paths, for each of the four groups of columns the features of the
    snapshot at the same position, and the solved flag. *)
Definition row_by_column (mzn dzn : string) (snapshots : list Output)
    (is_solved : bool) : list (string * sql_value) :=
  [("mzn", Text mzn); ("dzn", Text dzn)]
  ++ flat_map (fun po =>
                 map (fun ck => (fst po +:+ fst ck, stored_feature (snd po) (snd ck)))
                   (zip insert_checkpoint_columns insert_feature_keys))
       (zip checkpoint_prefixes snapshots)
  ++ [("solved_within_time_limit", Integer (if is_solved then 1 else 0))].

(** The problem a row of [todo] is announced as. *)
Definition announce (row : TodoRow) : option Z * string * option string :=
  (Some (todo_id row), default "" (todo_mzn row), todo_dzn row).

(** The rows of [features], none when the table is not there. *)
Definition features_rows (db : Database) : list (list sql_value) :=
  default [] (features_table db).

(** The table [features] of the database was made by [setup_db]: the
    database is what [setup_db], insertions and changes of [todo] make of a
    database that had no table [features]. *)
Inductive features_by_setup : Database -> Prop :=
  | by_setup db :
      features_table db = None -> features_by_setup (setup_db db)
  | by_insert db mzn dzn problem_results db' :
      features_by_setup db ->
      insert_result_set_in_db db mzn dzn problem_results = Done db' ->
      features_by_setup db'
  | by_todo db rows :
      features_by_setup db ->
      features_by_setup {| todo_table := rows;
                           features_table := features_table db |}.

(** A snapshot with every feature the [INSERT] reads, all at [v]. *)
Definition full_snapshot (p : Z) (v : float) : Output :=
  {| percent := p;
     features := list_to_map (map (fun key => (key, v)) insert_feature_keys) |}.

(** A complete result for the default checkpoints. *)
Definition complete_result (m : string) (p : option string) : ProblemResults :=
  {| model := m; problem_instance := p; solved := true;
     results := [full_snapshot 5 1; full_snapshot 5 2;
                 full_snapshot 10 3; full_snapshot 15 4] |}.

(** A database with both tables and nothing in them. *)
Definition empty_database : Database :=
  {| todo_table := Some []; features_table := Some [] |}.

(** What reading the next problem returns: the first row, or three times
    [None] when there is none. *)
Definition problem_of (row : option TodoRow)
    : option Z * option string * option string :=
  match row with
  | Some c => (Some (todo_id c), todo_mzn c, todo_dzn c)
  | None => (None, None, None)
  end.

(** A block that reports every feature the [INSERT] reads, all at [text],
    read [t] milliseconds into the run. *)
Definition full_block (t : Z) (text : string) : Block :=
  {| value_lines := map (fun key => (ms t, value_line key text))
                      insert_feature_keys;
     end_line := (ms t, block_end_line) |}.

(** A run of two hours that reaches its four checkpoints, each captured
    from a full block. *)
Definition complete_stream : list (float * string) :=
  paired_stream [(full_block 400000 "0", full_block 500000 "1");
                 (full_block 800000 "0", full_block 900000 "2");
                 (full_block 1200000 "0", full_block 1300000 "3");
                 (full_block 1500000 "0", full_block 1600000 "4")].

(** A queue of three problems: the second has no instance, the third
    shares the id of the first. *)
Definition sample_queue : Database :=
  {| todo_table :=
       Some [{| todo_id := 1; todo_mzn := Some "a.mzn"; todo_dzn := Some "a.dzn" |};
             {| todo_id := 2; todo_mzn := Some "b.mzn"; todo_dzn := None |};
             {| todo_id := 1; todo_mzn := Some "c.mzn"; todo_dzn := Some "c.dzn" |}];
     features_table := None |}.

(** Worlds in which the first run is complete and every later one ends
    early. *)
Definition sample_worlds (n : nat) : World :=
  match n with
  | O => scripted_world complete_stream
  | S _ => scripted_world early_exit_stream
  end.

(** What holds of a script that has ended, normally or not, on the rows
    [rows] of [todo] and the rows [before] of [features], having announced
    [log] already: it ran the rows [ran]. *)
Record script_ok (rows : list TodoRow) (before : list (list sql_value))
    (log : list (option Z * string * option string)) (s : Script)
    (ran : list TodoRow) : Prop := {
  ok_announced : announced s = log ++ map announce ran;
  ok_models : Forall (fun r => is_Some (todo_mzn r)) ran;
  ok_order : ran ++ todo_rows (database s) `sublist_of` rows;
  ok_removed :
    Forall (fun r =>
              Forall (fun x => todo_id x <> todo_id r)
                (todo_rows (database s))) ran;
  ok_features : before `prefix_of` features_rows (database s);
  ok_growth :
    (length (features_rows (database s)) <= length before + length ran)%nat;
  ok_stopped :
    stopped s <> Some (Core IndexError)
    /\ stopped s <> Some ProgrammingError
}.

(** The result of a call, or an empty one when the call raises. *)
Definition result_or_empty (o : Outcome) : ProblemResults :=
  match returned o with
  | Ok r => r
  | Raise _ => unsolved "" None []
  end.

(** The run that ends early, on the default checkpoints and a budget of a
    second, and the run that is complete, with the defaults of the script. *)
Definition early_exit_run : Outcome :=
  run_problem (scripted_world early_exit_stream) "model.mzn" None
    default_executable 1000 default_save_percentages default_solver.

Definition complete_run : Outcome :=
  run_problem (scripted_world complete_stream) "a.mzn" (Some "a.dzn")
    default_executable default_time_limit save_points default_solver.

(** How many block-end lines a stream has. *)
Definition block_ends (lines : list (float * string)) : nat :=
  length (List.filter (fun tl => stat_block_end (snd tl)) lines).

(** The block ends a frame has used up: two for every snapshot, and one
    when the capture is armed. *)
Definition block_ends_used (fr : Frame) : nat :=
  (2 * length (results (results_obj fr))
   + (if is_next_block fr then 1 else 0))%nat.

(** * Properties *)

(** ** The built-ins on small inputs *)

Example float_of_literals :
  Py.float "3.5" = Some 3.5%float /\
  Py.float ("1.0" +:+ Py.nl) = Some 1%float /\
  Py.float " -1_0.5e+1 " = Some (-105)%float /\
  Py.float "-0" = Some (-0)%float /\
  Py.float "1e400" = Some infinity /\
  Py.float "Infinity" = Some infinity /\
  Py.float "garbage" = None /\
  Py.float "" = None /\
  Py.float "1_" = None /\
  Py.float "1e" = None /\
  Py.float "0x10" = None.
Proof. repeat split; vm_compute; reflexivity. Qed.

(** Only the blank and the controls 9 to 13 are stripped among the ASCII
    characters; outside ASCII, white space counts as a blank and the decimal
    digits of any script as digits. *)
Example float_of_texts :
  Py.float (String (ascii_of_nat 9) "1.5" +:+ String (ascii_of_nat 13) "")
  = Some 1.5%float /\
  Py.float ("1.5" +:+ String (ascii_of_nat 31) Py.nl) = None /\
  Py.float (String (ascii_of_nat 28) "1.5") = None /\
  Py.float ("1.5" +:+ String (ascii_of_nat 127) "") = None /\
  Py.float ("1.5" +:+ String (ascii_of_nat 0) "") = None /\
  Py.float ("1.5" +:+ String (ascii_of_nat 194) (String (ascii_of_nat 160) ""))
  = Some 1.5%float /\
  Py.float "١٢.٥" = Some 12.5%float /\
  Py.float "１_０" = Some 10%float /\
  Py.float "1.5é" = None /\
  Py.float "²" = None.
Proof. repeat split; vm_compute; reflexivity. Qed.

Example decode_of_bytes :
  Py.decode ("né€" +:+ Py.nl) = Ok ("né€" +:+ Py.nl) /\
  Py.decode (String (ascii_of_nat 255) Py.nl) = Raise UnicodeDecodeError /\
  Py.decode (String (ascii_of_nat 192) (String (ascii_of_nat 128) ""))
  = Raise UnicodeDecodeError /\
  Py.decode (String (ascii_of_nat 237)
               (String (ascii_of_nat 160) (String (ascii_of_nat 128) "")))
  = Raise UnicodeDecodeError /\
  Py.decode (String (ascii_of_nat 226) (String (ascii_of_nat 130) ""))
  = Raise UnicodeDecodeError /\
  Py.decode (String (ascii_of_nat 128) "") = Raise UnicodeDecodeError.
Proof. repeat split. Qed.

Example slices_by_character :
  Py.slice_to 2 "éa€b" = "éa" /\
  Py.slice_from 2 "éa€b" = "€b" /\
  Py.slice_to 13 "%%%mzn-stat: x=1" = "%%%mzn-stat: " /\
  Py.slice_from 13 "%%%mzn-stat: x=1" = "x=1" /\
  Py.slice_to 5 "abc" = "abc" /\
  Py.slice_from 5 "abc" = "" /\
  Py.codepoints "éa€" = [233; 97; 8364].
Proof. repeat split. Qed.

Example split_at_equals :
  Py.split "=" "x=1.0" = ["x"; "1.0"] /\
  Py.split "=" "garbage" = ["garbage"] /\
  Py.split "=" "a=b=c" = ["a"; "b"; "c"] /\
  Py.split "=" "" = [""] /\
  Py.split "=" "a=" = ["a"; ""].
Proof. repeat split. Qed.

Example getitem_indices :
  Py.getitem [5; 10; 15] 0 = Ok 5 /\
  Py.getitem [5; 10; 15] (-1) = Ok 15 /\
  Py.getitem [5; 10; 15] 3 = Raise IndexError /\
  Py.getitem [5; 10; 15] (-4) = Raise IndexError /\
  Py.getitem (@nil Z) 0 = Raise IndexError.
Proof. repeat split. Qed.

Example int_truediv_quotients :
  Py.int_truediv 50 100 = Ok 0.5%float /\
  Py.int_truediv 7200000 1000 = Ok 7200%float /\
  Py.int_truediv (-7) 2 = Ok (-3.5)%float /\
  Py.int_truediv 0 (-5) = Ok (-0)%float /\
  Py.int_truediv 1 0 = Raise ZeroDivisionError /\
  Py.int_truediv (10 ^ 400) 1 = Raise OverflowError.
Proof. repeat split; vm_compute; reflexivity. Qed.

Example reached_save_point_cases :
  reached_save_point (ms 600) 1000 [50] 0 = Ok true /\
  reached_save_point (ms 500) 1000 [50] 0 = Ok true /\
  reached_save_point (ms 499) 1000 [50] 0 = Ok false /\
  reached_save_point (ms 600) 1000 [50] 1 = Ok false /\
  reached_save_point (ms 600) 1000 [50] 2 = Raise IndexError /\
  reached_save_point (ms 600) 0 [50] 0 = Raise ZeroDivisionError /\
  reached_save_point nan 1000 [50] 0 = Ok false.
Proof. repeat split; vm_compute; reflexivity. Qed.

(** ** The error monad *)

Lemma bind_Ok {A B : Type} (r : result A) (k : A -> result B) (b : B) :
  bind r k = Ok b <-> exists a, r = Ok a /\ k a = Ok b.
Proof.
  destruct r as [a|e]; simpl; split.
  - intros H. exists a. split; [reflexivity | exact H].
  - intros (a' & Ha & Hk). injection Ha as ->. exact Hk.
  - discriminate.
  - intros (a' & Ha & _). discriminate.
Qed.

(** ** Line classification *)

Section Prefixes.

Lemma char_width_ascii (c : ascii) :
  (Py.byte_of c <? 128) = true -> Py.char_width c = 1%nat.
Proof.
  intros H. unfold Py.char_width. cbv zeta.
  destruct (Py.byte_of c <? 192) eqn:E; [reflexivity | lia].
Qed.

(** The first characters of a line are an ASCII literal exactly when its
    first bytes are. *)
Lemma slice_to_prefix (p line : string) :
  all_ascii p = true ->
  Py.slice_to (String.length p) line = p <-> starts_with p line.
Proof.
  unfold Py.slice_to. revert line.
  induction p as [|a p IH]; intros line Hp; cbn [String.length].
  - destruct line; cbn; (split; [intros _; eexists; reflexivity | reflexivity]).
  - cbn [all_ascii] in Hp. apply andb_true_iff in Hp as [Ha Hp].
    destruct line as [|c line]; cbn [Py.take_chars].
    + split; [discriminate | intros [rest H]; discriminate].
    + split.
      * intros H. injection H as -> H.
        rewrite (char_width_ascii a Ha) in H. cbn [Nat.sub] in H.
        apply (IH line Hp) in H as [rest ->].
        exists rest. reflexivity.
      * intros [rest H]. cbn in H. injection H as -> ->. f_equal.
        rewrite (char_width_ascii a Ha). cbn [Nat.sub].
        apply (IH _ Hp). exists rest. reflexivity.
Qed.

Lemma is_stat_related_prefix line :
  is_stat_related line = true <-> starts_with stat_prefix line.
Proof.
  unfold is_stat_related. rewrite String.eqb_eq.
  apply (slice_to_prefix stat_prefix). reflexivity.
Qed.

Lemma is_stat_value_prefix line :
  is_stat_value line = true <-> starts_with stat_value_prefix line.
Proof.
  unfold is_stat_value. rewrite String.eqb_eq.
  apply (slice_to_prefix stat_value_prefix). reflexivity.
Qed.

Lemma stat_block_end_prefix line :
  stat_block_end line = true <-> starts_with stat_end_prefix line.
Proof.
  unfold stat_block_end. rewrite String.eqb_eq.
  apply (slice_to_prefix stat_end_prefix). reflexivity.
Qed.

(** Value lines and block-end lines are statistics lines, and no line is
    both; a statistics line is not the solution marker. *)
Lemma is_stat_value_related line :
  is_stat_value line = true -> is_stat_related line = true.
Proof.
  rewrite is_stat_value_prefix, is_stat_related_prefix.
  intros [rest ->]. exists (": " +:+ rest). reflexivity.
Qed.

Lemma stat_block_end_related line :
  stat_block_end line = true -> is_stat_related line = true.
Proof.
  rewrite stat_block_end_prefix, is_stat_related_prefix.
  intros [rest ->]. exists ("-end" +:+ rest). reflexivity.
Qed.

Lemma stat_block_end_not_value line :
  stat_block_end line = true -> is_stat_value line = false.
Proof.
  rewrite stat_block_end_prefix. intros [rest ->]. reflexivity.
Qed.

Lemma is_stat_value_not_end line :
  is_stat_value line = true -> stat_block_end line = false.
Proof.
  rewrite is_stat_value_prefix. intros [rest ->]. reflexivity.
Qed.

Lemma is_stat_related_not_solution line :
  is_stat_related line = true -> is_solution line = false.
Proof.
  rewrite is_stat_related_prefix. intros [rest ->]. reflexivity.
Qed.

End Prefixes.

(** C6. A line is statistics-related exactly when it starts with
    [%%%mzn-stat], a value line exactly when it starts with [%%%mzn-stat: ]
    (with the blank), and a block end exactly when it starts with
    [%%%mzn-stat-end]; nothing but the prefix is looked at, and the empty line
    is none of the three (nor the solution marker). *)
Theorem classifiers_are_prefix_tests :
  (forall line,
      (is_stat_related line = true <-> starts_with "%%%mzn-stat" line) /\
      (is_stat_value line = true <-> starts_with "%%%mzn-stat: " line) /\
      (stat_block_end line = true <-> starts_with "%%%mzn-stat-end" line)) /\
  is_stat_related "" = false /\ is_stat_value "" = false /\
  stat_block_end "" = false /\ is_solution "" = false.
Proof.
  split; [|repeat split].
  intros line. split; [|split].
  - apply is_stat_related_prefix.
  - apply is_stat_value_prefix.
  - apply stat_block_end_prefix.
Qed.

(** ** The checkpoint test *)

Lemma getitem_range {A : Type} (l : list A) (i : Z) (a : A) :
  Py.getitem l i = Ok a ->
  - Z.of_nat (length l) <= i < Z.of_nat (length l).
Proof.
  unfold Py.getitem.
  destruct (i <? 0) eqn:Hneg;
    destruct (_ || _) eqn:Hout; try discriminate;
    apply orb_false_iff in Hout as [H1 H2]; lia.
Qed.

Lemma getitem_nonneg {A : Type} (l : list A) (i : Z) :
  0 <= i ->
  Py.getitem l i = match l !! Z.to_nat i with
                   | Some a => Ok a
                   | None => Raise IndexError
                   end.
Proof.
  intros Hi. unfold Py.getitem.
  destruct (i <? 0) eqn:Hneg; [lia|].
  destruct (_ || _) eqn:Hout; [|reflexivity].
  apply orb_true_iff in Hout as [H|H]; [lia|].
  rewrite (lookup_ge_None_2 l (Z.to_nat i)); [reflexivity | lia].
Qed.

(** When the due check returns [True], the target it compared with exists. *)
Lemma is_due_target (elapsed : float) (timeout : Z) (save_percentages : list Z)
    (save_idx : Z) :
  is_due elapsed timeout save_percentages save_idx = true ->
  exists target, Py.getitem save_percentages save_idx = Ok target.
Proof.
  unfold is_due, reached_save_point.
  destruct (save_idx =? _); [discriminate|].
  destruct (Py.int_truediv timeout 1000) as [budget|]; [|discriminate].
  cbn [bind].
  destruct (Py.float_truediv elapsed budget) as [share|]; [|discriminate].
  cbn [bind].
  destruct (Py.getitem save_percentages save_idx) as [target|]; [|discriminate].
  intros _. exists target. reflexivity.
Qed.

(** C8. [reached_save_point] returns [True] exactly when a target remains
    ([save_idx] is below the length of the list) and the elapsed time divided
    by the budget in seconds is at least the target divided by 100, all in the
    arithmetic of the program. *)
Theorem reached_save_point_iff (elapsed : float) (timeout : Z)
    (save_percentages : list Z) (save_idx : Z) :
  reached_save_point elapsed timeout save_percentages save_idx = Ok true
  <-> target_due elapsed timeout save_percentages save_idx.
Proof.
  unfold reached_save_point, target_due. split.
  - destruct (save_idx =? _) eqn:Hend; [discriminate|].
    intros H.
    apply bind_Ok in H as (budget & Hb & H).
    apply bind_Ok in H as (share & Hs & H).
    apply bind_Ok in H as (target & Ht & H).
    apply bind_Ok in H as (goal & Hg & H).
    injection H as H.
    split.
    + apply getitem_range in Ht. lia.
    + exists budget, share, target, goal. repeat split; assumption.
  - intros (Hlt & budget & share & target & goal & Hb & Hs & Ht & Hg & Hge).
    destruct (save_idx =? _) eqn:Hend; [lia|].
    rewrite Hb; cbn [bind]. rewrite Hs; cbn [bind]. rewrite Ht; cbn [bind].
    rewrite Hg; cbn [bind]. rewrite Hge. reflexivity.
Qed.

(** ** One iteration of the loop *)

Section Iteration.

Variable time_limit : Z.
Variable save_percentages : list Z.

Lemma check_capture_Ok elapsed fr fr' :
  check_capture time_limit save_percentages elapsed fr = Ok fr' ->
  check_step time_limit save_percentages elapsed fr fr'.
Proof.
  unfold check_capture.
  destruct (capture_next_block fr) eqn:Hc.
  - intros [= <-]. apply check_pass. rewrite Hc. reflexivity.
  - intros H. apply bind_Ok in H as (due & Hdue & H).
    destruct due.
    + apply bind_Ok in H as (target & Ht & [= <-]).
      apply check_begin; [assumption | | assumption].
      unfold is_due. rewrite Hdue. reflexivity.
    + injection H as <-. apply check_pass.
      unfold is_due. rewrite Hdue. apply andb_false_r.
Qed.

Lemma capture_line_Ok line fr fr' :
  capture_line line fr = Ok fr' -> capture_step line fr fr'.
Proof.
  unfold capture_line.
  destruct (capture_next_block fr) eqn:Hc, (is_next_block fr) eqn:Hn;
    cbn [andb].
  - destruct (is_stat_value line) eqn:Hv.
    + intros H. apply bind_Ok in H as ([name value] & Hp & [= <-]).
      apply (capture_store line fr name value); [split| |]; assumption.
    + destruct (stat_block_end line) eqn:He; intros [= <-].
      * apply capture_end; [split| |]; assumption.
      * apply capture_skip; rewrite Hc, Hn, ?Hv, ?He; reflexivity.
  - destruct (stat_block_end line) eqn:He; intros [= <-].
    + apply capture_arm; assumption.
    + apply capture_skip; rewrite Hc, Hn, ?He; reflexivity.
  - intros [= <-]. apply capture_skip; rewrite Hc, Hn; reflexivity.
  - intros [= <-]. apply capture_skip; rewrite Hc; reflexivity.
Qed.

(** An iteration starts by decoding the line: a line that is not UTF-8
    makes it raise, whatever the frame. *)
Lemma loop_body_undecodable fr elapsed line :
  Py.valid_utf8 line = false ->
  loop_body time_limit save_percentages fr (elapsed, line)
  = Raise UnicodeDecodeError.
Proof. intros H. unfold loop_body, Py.decode. rewrite H. reflexivity. Qed.

Lemma loop_body_decoded fr elapsed line :
  Py.valid_utf8 line = true ->
  loop_body time_limit save_percentages fr (elapsed, line)
  = if is_stat_related line then
      bind (check_capture time_limit save_percentages elapsed
              (note_solution line fr))
           (capture_line line)
    else Ok (note_solution line fr).
Proof. intros H. unfold loop_body, Py.decode. rewrite H. reflexivity. Qed.

Lemma loop_body_valid fr elapsed line fr' :
  loop_body time_limit save_percentages fr (elapsed, line) = Ok fr' ->
  Py.valid_utf8 line = true.
Proof.
  destruct (Py.valid_utf8 line) eqn:H; [reflexivity|].
  rewrite loop_body_undecodable by exact H. discriminate.
Qed.

(** An iteration that does not raise is the solution test, then, on a
    statistics line only, a due check and a capture step. *)
Lemma loop_body_Ok fr elapsed line fr' :
  loop_body time_limit save_percentages fr (elapsed, line) = Ok fr' ->
  (is_stat_related line = false /\ fr' = note_solution line fr) \/
  (is_stat_related line = true /\
   exists fr1,
     check_step time_limit save_percentages elapsed (note_solution line fr) fr1 /\
     capture_step line fr1 fr').
Proof.
  intros H. pose proof (loop_body_valid _ _ _ _ H) as Hd.
  rewrite (loop_body_decoded _ _ _ Hd) in H. revert H.
  destruct (is_stat_related line) eqn:Hs.
  - intros H. apply bind_Ok in H as (fr1 & H1 & H2). right.
    split; [reflexivity|]. exists fr1.
    split; [apply check_capture_Ok | apply capture_line_Ok]; assumption.
  - intros [= <-]. left. split; reflexivity.
Qed.

(** The solution test touches the solved flag only. *)
Lemma note_solution_found line fr :
  found_one_solution (note_solution line fr)
  = found_one_solution fr || is_solution line.
Proof.
  unfold note_solution.
  destruct (found_one_solution fr) eqn:Hf, (is_solution line);
    simpl; try rewrite Hf; reflexivity.
Qed.

Lemma note_solution_stat line fr :
  is_stat_related line = true -> note_solution line fr = fr.
Proof.
  intros H. unfold note_solution.
  rewrite (is_stat_related_not_solution line H), andb_false_r. reflexivity.
Qed.

Lemma note_solution_rest line fr :
  results_obj (note_solution line fr) = results_obj fr /\
  save_idx (note_solution line fr) = save_idx fr /\
  next_save_point (note_solution line fr) = next_save_point fr /\
  output (note_solution line fr) = output fr /\
  capture_next_block (note_solution line fr) = capture_next_block fr /\
  is_next_block (note_solution line fr) = is_next_block fr.
Proof.
  unfold note_solution. destruct (_ && _); repeat split; reflexivity.
Qed.

Lemma check_step_found elapsed fr fr' :
  check_step time_limit save_percentages elapsed fr fr' ->
  found_one_solution fr' = found_one_solution fr.
Proof. intros []; reflexivity. Qed.

Lemma capture_step_found line fr fr' :
  capture_step line fr fr' ->
  found_one_solution fr' = found_one_solution fr.
Proof. intros []; reflexivity. Qed.

Lemma loop_body_found fr elapsed line fr' :
  loop_body time_limit save_percentages fr (elapsed, line) = Ok fr' ->
  found_one_solution fr' = found_one_solution fr || is_solution line.
Proof.
  intros H. apply loop_body_Ok in H as [[_ ->] | (_ & fr1 & H1 & H2)].
  - apply note_solution_found.
  - rewrite (capture_step_found _ _ _ H2), (check_step_found _ _ _ H1).
    apply note_solution_found.
Qed.

(** The pointer moves by one when a capture is begun, and only then. *)
Lemma loop_body_save_idx fr timed_line fr' :
  loop_body time_limit save_percentages fr timed_line = Ok fr' ->
  save_idx fr'
  = save_idx fr
    + (if capture_begins time_limit save_percentages fr timed_line
       then 1 else 0).
Proof.
  destruct timed_line as [elapsed line]. intros H.
  unfold capture_begins; cbn [fst snd].
  apply loop_body_Ok in H as [[Hs ->] | (Hs & fr1 & H1 & H2)]; rewrite Hs.
  - cbn [andb]. rewrite Z.add_0_r. apply note_solution_rest.
  - rewrite (note_solution_stat line fr Hs) in H1.
    assert (save_idx fr' = save_idx fr1) as -> by (destruct H2; reflexivity).
    destruct H1 as [target Hc Hdue Ht | Hno].
    + rewrite Hc, Hdue. reflexivity.
    + cbn [andb]. rewrite Hno. lia.
Qed.

(** The invariant of the loop. *)
Lemma frame_ok_initial m p first :
  Py.getitem save_percentages 0 = Ok first ->
  frame_ok save_percentages (initial_frame m p first).
Proof.
  intros H. apply getitem_range in H.
  split; cbn; [lia | reflexivity | discriminate].
Qed.

Lemma is_due_range elapsed idx :
  is_due elapsed time_limit save_percentages idx = true ->
  idx < Z.of_nat (length save_percentages).
Proof.
  intros H. apply is_due_target in H as [target H].
  apply getitem_range in H. lia.
Qed.

Lemma loop_body_frame_ok fr timed_line fr' :
  frame_ok save_percentages fr ->
  loop_body time_limit save_percentages fr timed_line = Ok fr' ->
  frame_ok save_percentages fr'.
Proof.
  destruct timed_line as [elapsed line]. intros [Hr Hc Hn] H.
  unfold consumed_targets in Hc.
  apply loop_body_Ok in H as [[Hs ->] | (Hs & fr1 & H1 & H2)].
  - destruct (note_solution_rest line fr) as (E1 & E2 & _ & _ & E5 & E6).
    split; unfold consumed_targets; rewrite ?E1, ?E2, ?E5, ?E6; assumption.
  - rewrite (note_solution_stat line fr Hs) in H1.
    assert (frame_ok save_percentages fr1) as [Hr1 Hc1 Hn1].
    { destruct H1 as [target Hcap Hdue Ht | Hno].
      - apply is_due_range in Hdue.
        split; unfold consumed_targets; cbn.
        + lia.
        + rewrite Hcap in Hc. lia.
        + reflexivity.
      - split; assumption. }
    unfold consumed_targets in Hc1.
    destruct H2 as [name value [Hcap Hnext] Hv Hp | [Hcap Hnext] Hv He
                   | Hcap Hnext He | Hno1 Hno2].
    + split; unfold consumed_targets; cbn; assumption.
    + split; unfold consumed_targets; cbn.
      * assumption.
      * rewrite Hcap in Hc1. rewrite length_app. cbn. lia.
      * discriminate.
    + split; unfold consumed_targets; cbn; [assumption | assumption |].
      intros _. assumption.
    + split; assumption.
Qed.

(** The snapshots grow by one on a finalizing line, and by nothing on any
    other line. *)
Lemma loop_body_results fr timed_line fr' :
  frame_ok save_percentages fr ->
  loop_body time_limit save_percentages fr timed_line = Ok fr' ->
  length (results (results_obj fr'))
  = ((if finalizes fr (snd timed_line) then 1 else 0)
     + length (results (results_obj fr)))%nat.
Proof.
  destruct timed_line as [elapsed line]. intros [Hr Hc Hn] H.
  unfold finalizes; cbn [snd].
  apply loop_body_Ok in H as [[Hs ->] | (Hs & fr1 & H1 & H2)]; rewrite Hs.
  - cbn [andb]. destruct (note_solution_rest line fr) as (-> & _). reflexivity.
  - rewrite (note_solution_stat line fr Hs) in H1. cbn [andb].
    destruct H1 as [target Hcap Hdue Ht | Hno].
    + rewrite Hcap. cbn [andb].
      assert (is_next_block fr = false) as Hnext.
      { destruct (is_next_block fr); [|reflexivity].
        rewrite Hn in Hcap; [discriminate | reflexivity]. }
      inversion H2 as [name value [_ Hnext'] _ _ | [_ Hnext'] _ _ | | ];
        cbn in *; try congruence; subst; reflexivity.
    + destruct H2 as [name value [Hcap Hnext] Hv Hp | [Hcap Hnext] Hv He
                     | Hcap Hnext He | Hno1 Hno2].
      * rewrite Hv, andb_false_r. reflexivity.
      * rewrite Hcap, Hnext, Hv, He. cbn. rewrite length_app. cbn. lia.
      * rewrite Hnext, andb_false_r. reflexivity.
      * destruct (capture_next_block fr), (is_next_block fr),
          (is_stat_value line), (stat_block_end line);
          cbn in *; congruence.
Qed.

End Iteration.

(** ** The loop *)

Section Loop.

Variable time_limit : Z.
Variable save_percentages : list Z.

Lemma run_loop_app fr pre post :
  run_loop time_limit save_percentages fr (pre ++ post)
  = bind (run_loop time_limit save_percentages fr pre)
         (fun fr1 => run_loop time_limit save_percentages fr1 post).
Proof.
  revert fr. induction pre as [|tl pre IH]; intros fr; cbn.
  - reflexivity.
  - destruct (loop_body _ _ fr tl) as [fr1|e]; cbn; [apply IH | reflexivity].
Qed.

(** A loop that reaches the end of the stream reached the end of every
    prefix of it. *)
Lemma run_loop_prefix fr pre post fr' :
  run_loop time_limit save_percentages fr (pre ++ post) = Ok fr' ->
  exists fr1,
    run_loop time_limit save_percentages fr pre = Ok fr1 /\
    run_loop time_limit save_percentages fr1 post = Ok fr'.
Proof. rewrite run_loop_app. apply bind_Ok. Qed.

Lemma run_loop_frame_ok fr lines fr' :
  frame_ok save_percentages fr ->
  run_loop time_limit save_percentages fr lines = Ok fr' ->
  frame_ok save_percentages fr'.
Proof.
  revert fr. induction lines as [|tl lines IH]; intros fr Hok; cbn.
  - intros [= <-]. exact Hok.
  - intros H. apply bind_Ok in H as (fr1 & H1 & H2).
    apply (IH fr1); [|exact H2].
    apply (loop_body_frame_ok time_limit save_percentages fr tl); assumption.
Qed.

Lemma run_loop_found fr lines fr' :
  run_loop time_limit save_percentages fr lines = Ok fr' ->
  found_one_solution fr'
  = found_one_solution fr || existsb (fun tl => is_solution (snd tl)) lines.
Proof.
  revert fr. induction lines as [|[elapsed line] lines IH]; intros fr; cbn.
  - intros [= <-]. rewrite orb_false_r. reflexivity.
  - intros H. apply bind_Ok in H as (fr1 & H1 & H2).
    rewrite (IH fr1 H2), (loop_body_found _ _ _ _ _ _ H1).
    rewrite orb_assoc. reflexivity.
Qed.

Lemma run_loop_results fr lines fr' :
  frame_ok save_percentages fr ->
  run_loop time_limit save_percentages fr lines = Ok fr' ->
  length (results (results_obj fr'))
  = (finalized_count time_limit save_percentages fr lines
     + length (results (results_obj fr)))%nat.
Proof.
  revert fr. induction lines as [|tl lines IH]; intros fr Hok; cbn.
  - intros [= <-]. reflexivity.
  - intros H. apply bind_Ok in H as (fr1 & H1 & H2).
    rewrite H1.
    rewrite (IH fr1 (loop_body_frame_ok _ _ _ _ _ Hok H1) H2).
    rewrite (loop_body_results _ _ _ _ _ Hok H1). lia.
Qed.

End Loop.

Lemma solution_seen (lines : list (float * string)) :
  existsb (fun tl => is_solution (snd tl)) lines = true
  <-> exists elapsed, (elapsed, solution_line) ∈ lines.
Proof.
  rewrite existsb_exists. split.
  - intros ([elapsed line] & Hin & Hsol). cbn in Hsol.
    apply String.eqb_eq in Hsol as ->.
    exists elapsed. apply list_elem_of_In. exact Hin.
  - intros [elapsed Hin]. exists (elapsed, solution_line).
    split; [apply list_elem_of_In; exact Hin | apply String.eqb_refl].
Qed.

(** ** The whole call *)

Section Call.

Variable w : World.
Variables mzn executable solver : string.
Variable dzn : option string.
Variable time_limit : Z.
Variable save_percentages : list Z.

(** Past the checks and the setup, a call spawns the child once and runs
    the loop on its output. *)
Lemma run_problem_checked first :
  checks_pass w executable mzn dzn = true ->
  Py.getitem save_percentages 0 = Ok first ->
  run_problem w mzn dzn executable time_limit save_percentages solver
  = {| spawned := [command_of executable mzn dzn solver time_limit];
       returned :=
         bind (run_loop time_limit save_percentages
                 (initial_frame mzn dzn first)
                 (proc_stdout w (command_of executable mzn dzn solver time_limit)))
              (fun fr => Ok (finish fr)) |}.
Proof.
  unfold checks_pass, run_problem. intros Hc Hf.
  apply andb_true_iff in Hc as [Hc H3].
  apply andb_true_iff in Hc as [H1 H2].
  rewrite H1, H2. cbn [negb].
  destruct (truthy dzn); cbn in H3 |- *; rewrite ?H3; cbn [negb];
    rewrite Hf; reflexivity.
Qed.

(** A call that returns a result passed the checks and ran its loop to the
    end of the stream. *)
Lemma run_problem_returned r :
  returned (run_problem w mzn dzn executable time_limit save_percentages solver)
  = Ok r ->
  exists first fr,
    Py.getitem save_percentages 0 = Ok first /\
    run_loop time_limit save_percentages (initial_frame mzn dzn first)
      (proc_stdout w (command_of executable mzn dzn solver time_limit))
    = Ok fr /\
    r = finish fr.
Proof.
  unfold run_problem.
  destruct (negb (which w executable)); [discriminate|].
  destruct (negb (path_exists w mzn)); [discriminate|].
  destruct (_ && _); [discriminate|].
  destruct (Py.getitem save_percentages 0) as [first|e]; [|discriminate].
  cbn [returned]. intros H. apply bind_Ok in H as (fr & Hrun & [= <-]).
  exists first, fr. repeat split. exact Hrun.
Qed.

End Call.

(** C4. The solved flag of a returned result is true exactly when some line
    of the output is the solution marker, ten dashes and a newline; and at
    every point of the run the flag is true exactly when the marker is among
    the lines read so far, so it is set at the first marker and stays set. *)
Theorem solved_iff_solution_seen (w : World) (mzn executable solver : string)
    (dzn : option string) (time_limit : Z) (save_percentages : list Z)
    (r : ProblemResults) :
  returned (run_problem w mzn dzn executable time_limit save_percentages solver)
  = Ok r ->
  let lines := proc_stdout w (command_of executable mzn dzn solver time_limit) in
  (solved r = true <-> exists elapsed, (elapsed, solution_line) ∈ lines) /\
  exists first,
    Py.getitem save_percentages 0 = Ok first /\
    forall pre post, lines = pre ++ post ->
      exists fr,
        run_loop time_limit save_percentages (initial_frame mzn dzn first) pre
        = Ok fr /\
        (found_one_solution fr = true
         <-> exists elapsed, (elapsed, solution_line) ∈ pre).
Proof.
  intros H lines.
  apply run_problem_returned in H as (first & fr & Hfirst & Hrun & ->).
  fold lines in Hrun. split.
  - cbn [solved finish]. rewrite (run_loop_found _ _ _ _ _ Hrun).
    cbn [found_one_solution initial_frame orb]. apply solution_seen.
  - exists first. split; [exact Hfirst|].
    intros pre post Hsplit. rewrite Hsplit in Hrun.
    apply run_loop_prefix in Hrun as (fr1 & Hpre & _).
    exists fr1. split; [exact Hpre|].
    rewrite (run_loop_found _ _ _ _ _ Hpre).
    cbn [found_one_solution initial_frame orb]. apply solution_seen.
Qed.

(** C7. Along every run the pointer [save_idx] moves by exactly one on a
    line that begins a capture (a statistics line on which no capture is
    pending and the due check succeeds) and stays put on every other line;
    so it always equals the number of finalized snapshots, plus one while a
    capture is pending: one target per captured block, however many are due. *)
Theorem one_target_per_capture (time_limit : Z) (save_percentages : list Z)
    (mzn : string) (dzn : option string) (first : Z)
    (lines : list (float * string)) (fr : Frame)
    (timed_line : float * string) (fr' : Frame) :
  Py.getitem save_percentages 0 = Ok first ->
  run_loop time_limit save_percentages (initial_frame mzn dzn first) lines
  = Ok fr ->
  loop_body time_limit save_percentages fr timed_line = Ok fr' ->
  save_idx fr'
  = save_idx fr
    + (if capture_begins time_limit save_percentages fr timed_line
       then 1 else 0) /\
  save_idx fr' = consumed_targets fr' /\
  save_idx fr' <= Z.of_nat (length save_percentages).
Proof.
  intros Hfirst Hrun Hstep.
  assert (frame_ok save_percentages fr) as Hok.
  { eapply run_loop_frame_ok; [|exact Hrun].
    apply frame_ok_initial. exact Hfirst. }
  pose proof (loop_body_frame_ok _ _ _ _ _ Hok Hstep) as [Hr Hc _].
  split; [|split].
  - apply loop_body_save_idx. exact Hstep.
  - exact Hc.
  - apply Hr.
Qed.

(** C5. When the loop reaches the end of the stream after finalizing [k]
    snapshots, the call returns normally, with exactly those [k] snapshots
    ([k] at most the number of targets): a capture still pending has used up
    a target but its snapshot is not in the result, and nothing is added to
    make up the number. *)
Theorem incomplete_run_returns_finalized (w : World)
    (mzn executable solver : string) (dzn : option string) (time_limit : Z)
    (save_percentages : list Z) (first : Z) (fr : Frame) (k : nat) :
  checks_pass w executable mzn dzn = true ->
  Py.getitem save_percentages 0 = Ok first ->
  let lines := proc_stdout w (command_of executable mzn dzn solver time_limit) in
  run_loop time_limit save_percentages (initial_frame mzn dzn first) lines
  = Ok fr ->
  finalized_count time_limit save_percentages (initial_frame mzn dzn first) lines
  = k ->
  exists r,
    returned (run_problem w mzn dzn executable time_limit save_percentages solver)
    = Ok r /\
    length (results r) = k /\
    results r = results (results_obj fr) /\
    save_idx fr = Z.of_nat k + (if capture_next_block fr then 1 else 0) /\
    (k <= length save_percentages)%nat.
Proof.
  intros Hchecks Hfirst lines Hrun Hk.
  pose proof (frame_ok_initial save_percentages mzn dzn first Hfirst) as Hok0.
  pose proof (run_loop_frame_ok _ _ _ _ _ Hok0 Hrun) as [Hr Hc _].
  pose proof (run_loop_results _ _ _ _ _ Hok0 Hrun) as Hlen.
  rewrite Hk in Hlen. cbn in Hlen. rewrite Nat.add_0_r in Hlen.
  unfold consumed_targets in Hc. rewrite Hlen in Hc.
  exists (finish fr).
  rewrite (run_problem_checked _ _ _ _ _ _ _ first Hchecks Hfirst).
  cbn [returned]. fold lines. rewrite Hrun. cbn [bind finish results].
  repeat split; try assumption.
  destruct (capture_next_block fr); lia.
Qed.

(** C10. With an empty list of checkpoints, a call that passes its three
    checks raises [IndexError] at the setup, reading [save_percentages[0]],
    and no child process has been spawned. *)
Theorem empty_checkpoints_raise_before_spawn (w : World)
    (mzn executable solver : string) (dzn : option string) (time_limit : Z) :
  checks_pass w executable mzn dzn = true ->
  run_problem w mzn dzn executable time_limit [] solver
  = {| spawned := []; returned := Raise IndexError |}.
Proof.
  unfold checks_pass, run_problem. intros Hc.
  apply andb_true_iff in Hc as [Hc H3].
  apply andb_true_iff in Hc as [H1 H2].
  rewrite H1, H2. cbn [negb].
  destruct (truthy dzn); cbn in H3 |- *; rewrite ?H3; reflexivity.
Qed.

(** ** Value lines *)

Lemma malformed_value_raises line :
  malformed_value line = true -> parse_value line = Raise ValueError.
Proof.
  unfold malformed_value, parse_value.
  destruct (Py.split "=" (Py.slice_from 13 line)) as [|name [|stat [|x l]]];
    try reflexivity.
  cbn. destruct (Py.float stat); [discriminate | reflexivity].
Qed.

Section Stepping.

Variable time_limit : Z.
Variable save_percentages : list Z.

Lemma loop_body_stat fr elapsed line :
  Py.valid_utf8 line = true ->
  is_stat_related line = true ->
  loop_body time_limit save_percentages fr (elapsed, line)
  = bind (check_capture time_limit save_percentages elapsed fr)
         (capture_line line).
Proof.
  intros Hd H. rewrite loop_body_decoded by exact Hd.
  rewrite (note_solution_stat line fr H), H. reflexivity.
Qed.

Lemma check_capture_pending elapsed fr :
  capture_next_block fr = true ->
  check_capture time_limit save_percentages elapsed fr = Ok fr.
Proof. intros H. unfold check_capture. rewrite H. reflexivity. Qed.

Lemma check_capture_begin elapsed fr :
  capture_next_block fr = false ->
  is_due elapsed time_limit save_percentages (save_idx fr) = true ->
  exists target,
    Py.getitem save_percentages (save_idx fr) = Ok target /\
    check_capture time_limit save_percentages elapsed fr
    = Ok (begin_capture target fr).
Proof.
  intros Hc Hdue.
  destruct (is_due_target _ _ _ _ Hdue) as [target Ht].
  exists target. split; [exact Ht|].
  unfold is_due in Hdue.
  destruct (reached_save_point _ _ _ _) as [[|]|] eqn:Hr; try discriminate.
  unfold check_capture. rewrite Hc, Hr. cbn [bind]. rewrite Ht. reflexivity.
Qed.

(** In the capturing-next-block state a value line is parsed and stored,
    or the iteration raises what the parsing raises. *)
Lemma loop_body_value fr elapsed line :
  capturing_next_block fr ->
  Py.valid_utf8 line = true ->
  is_stat_value line = true ->
  loop_body time_limit save_percentages fr (elapsed, line)
  = bind (parse_value line)
         (fun item => Ok (store_feature (fst item) (snd item) fr)).
Proof.
  intros [Hc Hn] Hd Hv.
  rewrite loop_body_stat
    by (try apply is_stat_value_related; assumption).
  rewrite check_capture_pending by exact Hc. cbn [bind].
  unfold capture_line. rewrite Hc, Hn, Hv. reflexivity.
Qed.

(** In the capturing-next-block state a block-end line finalizes. *)
Lemma loop_body_end fr elapsed line :
  capturing_next_block fr ->
  Py.valid_utf8 line = true ->
  stat_block_end line = true ->
  loop_body time_limit save_percentages fr (elapsed, line)
  = Ok (end_capture fr).
Proof.
  intros [Hc Hn] Hd He.
  rewrite loop_body_stat
    by (try apply stat_block_end_related; assumption).
  rewrite check_capture_pending by exact Hc. cbn [bind].
  unfold capture_line.
  rewrite Hc, Hn, He, (stat_block_end_not_value line He). reflexivity.
Qed.

(** While the capture waits for the end of the current block, a value line
    changes nothing and a block-end line arms the capture. *)
Lemma loop_body_waiting_value fr elapsed line :
  capture_next_block fr = true ->
  is_next_block fr = false ->
  Py.valid_utf8 line = true ->
  is_stat_value line = true ->
  loop_body time_limit save_percentages fr (elapsed, line) = Ok fr.
Proof.
  intros Hc Hn Hd Hv.
  rewrite loop_body_stat
    by (try apply is_stat_value_related; assumption).
  rewrite check_capture_pending by exact Hc. cbn [bind].
  unfold capture_line.
  rewrite Hc, Hn, (is_stat_value_not_end line Hv). reflexivity.
Qed.

Lemma loop_body_waiting_end fr elapsed line :
  capture_next_block fr = true ->
  is_next_block fr = false ->
  Py.valid_utf8 line = true ->
  stat_block_end line = true ->
  loop_body time_limit save_percentages fr (elapsed, line)
  = Ok (arm_next_block fr).
Proof.
  intros Hc Hn Hd He.
  rewrite loop_body_stat
    by (try apply stat_block_end_related; assumption).
  rewrite check_capture_pending by exact Hc. cbn [bind].
  unfold capture_line. rewrite Hc, Hn, He. reflexivity.
Qed.

End Stepping.

(** C3. In the capturing-next-block state, a value line whose text after
    the 13-character prefix does not split at ['='] into exactly a name and a
    value, or whose value is not a number for [float], makes the iteration
    raise [ValueError] ([UnicodeDecodeError], one of its subclasses, when the
    bytes of the line are not even UTF-8); the call raises the same, so there
    is no result at all, and no snapshot of that block in one. *)
Theorem malformed_value_aborts_run (w : World) (mzn executable solver : string)
    (dzn : option string) (time_limit : Z) (save_percentages : list Z)
    (first : Z) (pre post : list (float * string)) (elapsed : float)
    (line : string) (fr : Frame) :
  checks_pass w executable mzn dzn = true ->
  Py.getitem save_percentages 0 = Ok first ->
  proc_stdout w (command_of executable mzn dzn solver time_limit)
  = pre ++ (elapsed, line) :: post ->
  run_loop time_limit save_percentages (initial_frame mzn dzn first) pre = Ok fr ->
  capturing_next_block fr ->
  is_stat_value line = true ->
  malformed_value line = true ->
  let e := if Py.valid_utf8 line then ValueError else UnicodeDecodeError in
  loop_body time_limit save_percentages fr (elapsed, line) = Raise e /\
  returned (run_problem w mzn dzn executable time_limit save_percentages solver)
  = Raise e.
Proof.
  intros Hchecks Hfirst Hout Hpre Hstate Hv Hbad e.
  assert (loop_body time_limit save_percentages fr (elapsed, line)
          = Raise e) as Hstep.
  { subst e. destruct (Py.valid_utf8 line) eqn:Hd.
    - rewrite loop_body_value by assumption.
      rewrite (malformed_value_raises line Hbad). reflexivity.
    - apply loop_body_undecodable. exact Hd. }
  split; [exact Hstep|].
  rewrite (run_problem_checked _ _ _ _ _ _ _ first Hchecks Hfirst).
  cbn [returned]. rewrite Hout, run_loop_app, Hpre. cbn [bind run_loop].
  rewrite Hstep. reflexivity.
Qed.

(** C9. In the capturing-next-block state the line [%%%mzn-stat: foo=3.5]
    (with or without its newline) leaves [foo] mapped to [3.5] in the pending
    snapshot, whatever was stored under [foo] before, and every other name
    mapped as it was; nothing else of the frame changes. *)
Theorem value_line_stores_feature (time_limit : Z) (save_percentages : list Z)
    (fr : Frame) (elapsed : float) (line : string) :
  capturing_next_block fr ->
  line = "%%%mzn-stat: foo=3.5" \/ line = "%%%mzn-stat: foo=3.5" +:+ Py.nl ->
  exists fr',
    loop_body time_limit save_percentages fr (elapsed, line) = Ok fr' /\
    fr' = store_feature "foo" 3.5%float fr /\
    features (output fr') !! "foo" = Some 3.5%float /\
    (forall name, name <> "foo" ->
       features (output fr') !! name = features (output fr) !! name) /\
    percent (output fr') = percent (output fr) /\
    results_obj fr' = results_obj fr /\
    capturing_next_block fr'.
Proof.
  intros Hstate Hline.
  exists (store_feature "foo" 3.5%float fr).
  assert (is_stat_value line = true
          /\ parse_value line = Ok ("foo", 3.5%float)) as [Hv Hp].
  { destruct Hline as [-> | ->]; split; vm_compute; reflexivity. }
  split; [|split; [reflexivity|]].
  - rewrite loop_body_value;
      [|assumption|destruct Hline as [-> | ->]; reflexivity|assumption].
    rewrite Hp. reflexivity.
  - cbn [store_feature output features percent results_obj].
    split; [|split; [|split; [|split]]].
    + apply lookup_insert_eq.
    + intros name Hne. apply lookup_insert_ne. congruence.
    + reflexivity.
    + reflexivity.
    + exact Hstate.
Qed.

(** ** Whole blocks *)

Section Blocks.

Variable time_limit : Z.
Variable save_percentages : list Z.

Lemma store_all_frame ls fr :
  store_all ls fr
  = {| results_obj := results_obj fr; save_idx := save_idx fr;
       next_save_point := next_save_point fr;
       output := {| percent := percent (output fr);
                    features := store_values (features (output fr)) ls |};
       capture_next_block := capture_next_block fr;
       is_next_block := is_next_block fr;
       found_one_solution := found_one_solution fr |}.
Proof.
  revert fr. induction ls as [|tl ls IH]; intros fr.
  - destruct fr as [? ? ? [? ?] ? ? ?]. reflexivity.
  - unfold store_all, store_values in *. cbn [foldl].
    rewrite IH. destruct (parse_value (snd tl)); reflexivity.
Qed.

Lemma store_all_capturing ls fr :
  capturing_next_block fr -> capturing_next_block (store_all ls fr).
Proof. rewrite store_all_frame. intros H. exact H. Qed.

(** The value lines of the block being captured are stored in order. *)
Lemma run_loop_store ls fr :
  capturing_next_block fr ->
  forallb (fun tl => well_formed_value (snd tl)) ls = true ->
  run_loop time_limit save_percentages fr ls = Ok (store_all ls fr).
Proof.
  revert fr. induction ls as [|[elapsed line] ls IH]; intros fr Hstate Hwf.
  - reflexivity.
  - cbn [forallb snd] in Hwf. apply andb_true_iff in Hwf as [Hline Hwf].
    unfold well_formed_value in Hline.
    apply andb_true_iff in Hline as [Hv Hp].
    apply andb_true_iff in Hv as [Hd Hv].
    destruct (parse_value line) as [item|e] eqn:Hitem; [|discriminate].
    cbn [run_loop]. rewrite loop_body_value by assumption.
    rewrite Hitem. cbn [bind].
    rewrite IH by assumption.
    unfold store_all. cbn [foldl snd]. rewrite Hitem. reflexivity.
Qed.

Lemma run_loop_capture_block c fr :
  capturing_next_block fr ->
  well_formed c = true ->
  run_loop time_limit save_percentages fr (block_lines c)
  = Ok (end_capture (store_all (value_lines c) fr)).
Proof.
  intros Hstate Hwf. unfold well_formed in Hwf.
  apply andb_true_iff in Hwf as [Hvals Hend].
  apply andb_true_iff in Hvals as [Hvals Hdec].
  unfold block_lines. rewrite run_loop_app, run_loop_store by assumption.
  cbn [bind run_loop]. destruct (end_line c) as [elapsed line].
  rewrite loop_body_end;
    [reflexivity | apply store_all_capturing; exact Hstate
    | exact Hdec | exact Hend].
Qed.

(** The value lines of a block during which the capture waits are skipped. *)
Lemma run_loop_waiting ls fr :
  capture_next_block fr = true ->
  is_next_block fr = false ->
  forallb (fun tl => well_formed_value (snd tl)) ls = true ->
  run_loop time_limit save_percentages fr ls = Ok fr.
Proof.
  intros Hc Hn. induction ls as [|[elapsed line] ls IH]; intros Hwf.
  - reflexivity.
  - cbn [forallb snd] in Hwf. apply andb_true_iff in Hwf as [Hline Hwf].
    unfold well_formed_value in Hline.
    apply andb_true_iff in Hline as [Hv _].
    apply andb_true_iff in Hv as [Hd Hv].
    cbn [run_loop]. rewrite loop_body_waiting_value by assumption.
    cbn [bind]. apply IH. exact Hwf.
Qed.

(** The block at whose first line a target is due begins the capture and,
    at its end, arms it. *)
Lemma run_loop_arm_block a fr :
  capture_next_block fr = false ->
  is_next_block fr = false ->
  well_formed a = true ->
  is_due (block_start a) time_limit save_percentages (save_idx fr) = true ->
  exists target,
    Py.getitem save_percentages (save_idx fr) = Ok target /\
    run_loop time_limit save_percentages fr (block_lines a)
    = Ok (arm_next_block (begin_capture target fr)).
Proof.
  intros Hc Hn Hwf Hdue. unfold well_formed in Hwf.
  apply andb_true_iff in Hwf as [Hvals Hend].
  apply andb_true_iff in Hvals as [Hvals Hdec].
  destruct (check_capture_begin time_limit save_percentages
              (block_start a) fr Hc Hdue) as (target & Ht & Hcheck).
  exists target. split; [exact Ht|].
  destruct a as [vals [e_end l_end]].
  unfold block_lines, block_start in *.
  cbn [value_lines end_line snd] in *.
  destruct vals as [|[e0 l0] vals]; cbn [hd fst app] in *.
  - cbn [run_loop].
    rewrite loop_body_stat
      by (try apply stat_block_end_related; assumption).
    rewrite Hcheck. cbn [bind]. unfold capture_line.
    cbn [begin_capture capture_next_block is_next_block].
    rewrite Hn, Hend. reflexivity.
  - cbn [forallb snd] in Hvals. apply andb_true_iff in Hvals as [Hline Hvals].
    unfold well_formed_value in Hline.
    apply andb_true_iff in Hline as [Hv _].
    apply andb_true_iff in Hv as [Hd Hv].
    cbn [run_loop].
    rewrite loop_body_stat
      by (try apply is_stat_value_related; assumption).
    rewrite Hcheck. cbn [bind]. unfold capture_line.
    cbn [begin_capture capture_next_block is_next_block].
    rewrite Hn, (is_stat_value_not_end l0 Hv). cbn [andb bind].
    rewrite run_loop_app, run_loop_waiting; [|reflexivity|exact Hn|exact Hvals].
    cbn [bind run_loop].
    rewrite loop_body_waiting_end;
      [reflexivity|reflexivity|exact Hn|exact Hdec|exact Hend].
Qed.

(** Two blocks make one snapshot: labelled as the pending snapshot was,
    holding the values of the second block, and leaving a fresh pending
    snapshot labelled with the target just consumed. *)
Lemma run_loop_pair a c fr :
  idle fr ->
  well_formed a = true ->
  well_formed c = true ->
  is_due (block_start a) time_limit save_percentages (save_idx fr) = true ->
  exists target fr',
    Py.getitem save_percentages (save_idx fr) = Ok target /\
    run_loop time_limit save_percentages fr (block_lines a ++ block_lines c)
    = Ok fr' /\
    idle fr' /\
    save_idx fr' = save_idx fr + 1 /\
    percent (output fr') = target /\
    found_one_solution fr' = found_one_solution fr /\
    results (results_obj fr')
    = results (results_obj fr)
      ++ [{| percent := percent (output fr); features := block_features c |}].
Proof.
  intros (Hc & Hn & Hempty) Hwa Hwc Hdue.
  destruct (run_loop_arm_block a fr Hc Hn Hwa Hdue) as (target & Ht & Harm).
  exists target.
  exists (end_capture (store_all (value_lines c)
                         (arm_next_block (begin_capture target fr)))).
  split; [exact Ht|]. split.
  - rewrite run_loop_app, Harm. cbn [bind].
    apply run_loop_capture_block; [split; reflexivity | exact Hwc].
  - rewrite store_all_frame. cbn. rewrite Hempty.
    repeat split; reflexivity.
Qed.

(** A stream of such pairs makes one snapshot per pair. *)
Lemma run_loop_paired pairs fr :
  idle fr ->
  0 <= save_idx fr ->
  forallb (fun p => well_formed (fst p) && well_formed (snd p)) pairs = true ->
  targets_due time_limit save_percentages (save_idx fr) pairs = true ->
  exists fr',
    run_loop time_limit save_percentages fr (paired_stream pairs) = Ok fr' /\
    found_one_solution fr' = found_one_solution fr /\
    map features (results (results_obj fr'))
    = map features (results (results_obj fr))
      ++ map (fun p => block_features (snd p)) pairs /\
    map percent (results (results_obj fr'))
    = map percent (results (results_obj fr))
      ++ take (length pairs)
           (percent (output fr) :: drop (Z.to_nat (save_idx fr)) save_percentages).
Proof.
  revert fr. induction pairs as [|[a c] pairs IH]; intros fr Hidle Hidx Hwf Hdue.
  - exists fr. cbn. rewrite !app_nil_r. repeat split; reflexivity.
  - cbn [forallb fst snd] in Hwf.
    apply andb_true_iff in Hwf as [Hpair Hwf].
    apply andb_true_iff in Hpair as [Hwa Hwc].
    cbn [targets_due fst] in Hdue. apply andb_true_iff in Hdue as [Hdue Hrest].
    destruct (run_loop_pair a c fr Hidle Hwa Hwc Hdue)
      as (target & fr1 & Ht & Hrun & Hidle1 & Hidx1 & Hp1 & Hf1 & Hres1).
    rewrite <- Hidx1 in Hrest.
    destruct (IH fr1 Hidle1 ltac:(lia) Hwf Hrest)
      as (fr' & Hrun' & Hf' & Hfeat & Hlab).
    exists fr'. split; [|split; [|split]].
    + unfold paired_stream. cbn [flat_map fst snd].
      rewrite run_loop_app, Hrun. exact Hrun'.
    + congruence.
    + rewrite Hfeat, Hres1, map_app, <- app_assoc. reflexivity.
    + rewrite Hlab, Hres1, map_app, <- app_assoc, Hp1, Hidx1.
      cbn [map app length take percent]. do 2 f_equal.
      rewrite getitem_nonneg in Ht by exact Hidx.
      destruct (save_percentages !! Z.to_nat (save_idx fr)) as [t|] eqn:Hl;
        [|discriminate].
      injection Ht as ->.
      rewrite (drop_S _ _ _ Hl).
      replace (Z.to_nat (save_idx fr + 1)) with (S (Z.to_nat (save_idx fr)))
        by lia.
      reflexivity.
Qed.

End Blocks.

(** The labels lag one target behind: the first snapshot carries the first
    target, and every later one the target of the snapshot before it. *)
Lemma snapshot_labels_lag (w : World) (mzn executable solver : string)
    (dzn : option string) (time_limit : Z) (save_percentages : list Z)
    (first : Z) (pairs : list (Block * Block)) :
  checks_pass w executable mzn dzn = true ->
  Py.getitem save_percentages 0 = Ok first ->
  forallb (fun p => well_formed (fst p) && well_formed (snd p)) pairs = true ->
  targets_due time_limit save_percentages 0 pairs = true ->
  proc_stdout w (command_of executable mzn dzn solver time_limit)
  = paired_stream pairs ->
  exists r,
    returned (run_problem w mzn dzn executable time_limit save_percentages solver)
    = Ok r /\
    map percent (results r) = take (length pairs) (first :: save_percentages).
Proof.
  intros Hchecks Hfirst Hwf Hdue Hout.
  destruct (run_loop_paired time_limit save_percentages pairs
              (initial_frame mzn dzn first))
    as (fr & Hrun & _ & _ & Hlab);
    [repeat split | cbn; lia | exact Hwf | exact Hdue |].
  exists (finish fr).
  rewrite (run_problem_checked _ _ _ _ _ _ _ first Hchecks Hfirst).
  cbn [returned]. rewrite Hout, Hrun. split; [reflexivity|].
  cbn [finish results]. rewrite Hlab. reflexivity.
Qed.

(** ** Scenarios *)

(** C2, as the program has it. For every non-empty list of checkpoints and
    every stream of twice as many well-formed blocks, where the next target
    is due at the first line of every odd-numbered block, the call returns
    exactly one snapshot per checkpoint, in order, and the i-th snapshot holds
    the values of the 2i-th block: the block after the one at which its
    capture began. *)
Theorem paired_blocks_yield_all_snapshots (w : World)
    (mzn executable solver : string) (dzn : option string) (time_limit : Z)
    (save_percentages : list Z) (first : Z) (pairs : list (Block * Block)) :
  checks_pass w executable mzn dzn = true ->
  Py.getitem save_percentages 0 = Ok first ->
  length pairs = length save_percentages ->
  forallb (fun p => well_formed (fst p) && well_formed (snd p)) pairs = true ->
  targets_due time_limit save_percentages 0 pairs = true ->
  proc_stdout w (command_of executable mzn dzn solver time_limit)
  = paired_stream pairs ->
  exists r,
    returned (run_problem w mzn dzn executable time_limit save_percentages solver)
    = Ok r /\
    length (results r) = length save_percentages /\
    map features (results r) = map (fun p => block_features (snd p)) pairs.
Proof.
  intros Hchecks Hfirst Hlen Hwf Hdue Hout.
  destruct (run_loop_paired time_limit save_percentages pairs
              (initial_frame mzn dzn first))
    as (fr & Hrun & _ & Hfeat & _);
    [repeat split | cbn; lia | exact Hwf | exact Hdue |].
  exists (finish fr).
  rewrite (run_problem_checked _ _ _ _ _ _ _ first Hchecks Hfirst).
  cbn [returned]. rewrite Hout, Hrun. split; [reflexivity|].
  cbn [finish results]. cbn in Hfeat. split; [|exact Hfeat].
  rewrite <- Hlen, <- (length_map features), Hfeat, length_map. reflexivity.
Qed.

(** C1, as the program has it. With checkpoints [50] and a budget of
    1000 ms, a single block read at 600 ms (the value line for [x=1.0], then
    the block end) yields a result without snapshots: its first line begins
    the capture and its block end arms it for the following block. When a
    second block with the same two lines follows, the result holds exactly one
    snapshot, of percent 50 and features [x -> 1.0]. *)
Theorem single_block_arms_capture (w : World) (mzn executable solver : string)
    (dzn : option string) (lines : list (float * string)) :
  checks_pass w executable mzn dzn = true ->
  proc_stdout w (command_of executable mzn dzn solver 1000) = lines ->
  (lines = block_at_600ms ->
   returned (run_problem w mzn dzn executable 1000 [50] solver)
   = Ok (unsolved mzn dzn [])) /\
  (forall t1 t2,
     lines = block_at_600ms
             ++ [(t1, value_line "x" "1.0"); (t2, block_end_line)] ->
     returned (run_problem w mzn dzn executable 1000 [50] solver)
     = Ok (unsolved mzn dzn
             [{| percent := 50; features := {[ "x" := 1%float ]} |}])).
Proof.
  intros Hchecks Hout.
  rewrite (run_problem_checked w mzn executable solver dzn 1000 [50] 50
             Hchecks eq_refl).
  cbn [returned]. rewrite Hout. split.
  - intros ->. vm_compute. reflexivity.
  - intros t1 t2 ->. vm_compute. reflexivity.
Qed.

(** The scenario of C1 as the claim states it: the single block leaves the
    result without the snapshot the claim expects. *)
Lemma single_block_yields_no_snapshot :
  ~ exists r,
      returned (run_problem (scripted_world block_at_600ms) "model.mzn" None
                  default_executable 1000 [50] default_solver) = Ok r /\
      results r = [{| percent := 50; features := {[ "x" := 1%float ]} |}].
Proof.
  intros (r & Hr & Hres). vm_compute in Hr. injection Hr as <-.
  discriminate Hres.
Qed.

(** The scenario of C2 as the claim states it, on the checkpoints [25; 50]
    with a budget of 1000 ms: one block at 300 ms, when the first target is
    due and the second is not, and one at 600 ms, when the second is due.
    The result has one snapshot, not two. (And on the empty list of
    checkpoints with no block at all, the call raises.) *)
Lemma two_blocks_yield_one_snapshot :
  let lines := block_lines (block_at 300 "x" "1.0")
               ++ block_lines (block_at 600 "x" "2.0") in
  well_formed (block_at 300 "x" "1.0") = true /\
  well_formed (block_at 600 "x" "2.0") = true /\
  is_due (ms 300) 1000 [25; 50] 0 = true /\
  is_due (ms 300) 1000 [25; 50] 1 = false /\
  is_due (ms 600) 1000 [25; 50] 1 = true /\
  (~ exists r,
       returned (run_problem (scripted_world lines) "model.mzn" None
                   default_executable 1000 [25; 50] default_solver) = Ok r /\
       length (results r) = 2%nat /\
       map percent (results r) = [25; 50]) /\
  returned (run_problem (scripted_world []) "model.mzn" None
              default_executable 1000 [] default_solver) = Raise IndexError.
Proof.
  intros lines. repeat split; try (vm_compute; reflexivity).
  intros (r & Hr & Hlen & _). vm_compute in Hr. injection Hr as <-.
  discriminate Hlen.
Qed.

(** ** The properties at work *)

(** The early-exit run reports a solution at 140 ms, and returns solved. *)
Lemma solved_iff_solution_seen_witness :
  exists r,
    returned (run_problem (scripted_world early_exit_stream) "model.mzn" None
                default_executable 1000 default_save_percentages default_solver)
    = Ok r /\
    (solved r = true
     <-> exists elapsed, (elapsed, solution_line) ∈ early_exit_stream).
Proof.
  eexists. split; [vm_compute; reflexivity|].
  refine (proj1 (solved_iff_solution_seen (scripted_world early_exit_stream)
                   "model.mzn" default_executable default_solver None 1000
                   default_save_percentages _ _)).
  vm_compute. reflexivity.
Defined.

(** After the first snapshot, a line read at 200 ms, when the targets 10, 15
    and 20 are all due, moves the pointer from 1 to 2 only. *)
Lemma one_target_per_capture_witness :
  exists fr fr',
    run_loop 1000 default_save_percentages (initial_frame "model.mzn" None 5)
      (block_lines (block_at 60 "nodes" "10")
       ++ block_lines (block_at 70 "nodes" "25")) = Ok fr /\
    loop_body 1000 default_save_percentages fr
      (ms 200, value_line "nodes" "40") = Ok fr' /\
    save_idx fr = 1 /\ save_idx fr' = 2 /\
    save_idx fr' = consumed_targets fr'.
Proof.
  eexists. eexists.
  split; [vm_compute; reflexivity|].
  split; [vm_compute; reflexivity|].
  split; [reflexivity|]. split; [reflexivity|].
  refine (proj1 (proj2 (one_target_per_capture 1000 default_save_percentages
                          "model.mzn" None 5
                          (block_lines (block_at 60 "nodes" "10")
                           ++ block_lines (block_at 70 "nodes" "25"))
                          _ (ms 200, value_line "nodes" "40") _
                          eq_refl _ _)));
    vm_compute; reflexivity.
Defined.

(** The early-exit run finalizes two of its four checkpoints and returns
    two snapshots; the capture pending at the end leaves none. *)
Lemma incomplete_run_returns_finalized_witness :
  exists r,
    returned (run_problem (scripted_world early_exit_stream) "model.mzn" None
                default_executable 1000 default_save_percentages default_solver)
    = Ok r /\
    length (results r) = 2%nat /\
    (2 < length default_save_percentages)%nat.
Proof.
  edestruct (incomplete_run_returns_finalized
               (scripted_world early_exit_stream) "model.mzn"
               default_executable default_solver None 1000
               default_save_percentages 5)
    as (r & Hr & Hlen & _);
    [reflexivity | reflexivity | vm_compute; reflexivity
    | vm_compute; reflexivity |].
  exists r. split; [exact Hr|]. split; [exact Hlen|]. cbn. lia.
Defined.

(** With every check passing, the empty list raises and nothing is spawned. *)
Lemma empty_checkpoints_raise_before_spawn_witness :
  run_problem (scripted_world early_exit_stream) "model.mzn" (Some "data.dzn")
    default_executable default_time_limit [] default_solver
  = {| spawned := []; returned := Raise IndexError |}.
Proof.
  apply (empty_checkpoints_raise_before_spawn
           (scripted_world early_exit_stream)).
  reflexivity.
Defined.

(** A line [%%%mzn-stat: garbage] inside the block being captured. *)
Lemma malformed_value_aborts_run_witness :
  let pre := block_lines (block_at 600 "x" "1.0") in
  let bad := (ms 700, "%%%mzn-stat: garbage" +:+ Py.nl) in
  let post := [(ms 700, block_end_line)] in
  returned (run_problem (scripted_world (pre ++ bad :: post)) "model.mzn" None
              default_executable 1000 [50] default_solver)
  = Raise ValueError.
Proof.
  intros pre bad post.
  refine (proj2 (malformed_value_aborts_run
                   (scripted_world (pre ++ bad :: post)) "model.mzn"
                   default_executable default_solver None 1000 [50] 50
                   pre post (fst bad) (snd bad) _ _ _ _ _ _ _ _)).
  - reflexivity.
  - reflexivity.
  - reflexivity.
  - vm_compute. reflexivity.
  - split; reflexivity.
  - reflexivity.
  - reflexivity.
Defined.

(** A pending snapshot that already maps [foo] to 1.0 maps it to 3.5 after
    the line. *)
Lemma value_line_stores_feature_witness :
  let fr := store_feature "foo" 1%float
              (arm_next_block
                 (begin_capture 50 (initial_frame "model.mzn" None 50))) in
  features (output fr) !! "foo" = Some 1%float /\
  exists fr',
    loop_body 1000 [50] fr (ms 700, "%%%mzn-stat: foo=3.5" +:+ Py.nl) = Ok fr' /\
    features (output fr') !! "foo" = Some 3.5%float.
Proof.
  intros fr. split; [reflexivity|].
  destruct (value_line_stores_feature 1000 [50] fr (ms 700)
              ("%%%mzn-stat: foo=3.5" +:+ Py.nl))
    as (fr' & Hstep & _ & Hfoo & _).
  - split; reflexivity.
  - right. reflexivity.
  - exists fr'. split; [exact Hstep | exact Hfoo].
Defined.

(** Two checkpoints and four blocks: the snapshots hold the values of the
    second and of the fourth block. *)
Lemma paired_blocks_yield_all_snapshots_witness :
  let pairs := [(block_at 300 "x" "1.0", block_at 400 "x" "2.0");
                (block_at 600 "x" "3.0", block_at 700 "x" "4.0")] in
  exists r,
    returned (run_problem (scripted_world (paired_stream pairs)) "model.mzn"
                None default_executable 1000 [25; 50] default_solver) = Ok r /\
    length (results r) = 2%nat /\
    map features (results r)
    = [{[ "x" := 2%float ]}; {[ "x" := 4%float ]}].
Proof.
  intros pairs.
  destruct (paired_blocks_yield_all_snapshots
              (scripted_world (paired_stream pairs)) "model.mzn"
              default_executable default_solver None 1000 [25; 50] 25 pairs)
    as (r & Hr & Hlen & Hfeat); try reflexivity.
  exists r. split; [exact Hr|]. split; [exact Hlen|]. exact Hfeat.
Defined.

(** The single block at 600 ms, in a world where every check passes. *)
Lemma single_block_arms_capture_witness :
  returned (run_problem (scripted_world block_at_600ms) "model.mzn" None
              default_executable 1000 [50] default_solver)
  = Ok (unsolved "model.mzn" None []).
Proof.
  refine (proj1 (single_block_arms_capture (scripted_world block_at_600ms)
                   "model.mzn" default_executable default_solver None
                   block_at_600ms _ _) _); reflexivity.
Defined.

(** On the checkpoints [25; 50] the two snapshots of a complete run are both
    labelled 25. *)
Example labels_of_two_checkpoints :
  exists r,
    returned (run_problem
                (scripted_world
                   (paired_stream
                      [(block_at 300 "x" "1.0", block_at 400 "x" "2.0");
                       (block_at 600 "x" "3.0", block_at 700 "x" "4.0")]))
                "model.mzn" None default_executable 1000 [25; 50]
                default_solver) = Ok r /\
    map percent (results r) = [25; 25].
Proof. eexists. split; vm_compute; reflexivity. Qed.

(** * Further properties of the capture engine *)

Lemma empty_checkpoints_raise (w : World) (mzn executable solver : string)
    (dzn : option string) (time_limit : Z) :
  checks_pass w executable mzn dzn = true ->
  returned (run_problem w mzn dzn executable time_limit [] solver)
  = Raise IndexError.
Proof.
  unfold checks_pass, run_problem. intros Hc.
  apply andb_true_iff in Hc as [Hc H3].
  apply andb_true_iff in Hc as [H1 H2].
  rewrite H1, H2. cbn [negb].
  destruct (truthy dzn); cbn in H3 |- *; rewrite ?H3; reflexivity.
Qed.

Lemma empty_checkpoints_spawn_nothing (w : World)
    (mzn executable solver : string) (dzn : option string) (time_limit : Z) :
  checks_pass w executable mzn dzn = true ->
  run_problem w mzn dzn executable time_limit [] solver
  = {| spawned := []; returned := Raise IndexError |}.
Proof.
  unfold checks_pass, run_problem. intros Hc.
  apply andb_true_iff in Hc as [Hc H3].
  apply andb_true_iff in Hc as [H1 H2].
  rewrite H1, H2. cbn [negb].
  destruct (truthy dzn); cbn in H3 |- *; rewrite ?H3; reflexivity.
Qed.

Lemma failed_check_raises (w : World) (mzn executable solver : string)
    (dzn : option string) (time_limit : Z) (save_percentages : list Z) :
  checks_pass w executable mzn dzn = false ->
  exists msg,
    returned (run_problem w mzn dzn executable time_limit save_percentages solver)
    = Raise (FileNotFoundError msg).
Proof.
  intros Hc. unfold checks_pass in Hc. unfold run_problem.
  destruct (which w executable); cbn [negb andb] in *; [|eauto].
  destruct (path_exists w mzn); cbn [negb andb] in *; [|eauto].
  destruct (truthy dzn); cbn [negb andb orb] in *; [|discriminate].
  rewrite Hc. cbn. eauto.
Qed.

(** ** The call and its checks *)

(** The child is spawned exactly when the three checks pass and there is a
    first checkpoint, and then once, with the command line
    [executable model [instance] --solver solver -t time_limit]; in every
    other case nothing is spawned and the call raises. *)
Theorem spawned_iff_checks_pass (w : World) (mzn executable solver : string)
    (dzn : option string) (time_limit : Z) (save_percentages : list Z) :
  let call := run_problem w mzn dzn executable time_limit save_percentages solver in
  if checks_pass w executable mzn dzn
     && negb (bool_decide (save_percentages = []))
  then spawned call = [command_of executable mzn dzn solver time_limit]
  else spawned call = [] /\ exists e, returned call = Raise e.
Proof.
  intros call. subst call.
  destruct (checks_pass w executable mzn dzn) eqn:Hc; cbn [andb].
  - destruct save_percentages as [|first rest]; cbn [negb bool_decide].
    + rewrite (empty_checkpoints_spawn_nothing w mzn executable solver dzn
                 time_limit Hc).
      split; [reflexivity | eexists; reflexivity].
    + rewrite (run_problem_checked w mzn executable solver dzn time_limit
                 (first :: rest) first Hc eq_refl).
      reflexivity.
  - unfold checks_pass in Hc. unfold run_problem.
    destruct (which w executable); cbn [negb andb] in *; [|eauto].
    destruct (path_exists w mzn); cbn [negb andb] in *; [|eauto].
    destruct (truthy dzn); cbn [negb andb orb] in *; [|discriminate].
    rewrite Hc. cbn. eauto.
Qed.

(** An instance path that is the empty string is not checked for existence,
    yet it is handed to the solver as an argument of its own. *)
Theorem empty_instance_is_passed_unchecked (w : World)
    (mzn executable solver : string) (time_limit : Z)
    (save_percentages : list Z) (first : Z) :
  which w executable = true ->
  path_exists w mzn = true ->
  Py.getitem save_percentages 0 = Ok first ->
  spawned (run_problem w mzn (Some "") executable time_limit
             save_percentages solver)
  = [[executable; mzn; ""; "--solver"; solver; "-t"; pretty time_limit]].
Proof.
  intros Hw Hm Hf. unfold run_problem. rewrite Hw, Hm. cbn. rewrite Hf.
  reflexivity.
Qed.

(** ** Lines *)

(** Every line is of exactly one of the five kinds the loop tells apart:
    the solution marker, a value line, a block end, another statistics line,
    or a line of no interest. *)
Theorem line_kinds_partition (line : string) :
  length (List.filter id (line_kinds line)) = 1%nat.
Proof.
  unfold line_kinds.
  pose proof (is_stat_related_not_solution line) as Hsol.
  pose proof (is_stat_value_related line) as Hval.
  pose proof (stat_block_end_related line) as Hend.
  pose proof (stat_block_end_not_value line) as Hexcl.
  destruct (is_solution line), (is_stat_value line), (stat_block_end line),
    (is_stat_related line); cbn in *;
    try reflexivity;
    try (specialize (Hsol eq_refl); discriminate);
    try (specialize (Hval eq_refl); discriminate);
    try (specialize (Hend eq_refl); discriminate);
    try (specialize (Hexcl eq_refl); discriminate).
Qed.

(** What follows the first characters of a line that begins with an ASCII
    literal is what follows the literal. *)
Lemma slice_from_app (p s : string) :
  all_ascii p = true ->
  Py.slice_from (String.length p) (p +:+ s) = s.
Proof.
  unfold Py.slice_from.
  induction p as [|a p IH]; intros Hp; cbn [String.length].
  - destruct s; reflexivity.
  - cbn [all_ascii] in Hp. apply andb_true_iff in Hp as [Ha Hp].
    change (String a p +:+ s) with (String a (p +:+ s)).
    cbn [Py.drop_chars]. rewrite (char_width_ascii a Ha). cbn [Nat.sub].
    exact (IH Hp).
Qed.

Lemma split_length (c : ascii) (s : string) :
  length (Py.split c s) = S (count_char c s).
Proof.
  induction s as [|a s IH]; cbn; [reflexivity|].
  destruct (Ascii.eqb a c); cbn; [rewrite IH; reflexivity|].
  destruct (Py.split c s) as [|p ps]; cbn in *; [discriminate | exact IH].
Qed.

Lemma split_without (c : ascii) (s : string) :
  count_char c s = 0%nat -> Py.split c s = [s].
Proof.
  induction s as [|a s IH]; cbn; [reflexivity|].
  destruct (Ascii.eqb a c); cbn; [discriminate|].
  intros H. rewrite (IH H). reflexivity.
Qed.

Lemma split_at_first (c : ascii) (a b : string) :
  count_char c a = 0%nat ->
  Py.split c (a +:+ String c b) = a :: Py.split c b.
Proof.
  induction a as [|x a IH]; simpl.
  - intros _. rewrite Ascii.eqb_refl. reflexivity.
  - destruct (Ascii.eqb x c); simpl; [discriminate|].
    intros H. rewrite (IH H). reflexivity.
Qed.

(** A value line written as the prefix, a name, ['='] and a text, with no
    further ['='] in either, is read back as that very name (nothing is
    trimmed from it) and the number [float] makes of the text; when the text
    is no number the reading raises [ValueError]. *)
Theorem parse_value_reads_back (name text : string) :
  count_char "=" name = 0%nat ->
  count_char "=" text = 0%nat ->
  is_stat_value (stat_value_prefix +:+ name +:+ "=" +:+ text) = true /\
  parse_value (stat_value_prefix +:+ name +:+ "=" +:+ text)
  = match Py.float text with
    | Some v => Ok (name, v)
    | None => Raise ValueError
    end.
Proof.
  intros Hname Htext. split.
  - apply is_stat_value_prefix. eexists. reflexivity.
  - unfold parse_value.
    change 13%nat with (String.length stat_value_prefix).
    rewrite slice_from_app by reflexivity.
    change (name +:+ "=" +:+ text) with (name +:+ String "=" text).
    rewrite (split_at_first _ _ _ Hname), (split_without _ _ Htext).
    reflexivity.
Qed.

(** A value line is read only when exactly one ['='] follows its first 13
    characters: with none, or with more than one, the reading raises
    [ValueError]. *)
Theorem parse_value_needs_one_equals (line : string) :
  count_char "=" (Py.slice_from 13 line) <> 1%nat ->
  parse_value line = Raise ValueError.
Proof.
  intros Hcount. unfold parse_value.
  pose proof (split_length "=" (Py.slice_from 13 line)) as Hlen.
  destruct (Py.split "=" (Py.slice_from 13 line)) as [|a [|b [|c l]]];
    cbn in *; try reflexivity.
  congruence.
Qed.

(** ** What the loop depends on *)

Lemma loop_body_set_found (time_limit : Z) (save_percentages : list Z)
    (b : bool) (fr : Frame) (elapsed : float) (line : string) :
  is_stat_related line = true ->
  loop_body time_limit save_percentages (set_found_one_solution b fr)
    (elapsed, line)
  = result_map (set_found_one_solution b)
      (loop_body time_limit save_percentages fr (elapsed, line)).
Proof.
  intros Hs. destruct (Py.valid_utf8 line) eqn:Hd;
    [|rewrite !loop_body_undecodable by exact Hd; reflexivity].
  rewrite !loop_body_stat by assumption.
  unfold check_capture, capture_line.
  cbn [set_found_one_solution capture_next_block save_idx is_next_block].
  destruct (capture_next_block fr) eqn:Hc; cbn [bind].
  - cbn [set_found_one_solution capture_next_block is_next_block].
    rewrite Hc. destruct (is_next_block fr); cbn [andb].
    + destruct (is_stat_value line).
      * destruct (parse_value line); reflexivity.
      * destruct (stat_block_end line); reflexivity.
    + destruct (stat_block_end line); reflexivity.
  - destruct (reached_save_point _ _ _ _) as [[|]|]; cbn [bind result_map];
      [| |reflexivity].
    + destruct (Py.getitem save_percentages (save_idx fr)); cbn [bind];
        [|reflexivity].
      cbn [begin_capture set_found_one_solution capture_next_block
             is_next_block andb].
      destruct (is_next_block fr); cbn [andb].
      * destruct (is_stat_value line).
        -- destruct (parse_value line); reflexivity.
        -- destruct (stat_block_end line); reflexivity.
      * destruct (stat_block_end line); reflexivity.
    + cbn [set_found_one_solution capture_next_block is_next_block].
      rewrite Hc. reflexivity.
Qed.

Lemma set_found_same (fr : Frame) :
  set_found_one_solution (found_one_solution fr) (forget_solution fr) = fr.
Proof. destruct fr. reflexivity. Qed.

Lemma forget_note_solution (line : string) (fr : Frame) :
  forget_solution (note_solution line fr) = forget_solution fr.
Proof. unfold note_solution. destruct (_ && _); reflexivity. Qed.

Lemma run_loop_statistics_lines (time_limit : Z) (save_percentages : list Z)
    (lines : list (float * string)) (fr fr' : Frame) :
  forallb (fun tl => is_stat_related (snd tl) || Py.valid_utf8 (snd tl)) lines
  = true ->
  forget_solution fr = forget_solution fr' ->
  result_map forget_solution (run_loop time_limit save_percentages fr lines)
  = result_map forget_solution
      (run_loop time_limit save_percentages fr' (statistics_lines lines)).
Proof.
  revert fr fr'.
  induction lines as [|[elapsed line] lines IH]; intros fr fr' Hdec Heq.
  - cbn. congruence.
  - cbn [forallb snd] in Hdec. apply andb_true_iff in Hdec as [Hline Hdec].
    unfold statistics_lines. cbn [List.filter snd].
    destruct (is_stat_related line) eqn:Hs.
    + cbn [run_loop]. fold (statistics_lines lines).
      rewrite <- (set_found_same fr), <- (set_found_same fr'), <- Heq.
      rewrite !loop_body_set_found by exact Hs.
      destruct (loop_body _ _ (forget_solution fr) _) as [g|e];
        cbn [result_map bind]; [|reflexivity].
      apply IH; [exact Hdec | reflexivity].
    + cbn [run_loop]. fold (statistics_lines lines).
      cbn [orb] in Hline.
      rewrite loop_body_decoded by exact Hline. rewrite Hs. cbn [bind].
      apply IH; [exact Hdec|]. rewrite forget_note_solution. exact Heq.
Qed.

(** The snapshots of a run depend on the statistics lines alone: leaving
    every other line out of a stream, when the lines left out are UTF-8,
    changes neither the frame the loop ends in, but for its memory of a
    solution, nor the exception it raises. (A line that is not UTF-8 raises
    [UnicodeDecodeError] wherever it stands, so it cannot be left out.) *)
Theorem snapshots_depend_on_statistics_lines (time_limit : Z)
    (save_percentages : list Z) (fr : Frame) (lines : list (float * string)) :
  forallb (fun tl => is_stat_related (snd tl) || Py.valid_utf8 (snd tl)) lines
  = true ->
  result_map forget_solution (run_loop time_limit save_percentages fr lines)
  = result_map forget_solution
      (run_loop time_limit save_percentages fr (statistics_lines lines)).
Proof. intros H. apply run_loop_statistics_lines; [exact H | reflexivity]. Qed.

(** ** What the loop keeps *)

Lemma loop_body_results_grow (time_limit : Z) (save_percentages : list Z)
    (fr : Frame) (timed_line : float * string) (fr' : Frame) :
  loop_body time_limit save_percentages fr timed_line = Ok fr' ->
  results (results_obj fr) `prefix_of` results (results_obj fr').
Proof.
  destruct timed_line as [elapsed line]. intros H.
  apply loop_body_Ok in H as [[_ ->] | (_ & fr1 & H1 & H2)].
  - destruct (note_solution_rest line fr) as (-> & _). reflexivity.
  - transitivity (results (results_obj fr1)).
    + destruct (note_solution_rest line fr) as (<- & _).
      destruct H1; reflexivity.
    + destruct H2; try reflexivity.
      cbn. apply prefix_app_r. reflexivity.
Qed.

Lemma run_loop_results_grow (time_limit : Z) (save_percentages : list Z)
    (lines : list (float * string)) (fr fr' : Frame) :
  run_loop time_limit save_percentages fr lines = Ok fr' ->
  results (results_obj fr) `prefix_of` results (results_obj fr').
Proof.
  revert fr. induction lines as [|tl lines IH]; intros fr; cbn.
  - intros [= <-]. reflexivity.
  - intros H. apply bind_Ok in H as (fr1 & H1 & H2).
    transitivity (results (results_obj fr1));
      [eapply loop_body_results_grow; exact H1 | apply IH; exact H2].
Qed.

(** A snapshot that was appended stays as it is and where it is: wherever
    the output of a returning call is cut in two, the snapshots held after
    the first part are the first snapshots of the result. *)
Theorem appended_snapshots_are_kept (w : World) (mzn executable solver : string)
    (dzn : option string) (time_limit : Z) (save_percentages : list Z)
    (r : ProblemResults) (pre post : list (float * string)) :
  returned (run_problem w mzn dzn executable time_limit save_percentages solver)
  = Ok r ->
  proc_stdout w (command_of executable mzn dzn solver time_limit)
  = pre ++ post ->
  exists first fr,
    Py.getitem save_percentages 0 = Ok first /\
    run_loop time_limit save_percentages (initial_frame mzn dzn first) pre
    = Ok fr /\
    results (results_obj fr) `prefix_of` results r.
Proof.
  intros H Hsplit.
  apply run_problem_returned in H as (first & fr' & Hfirst & Hrun & ->).
  rewrite Hsplit in Hrun.
  apply run_loop_prefix in Hrun as (fr & Hpre & Hpost).
  exists first, fr. split; [exact Hfirst|]. split; [exact Hpre|].
  cbn [finish results]. eapply run_loop_results_grow. exact Hpost.
Qed.

Section Labels.

Variable time_limit : Z.
Variable save_percentages : list Z.
Variable first : Z.
Hypothesis first_target : Py.getitem save_percentages 0 = Ok first.

Lemma labels_ok_initial m p :
  labels_ok first save_percentages (initial_frame m p first).
Proof. split; reflexivity. Qed.

Lemma getitem_shifted (idx target : Z) :
  0 <= idx ->
  Py.getitem save_percentages idx = Ok target ->
  (first :: save_percentages) !! Z.to_nat (idx + 1) = Some target.
Proof.
  intros Hidx H. rewrite getitem_nonneg in H by exact Hidx.
  replace (Z.to_nat (idx + 1)) with (S (Z.to_nat idx)) by lia.
  cbn. destruct (save_percentages !! Z.to_nat idx); congruence.
Qed.

Lemma loop_body_labels_ok fr timed_line fr' :
  frame_ok save_percentages fr ->
  labels_ok first save_percentages fr ->
  loop_body time_limit save_percentages fr timed_line = Ok fr' ->
  labels_ok first save_percentages fr'.
Proof.
  destruct timed_line as [elapsed line]. intros [Hr Hc Hn] [Hl Hp Hx] H.
  unfold consumed_targets in Hc.
  apply loop_body_Ok in H as [[Hs ->] | (Hs & fr1 & H1 & H2)].
  - destruct (note_solution_rest line fr) as (E1 & E2 & E3 & E4 & _).
    split; rewrite ?E1, ?E2, ?E3, ?E4; assumption.
  - rewrite (note_solution_stat line fr Hs) in H1.
    destruct H1 as [target Hcap Hdue Ht | Hno].
    + rewrite Hcap in Hc.
      assert (labels_ok first save_percentages (begin_capture target fr))
        as Hok1.
      { split; cbn; [assumption | assumption |].
        apply getitem_shifted; [lia | exact Ht]. }
      destruct Hok1 as [Hl1 Hp1 Hx1].
      inversion H2 as [name value [_ Hnext] _ _ | [_ Hnext] _ _ | | ]; subst.
      * split; assumption.
      * cbn in Hnext.
        destruct (is_next_block fr) eqn:E; [|discriminate].
        rewrite (Hn eq_refl) in Hcap. discriminate.
      * split; assumption.
      * split; assumption.
    + destruct H2 as [name value [Hcap Hnext] Hv Hpv | [Hcap Hnext] Hv He
                     | Hcap Hnext He | Hno1 Hno2].
      * split; assumption.
      * rewrite Hcap in Hc.
        split; cbn [end_capture results_obj append_result results output
                      new_Output percent save_idx next_save_point].
        -- rewrite map_app, length_app, Hl. cbn [map length].
           rewrite Nat.add_1_r. symmetry. apply take_S_r. exact Hp.
        -- rewrite length_app. cbn [length]. rewrite <- Hx. f_equal. lia.
        -- exact Hx.
      * split; assumption.
      * split; assumption.
Qed.

Lemma run_loop_labels_ok fr lines fr' :
  frame_ok save_percentages fr ->
  labels_ok first save_percentages fr ->
  run_loop time_limit save_percentages fr lines = Ok fr' ->
  labels_ok first save_percentages fr'.
Proof.
  revert fr. induction lines as [|tl lines IH]; intros fr Hok Hlab; cbn.
  - intros [= <-]. exact Hlab.
  - intros H. apply bind_Ok in H as (fr1 & H1 & H2).
    apply (IH fr1); [| |exact H2].
    + eapply loop_body_frame_ok; [exact Hok | exact H1].
    + eapply loop_body_labels_ok; [exact Hok | exact Hlab | exact H1].
Qed.

End Labels.

(** The labels of the snapshots of any returned result are the first target
    followed by the targets in order, cut to the number of snapshots: the
    first snapshot carries the first target and each later one carries the
    target before its own. *)
Theorem snapshot_labels (w : World) (mzn executable solver : string)
    (dzn : option string) (time_limit : Z) (save_percentages : list Z)
    (r : ProblemResults) :
  returned (run_problem w mzn dzn executable time_limit save_percentages solver)
  = Ok r ->
  map percent (results r)
  = labels_given save_percentages (length (results r)).
Proof.
  intros H.
  apply run_problem_returned in H as (first & fr & Hfirst & Hrun & ->).
  pose proof (run_loop_labels_ok time_limit save_percentages first _ _ _
                (frame_ok_initial save_percentages mzn dzn first Hfirst)
                (labels_ok_initial save_percentages first mzn dzn) Hrun)
    as [Hl _ _].
  cbn [finish results]. rewrite Hl. unfold labels_given.
  destruct save_percentages as [|t rest]; [discriminate|].
  cbn in Hfirst. injection Hfirst as ->. reflexivity.
Qed.

(** ** What the loop can raise *)

Lemma int_truediv_error (a b : Z) (e : exn) :
  Py.int_truediv a b = Raise e -> e = ZeroDivisionError \/ e = OverflowError.
Proof.
  unfold Py.int_truediv. destruct (b =? 0); [intros [= <-]; left; reflexivity|].
  destruct (Py.round_ratio _ _ _); try discriminate.
  intros [= <-]. right. reflexivity.
Qed.

Lemma float_truediv_error (x y : float) (e : exn) :
  Py.float_truediv x y = Raise e -> e = ZeroDivisionError.
Proof.
  unfold Py.float_truediv. destruct (PrimFloat.eqb y 0); [|discriminate].
  intros [= <-]. reflexivity.
Qed.

Lemma parse_value_error (line : string) (e : exn) :
  parse_value line = Raise e -> e = ValueError.
Proof.
  unfold parse_value, Py.unpack2.
  destruct (Py.split "=" (Py.slice_from 13 line)) as [|a [|b [|c l]]];
    cbn [bind]; try (intros [= <-]; reflexivity).
  destruct (Py.float b); [discriminate | intros [= <-]; reflexivity].
Qed.

Lemma getitem_in_range {A : Type} (l : list A) (i : Z) :
  0 <= i < Z.of_nat (length l) -> exists a, Py.getitem l i = Ok a.
Proof.
  intros Hi. rewrite getitem_nonneg by lia.
  destruct (l !! Z.to_nat i) as [a|] eqn:Hl; [exists a; reflexivity|].
  apply lookup_ge_None in Hl. lia.
Qed.

Lemma reached_save_point_error (elapsed : float) (timeout : Z)
    (save_percentages : list Z) (save_idx : Z) (e : exn) :
  0 <= save_idx <= Z.of_nat (length save_percentages) ->
  reached_save_point elapsed timeout save_percentages save_idx = Raise e ->
  e = ZeroDivisionError \/ e = OverflowError.
Proof.
  intros Hidx. unfold reached_save_point.
  destruct (save_idx =? _) eqn:Hend; [discriminate|].
  destruct (Py.int_truediv timeout 1000) as [budget|e1] eqn:Hb; cbn [bind];
    [|intros [= <-]; eapply int_truediv_error; exact Hb].
  destruct (Py.float_truediv elapsed budget) as [share|e2] eqn:Hs; cbn [bind];
    [|intros [= <-]; left; eapply float_truediv_error; exact Hs].
  destruct (getitem_in_range save_percentages save_idx ltac:(lia))
    as [target ->].
  cbn [bind].
  destruct (Py.int_truediv target 100) as [goal|e3] eqn:Hg; cbn [bind];
    [discriminate|].
  intros [= <-]. eapply int_truediv_error. exact Hg.
Qed.

(** What an iteration raises, and on which line: [UnicodeDecodeError] on a
    line that is not UTF-8 and on no other; [ValueError] on a value line
    read while the next block is captured; [ZeroDivisionError] and
    [OverflowError] on a statistics line at which the due check is made. *)
Lemma loop_body_error (time_limit : Z) (save_percentages : list Z)
    (fr : Frame) (timed_line : float * string) (e : exn) :
  frame_ok save_percentages fr ->
  loop_body time_limit save_percentages fr timed_line = Raise e ->
  (e = UnicodeDecodeError /\ Py.valid_utf8 (snd timed_line) = false) \/
  (Py.valid_utf8 (snd timed_line) = true /\
   is_stat_related (snd timed_line) = true /\
   ((e = ValueError /\ is_stat_value (snd timed_line) = true /\
     capture_next_block fr = true /\ is_next_block fr = true) \/
    ((e = ZeroDivisionError \/ e = OverflowError) /\
     capture_next_block fr = false))).
Proof.
  destruct timed_line as [elapsed line]. intros [Hr _ Hnext]. cbn [snd].
  destruct (Py.valid_utf8 line) eqn:Hdec;
    [|rewrite loop_body_undecodable by exact Hdec;
      intros [= <-]; left; split; reflexivity].
  rewrite loop_body_decoded by exact Hdec.
  destruct (is_stat_related line) eqn:Hs; [|discriminate].
  rewrite (note_solution_stat line fr Hs).
  intros H. right. split; [reflexivity|]. split; [reflexivity|].
  destruct (check_capture time_limit save_percentages elapsed fr)
    as [fr1|e1] eqn:Hcheck; cbn [bind] in H.
  - unfold capture_line in H.
    destruct (capture_next_block fr1 && is_next_block fr1) eqn:Hstate.
    + destruct (is_stat_value line) eqn:Hv.
      * destruct (parse_value line) as [item|e2] eqn:Hp; [discriminate|].
        cbn [bind] in H. injection H as <-. left.
        split; [eapply parse_value_error; exact Hp|].
        split; [reflexivity|].
        apply andb_true_iff in Hstate as [_ Hn1].
        apply check_capture_Ok in Hcheck.
        destruct Hcheck as [target Hcap Hdue Ht | Hno].
        -- cbn in Hn1. rewrite (Hnext Hn1) in Hcap. discriminate.
        -- split; [apply Hnext|]; exact Hn1.
      * destruct (stat_block_end line); discriminate.
    + destruct (_ && _) in H; discriminate.
  - injection H as <-. unfold check_capture in Hcheck.
    destruct (capture_next_block fr); [discriminate|].
    destruct (reached_save_point _ _ _ _) as [[|]|e2] eqn:Hdue;
      cbn [bind] in Hcheck.
    + assert (is_due elapsed time_limit save_percentages (save_idx fr) = true)
        as Hd by (unfold is_due; rewrite Hdue; reflexivity).
      apply is_due_target in Hd as [target Ht]. rewrite Ht in Hcheck.
      discriminate.
    + discriminate.
    + injection Hcheck as <-. right. split; [|reflexivity].
      eapply reached_save_point_error; [exact Hr | exact Hdue].
Qed.

Lemma run_loop_error (time_limit : Z) (save_percentages : list Z)
    (lines : list (float * string)) (fr : Frame) (e : exn) :
  frame_ok save_percentages fr ->
  run_loop time_limit save_percentages fr lines = Raise e ->
  loop_error e.
Proof.
  revert fr. induction lines as [|tl lines IH]; intros fr Hok; cbn.
  - discriminate.
  - destruct (loop_body _ _ fr tl) as [fr1|e1] eqn:Hstep; cbn [bind].
    + apply IH. eapply loop_body_frame_ok; [exact Hok | exact Hstep].
    + intros [= <-]. unfold loop_error.
      destruct (loop_body_error _ _ _ _ _ Hok Hstep)
        as [[-> _] | (_ & _ & [[-> _] | [[-> | ->] _]])]; tauto.
Qed.

(** A loop that raises does so at one line, having read the lines before
    it without raising. *)
Lemma run_loop_raises (time_limit : Z) (save_percentages : list Z)
    (lines : list (float * string)) (fr : Frame) (e : exn) :
  run_loop time_limit save_percentages fr lines = Raise e ->
  exists pre timed_line post fr1,
    lines = pre ++ timed_line :: post /\
    run_loop time_limit save_percentages fr pre = Ok fr1 /\
    loop_body time_limit save_percentages fr1 timed_line = Raise e.
Proof.
  revert fr. induction lines as [|tl lines IH]; intros fr; cbn [run_loop].
  - discriminate.
  - destruct (loop_body _ _ fr tl) as [fr1|e1] eqn:Hstep; cbn [bind].
    + intros H. apply IH in H as (pre & l & post & fr2 & -> & Hpre & Hl).
      exists (tl :: pre), l, post, fr2. split; [reflexivity|].
      split; [|exact Hl]. cbn [run_loop]. rewrite Hstep. exact Hpre.
    + intros [= <-]. exists [], tl, lines, fr.
      split; [reflexivity|]. split; [reflexivity | exact Hstep].
Qed.

(** All a call can raise: [FileNotFoundError] from a failed check,
    [IndexError] from an empty list of checkpoints and from nothing else (the
    pointer never leaves the list), and from the loop, at the line where it
    stops: [UnicodeDecodeError] when that line is not UTF-8, [ValueError]
    when it is a value line read in the capturing-next-block state, and
    [ZeroDivisionError] or [OverflowError] when it is a statistics line
    at which the due check is made. *)
Theorem exceptions_of_run_problem (w : World) (mzn executable solver : string)
    (dzn : option string) (time_limit : Z) (save_percentages : list Z)
    (e : exn) :
  returned (run_problem w mzn dzn executable time_limit save_percentages solver)
  = Raise e ->
  (checks_pass w executable mzn dzn = false /\
   exists msg, e = FileNotFoundError msg) \/
  (checks_pass w executable mzn dzn = true /\
   save_percentages = [] /\ e = IndexError) \/
  (checks_pass w executable mzn dzn = true /\
   loop_error e /\
   exists first pre elapsed line post fr,
     Py.getitem save_percentages 0 = Ok first /\
     proc_stdout w (command_of executable mzn dzn solver time_limit)
     = pre ++ (elapsed, line) :: post /\
     run_loop time_limit save_percentages (initial_frame mzn dzn first) pre
     = Ok fr /\
     loop_body time_limit save_percentages fr (elapsed, line) = Raise e /\
     ((e = UnicodeDecodeError /\ Py.valid_utf8 line = false) \/
      (Py.valid_utf8 line = true /\ is_stat_related line = true /\
       ((e = ValueError /\ is_stat_value line = true /\
         capturing_next_block fr) \/
        ((e = ZeroDivisionError \/ e = OverflowError) /\
         capture_next_block fr = false))))).
Proof.
  intros H.
  destruct (checks_pass w executable mzn dzn) eqn:Hc.
  - right. destruct save_percentages as [|first rest].
    + left. rewrite (empty_checkpoints_raise w mzn executable solver dzn time_limit Hc)
        in H.
      injection H as <-. repeat split.
    + right. split; [reflexivity|].
      rewrite (run_problem_checked w mzn executable solver dzn time_limit
                 (first :: rest) first Hc eq_refl) in H.
      cbn [returned] in H.
      destruct (run_loop _ _ _ _) as [fr|e1] eqn:Hrun; [discriminate|].
      injection H as <-.
      pose proof (frame_ok_initial (first :: rest) mzn dzn first eq_refl)
        as Hok0.
      split; [eapply run_loop_error; [exact Hok0 | exact Hrun]|].
      apply run_loop_raises in Hrun
        as (pre & [elapsed line] & post & fr1 & Hout & Hpre & Hstep).
      exists first, pre, elapsed, line, post, fr1.
      split; [reflexivity|]. split; [exact Hout|]. split; [exact Hpre|].
      split; [exact Hstep|].
      pose proof (run_loop_frame_ok _ _ _ _ _ Hok0 Hpre) as Hok1.
      destruct (loop_body_error _ _ _ _ _ Hok1 Hstep)
        as [Hdec | (Hdec & Hs & [(He & Hv & Hcap & Hnext) | Hdue])];
        cbn [snd] in *.
      * left. exact Hdec.
      * right. split; [exact Hdec|]. split; [exact Hs|]. left.
        split; [exact He|]. split; [exact Hv|]. split; assumption.
      * right. split; [exact Hdec|]. split; [exact Hs|]. right. exact Hdue.
  - left. split; [reflexivity|].
    destruct (failed_check_raises w mzn executable solver dzn time_limit
                save_percentages Hc) as [msg Hmsg].
    rewrite Hmsg in H. injection H as <-. exists msg. reflexivity.
Qed.

Lemma run_loop_zero_budget (save_percentages : list Z)
    (lines : list (float * string)) (fr : Frame) :
  save_percentages <> [] ->
  capture_next_block fr = false ->
  save_idx fr = 0 ->
  run_loop 0 save_percentages fr lines
  = match List.find (fun tl => negb (Py.valid_utf8 (snd tl))
                               || is_stat_related (snd tl)) lines with
    | Some tl =>
        Raise (if Py.valid_utf8 (snd tl) then ZeroDivisionError
               else UnicodeDecodeError)
    | None => Ok (fold_left (fun fr tl => note_solution (snd tl) fr) lines fr)
    end.
Proof.
  intros Hne. revert fr.
  induction lines as [|[elapsed line] lines IH]; intros fr Hc Hidx.
  - reflexivity.
  - cbn [run_loop List.find snd fold_left].
    destruct (Py.valid_utf8 line) eqn:Hdec; cbn [negb orb];
      [|rewrite loop_body_undecodable by exact Hdec;
        cbn [snd bind]; rewrite Hdec; reflexivity].
    rewrite loop_body_decoded by exact Hdec.
    destruct (is_stat_related line) eqn:Hs.
    + rewrite (note_solution_stat line fr Hs). cbn [snd]. rewrite Hdec.
      unfold check_capture, reached_save_point. rewrite Hc, Hidx.
      destruct save_percentages as [|t rest]; [congruence|].
      reflexivity.
    + cbn [bind]. apply IH.
      * destruct (note_solution_rest line fr) as (_ & _ & _ & _ & -> & _).
        exact Hc.
      * destruct (note_solution_rest line fr) as (_ & -> & _). exact Hidx.
Qed.

Lemma note_solutions_results (ls : list (float * string)) (fr : Frame) :
  results (results_obj
             (fold_left (fun fr tl => note_solution (snd tl) fr) ls fr))
  = results (results_obj fr).
Proof.
  revert fr. induction ls as [|tl ls IH]; intros fr; cbn; [reflexivity|].
  rewrite IH. destruct (note_solution_rest (snd tl) fr) as (-> & _).
  reflexivity.
Qed.

(** With a time limit of 0 a call that passes its checks cannot get past the
    first statistics line of the output: the due check divides by the budget
    and raises [ZeroDivisionError], unless a line that is not UTF-8 stops the
    call before, or there, with [UnicodeDecodeError]. Only an output of UTF-8
    lines without statistics lines lets the call return, without
    snapshots. *)
Theorem zero_time_limit_divides_by_zero (w : World)
    (mzn executable solver : string) (dzn : option string)
    (save_percentages : list Z) :
  checks_pass w executable mzn dzn = true ->
  save_percentages <> [] ->
  let lines := proc_stdout w (command_of executable mzn dzn solver 0) in
  let call := returned (run_problem w mzn dzn executable 0 save_percentages
                          solver) in
  match List.find (fun tl => negb (Py.valid_utf8 (snd tl))
                             || is_stat_related (snd tl)) lines with
  | Some tl =>
      call = Raise (if Py.valid_utf8 (snd tl) then ZeroDivisionError
                    else UnicodeDecodeError)
  | None => exists r, call = Ok r /\ results r = []
  end.
Proof.
  intros Hc Hne lines call. subst call.
  destruct save_percentages as [|first rest] eqn:Hsp; [congruence|].
  rewrite (run_problem_checked w mzn executable solver dzn 0
             (first :: rest) first Hc eq_refl).
  cbn [returned]. fold lines.
  rewrite run_loop_zero_budget; [|discriminate|reflexivity|reflexivity].
  destruct (List.find _ lines); [reflexivity|].
  eexists. split; [reflexivity|].
  cbn [bind finish results]. rewrite note_solutions_results. reflexivity.
Qed.

(** ** Block ends and snapshots *)

Lemma loop_body_block_ends (time_limit : Z) (save_percentages : list Z)
    (fr : Frame) (timed_line : float * string) (fr' : Frame) :
  loop_body time_limit save_percentages fr timed_line = Ok fr' ->
  (block_ends_used fr'
   <= block_ends_used fr + block_ends [timed_line])%nat.
Proof.
  destruct timed_line as [elapsed line]. intros H.
  unfold block_ends, block_ends_used. cbn [List.filter snd].
  apply loop_body_Ok in H as [[_ ->] | (Hs & fr1 & H1 & H2)].
  - destruct (note_solution_rest line fr) as (-> & _ & _ & _ & _ & ->). lia.
  - rewrite (note_solution_stat line fr Hs) in H1.
    assert (results (results_obj fr1) = results (results_obj fr)
            /\ is_next_block fr1 = is_next_block fr) as [E1 E2]
        by (destruct H1; split; reflexivity).
    rewrite <- E1, <- E2.
    destruct H2 as [name value [Hcap Hnext] Hv Hpv | [Hcap Hnext] Hv He
                   | Hcap Hnext He | Hno1 Hno2].
    + cbn. lia.
    + rewrite Hnext, He. cbn. rewrite length_app. cbn. lia.
    + rewrite Hnext, He. cbn. lia.
    + lia.
Qed.

Lemma run_loop_block_ends (time_limit : Z) (save_percentages : list Z)
    (lines : list (float * string)) (fr fr' : Frame) :
  run_loop time_limit save_percentages fr lines = Ok fr' ->
  (block_ends_used fr' <= block_ends_used fr + block_ends lines)%nat.
Proof.
  revert fr. induction lines as [|tl lines IH]; intros fr; cbn [run_loop].
  - intros [= <-]. lia.
  - intros H. apply bind_Ok in H as (fr1 & H1 & H2).
    apply loop_body_block_ends in H1. apply IH in H2.
    unfold block_ends in *. cbn [List.filter] in *.
    destruct (stat_block_end (snd tl)); cbn [length] in *; lia.
Qed.

(** Every snapshot takes two block-end lines, one to arm its capture and
    one to finalize it: a returned result has at most half as many snapshots
    as the output has block-end lines. *)
Theorem two_block_ends_per_snapshot (w : World) (mzn executable solver : string)
    (dzn : option string) (time_limit : Z) (save_percentages : list Z)
    (r : ProblemResults) :
  returned (run_problem w mzn dzn executable time_limit save_percentages solver)
  = Ok r ->
  (2 * length (results r)
   <= block_ends (proc_stdout w (command_of executable mzn dzn solver
                                   time_limit)))%nat.
Proof.
  intros H.
  apply run_problem_returned in H as (first & fr & _ & Hrun & ->).
  apply run_loop_block_ends in Hrun.
  unfold block_ends_used in Hrun. cbn in Hrun |- *.
  destruct (is_next_block fr); lia.
Qed.

(** ** The checkpoint test out of range *)

(** The test for the end of the list is an equality: an index past the end,
    or below minus the length, is not answered with [False]. When the two
    divisions of the elapsed time go through, the call raises [IndexError];
    a negative index from minus the length on counts from the end of the
    list. *)
Theorem reached_save_point_out_of_range (elapsed : float) (timeout : Z)
    (save_percentages : list Z) (save_idx : Z) (budget share : float) :
  Py.int_truediv timeout 1000 = Ok budget ->
  Py.float_truediv elapsed budget = Ok share ->
  let n := Z.of_nat (length save_percentages) in
  (n < save_idx \/ save_idx < - n ->
   reached_save_point elapsed timeout save_percentages save_idx
   = Raise IndexError) /\
  (- n <= save_idx < 0 ->
   reached_save_point elapsed timeout save_percentages save_idx
   = reached_save_point elapsed timeout save_percentages (save_idx + n)).
Proof.
  intros Hb Hs n. subst n. unfold reached_save_point. split.
  - intros Hout. rewrite Hb. cbn [bind]. rewrite Hs. cbn [bind].
    destruct (save_idx =? _) eqn:Hend; [lia|].
    unfold Py.getitem.
    destruct (save_idx <? 0) eqn:Hneg.
    + destruct (_ || _) eqn:Hor; [reflexivity|].
      apply orb_false_iff in Hor as [H1 H2]. lia.
    + destruct (_ || _) eqn:Hor; [reflexivity|].
      apply orb_false_iff in Hor as [H1 H2]. lia.
  - intros Hin. rewrite Hb. cbn [bind]. rewrite Hs. cbn [bind].
    destruct (save_idx =? _) eqn:Hend; [lia|].
    destruct (save_idx + _ =? _) eqn:Hend'; [lia|].
    unfold Py.getitem. cbv zeta.
    assert ((save_idx <? 0) = true) as -> by lia.
    assert ((save_idx + Z.of_nat (length save_percentages) <? 0) = false)
      as Hwrap by lia.
    rewrite Hwrap. cbv iota. rewrite Hwrap. reflexivity.
Qed.

(** * Properties of the database functions *)

(** ** Tuples *)

Lemma and_then_Done {A B : Type} (r : attempt A) (k : A -> attempt B) (b : B) :
  and_then r k = Done b <-> exists a, r = Done a /\ k a = Done b.
Proof.
  destruct r as [a|e]; cbn; split.
  - intros H. exists a. split; [reflexivity | exact H].
  - intros (a' & [= <-] & H). exact H.
  - discriminate.
  - intros (a' & H & _). discriminate.
Qed.

Lemma collect_Done {A : Type} (l : list (attempt A)) (vs : list A) :
  collect l = Done vs <-> l = map Done vs.
Proof.
  revert vs. induction l as [|r l IH]; intros vs; cbn.
  - split; [intros [= <-]; reflexivity | destruct vs; [reflexivity|discriminate]].
  - split.
    + intros H. apply and_then_Done in H as (a & -> & H).
      apply and_then_Done in H as (l' & Hl & [= <-]).
      apply IH in Hl as ->. reflexivity.
    + destruct vs as [|v vs]; [discriminate|]. intros [= -> ->].
      cbn. rewrite (proj2 (IH vs) eq_refl). reflexivity.
Qed.

Lemma collect_Failed {A : Type} (l : list (attempt A)) (e : error) :
  collect l = Failed e -> In (Failed e) l.
Proof.
  induction l as [|r l IH]; cbn; [discriminate|].
  destruct r as [a|e']; cbn.
  - destruct (collect l) as [l'|e'']; cbn; [discriminate|].
    intros [= <-]. right. apply IH. reflexivity.
  - intros [= <-]. left. reflexivity.
Qed.

(** The first failure in a tuple is the one that is raised. *)
Lemma collect_first_failure {A : Type} (vs : list A) (e : error)
    (rest : list (attempt A)) :
  collect (map Done vs ++ Failed e :: rest) = Failed e.
Proof. induction vs as [|v vs IH]; cbn; [reflexivity | rewrite IH; reflexivity]. Qed.

Lemma feature_of_Done (result_set : list Output) (i : nat) (key : string)
    (v : py_value) :
  feature_of result_set i key = Done v ->
  exists o f,
    result_set !! i = Some o /\ features o !! key = Some f /\ v = PyFloat f.
Proof.
  unfold feature_of. destruct (result_set !! i) as [o|]; [|discriminate].
  destruct (features o !! key) as [f|] eqn:Hf; [|discriminate].
  intros [= <-]. exists o, f. split; [reflexivity|]. split; [exact Hf|].
  reflexivity.
Qed.

Lemma feature_of_Failed (result_set : list Output) (i : nat) (key : string)
    (e : error) :
  feature_of result_set i key = Failed e ->
  (e = Core IndexError /\ (length result_set <= i)%nat) \/
  (e = KeyError key /\
   exists o, result_set !! i = Some o /\ features o !! key = None).
Proof.
  unfold feature_of. destruct (result_set !! i) as [o|] eqn:Hi.
  - destruct (features o !! key) eqn:Hk; [discriminate|].
    intros [= <-]. right. split; [reflexivity|]. exists o.
    split; [reflexivity | exact Hk].
  - intros [= <-]. left. split; [reflexivity|].
    apply lookup_ge_None. exact Hi.
Qed.

(** The features of a snapshot that has them all, as a tuple. *)
Lemma snapshot_features (result_set : list Output) (i : nat) (o : Output)
    (keys : list string) :
  result_set !! i = Some o ->
  Forall (fun key => is_Some (features o !! key)) keys ->
  exists fs,
    map (feature_of result_set i) keys = map Done (map PyFloat fs) /\
    map adapt (map PyFloat fs) = map (stored_feature o) keys.
Proof.
  intros Hi. induction 1 as [|key keys [f Hf] _ (fs & IH1 & IH2)].
  - exists []. split; reflexivity.
  - exists (f :: fs). cbn. rewrite IH1, IH2.
    unfold feature_of at 1, stored_feature at 2. rewrite Hi, Hf.
    split; reflexivity.
Qed.

(** ** The statement and the table *)

Lemma insert_columns_distinct : NoDup insert_columns.
Proof. apply (bool_decide_unpack _). vm_compute. exact I. Qed.

Lemma insert_columns_are_the_table : map fst features_columns = insert_columns.
Proof. vm_compute. reflexivity. Qed.

Lemma index_of_lookup (names : list string) (i : nat) (name : string) :
  NoDup names -> names !! i = Some name -> index_of name names = Some i.
Proof.
  intros Hnd. revert i. induction Hnd as [|n names Hnotin Hnd IH]; intros i.
  - discriminate.
  - destruct i as [|i]; cbn.
    + intros [= ->]. rewrite String.eqb_refl. reflexivity.
    + intros Hi. destruct (String.eqb n name) eqn:Heq.
      * apply String.eqb_eq in Heq as ->. exfalso. apply Hnotin.
        apply list_elem_of_lookup. exists i. exact Hi.
      * rewrite (IH i Hi). reflexivity.
Qed.

(** When the statement names the columns of the table, all of them, each
    once and in the order of the table, the row is the tuple. *)
Lemma row_of_insert_in_order (table : list (string * bool))
    (values : list sql_value) :
  NoDup (map fst table) ->
  length values = length table ->
  row_of_insert table (map fst table) values = values.
Proof.
  intros Hnd Hlen. unfold row_of_insert. apply list_eq. intros i.
  rewrite list_lookup_fmap.
  destruct (table !! i) as [c|] eqn:Hc; cbn.
  - rewrite (index_of_lookup (map fst table) i (fst c) Hnd)
      by (rewrite list_lookup_fmap, Hc; reflexivity).
    destruct (values !! i) as [v|] eqn:Hv; [reflexivity|].
    apply lookup_ge_None in Hv. apply lookup_lt_Some in Hc. lia.
  - symmetry. apply lookup_ge_None. apply lookup_ge_None in Hc. lia.
Qed.

Lemma insert_parameters_Done (mzn dzn : option string)
    (problem_results : ProblemResults) (parameters : list py_value) :
  insert_parameters mzn dzn problem_results = Done parameters ->
  exists s0 s1 s2 s3 rest,
    results problem_results = s0 :: s1 :: s2 :: s3 :: rest /\
    Forall has_all_features [s0; s1; s2; s3] /\
    map adapt parameters
    = adapt (py_of_path mzn) :: adapt (py_of_path dzn)
      :: flat_map (fun o => map (stored_feature o) insert_feature_keys)
           [s0; s1; s2; s3]
      ++ [Integer (if solved problem_results then 1 else 0)].
Proof.
  unfold insert_parameters. intros H.
  apply and_then_Done in H as (values & Hvalues & [= <-]).
  assert (forall i key,
            In i [0; 1; 2; 3]%nat -> In key insert_feature_keys ->
            exists v, feature_of (results problem_results) i key = Done v)
    as Hall.
  { intros i key Hi Hkey.
    pose proof Hvalues as Heq. apply collect_Done in Heq.
    assert (In (feature_of (results problem_results) i key)
              (map Done values)) as Hin.
    { rewrite <- Heq. apply in_flat_map. exists i. split; [exact Hi|].
      apply in_map. exact Hkey. }
    apply in_map_iff in Hin as (v & Hv & _). exists v. symmetry. exact Hv. }
  assert (forall i, In i [0; 1; 2; 3]%nat ->
            exists o, results problem_results !! i = Some o
                      /\ has_all_features o) as Hsnap.
  { intros i Hi.
    destruct (Hall i "restarts" Hi ltac:(left; reflexivity)) as [v Hv].
    apply feature_of_Done in Hv as (o & _ & Ho & _ & _).
    exists o. split; [exact Ho|].
    apply Forall_forall. intros key Hkey. apply list_elem_of_In in Hkey.
    destruct (Hall i key Hi Hkey) as [v' Hv'].
    apply feature_of_Done in Hv' as (o' & f & Ho' & Hf & _).
    rewrite Ho in Ho'. injection Ho' as <-. exists f. exact Hf. }
  destruct (Hsnap 0%nat ltac:(cbn; tauto)) as (s0 & H0 & F0).
  destruct (Hsnap 1%nat ltac:(cbn; tauto)) as (s1 & H1 & F1).
  destruct (Hsnap 2%nat ltac:(cbn; tauto)) as (s2 & H2 & F2).
  destruct (Hsnap 3%nat ltac:(cbn; tauto)) as (s3 & H3 & F3).
  destruct (results problem_results) as [|t0 [|t1 [|t2 [|t3 rest]]]] eqn:Hres;
    try discriminate.
  cbn in H0, H1, H2, H3.
  injection H0 as ->. injection H1 as ->. injection H2 as ->. injection H3 as ->.
  exists s0, s1, s2, s3, rest. split; [reflexivity|].
  split.
  { constructor; [exact F0|]. constructor; [exact F1|].
    constructor; [exact F2|]. constructor; [exact F3|]. constructor. }
  destruct (snapshot_features (s0 :: s1 :: s2 :: s3 :: rest) 0 s0
              insert_feature_keys eq_refl F0) as (f0 & E0 & A0).
  destruct (snapshot_features (s0 :: s1 :: s2 :: s3 :: rest) 1 s1
              insert_feature_keys eq_refl F1) as (f1 & E1 & A1).
  destruct (snapshot_features (s0 :: s1 :: s2 :: s3 :: rest) 2 s2
              insert_feature_keys eq_refl F2) as (f2 & E2 & A2).
  destruct (snapshot_features (s0 :: s1 :: s2 :: s3 :: rest) 3 s3
              insert_feature_keys eq_refl F3) as (f3 & E3 & A3).
  cbn [flat_map] in Hvalues |- *.
  rewrite E0, E1, E2, E3, app_nil_r, <- !map_app in Hvalues.
  rewrite (proj2 (collect_Done _ _) eq_refl) in Hvalues.
  injection Hvalues as <-.
  cbn [map]. rewrite !map_app, A0, A1, A2, A3, app_nil_r. reflexivity.
Qed.

Lemma insert_parameters_length (mzn dzn : option string)
    (problem_results : ProblemResults) (parameters : list py_value) :
  insert_parameters mzn dzn problem_results = Done parameters ->
  length parameters = insert_placeholders.
Proof.
  intros H. apply insert_parameters_Done in H as (s0 & s1 & s2 & s3 & rest & _ & _ & H).
  apply (f_equal length) in H. rewrite length_map in H. rewrite H.
  reflexivity.
Qed.

(** The row a successful [INSERT] stores is the tuple, value for value. *)
Lemma insert_result_set_Done (db db' : Database) (mzn dzn : option string)
    (problem_results : ProblemResults) :
  insert_result_set_in_db db mzn dzn problem_results = Done db' ->
  exists parameters rows,
    insert_parameters mzn dzn problem_results = Done parameters /\
    features_table db = Some rows /\
    violates_not_null features_columns (map adapt parameters) = false /\
    duplicates_key rows (map adapt parameters) = false /\
    db' = {| todo_table := todo_table db;
             features_table := Some (rows ++ [map adapt parameters]) |}.
Proof.
  unfold insert_result_set_in_db. intros H.
  apply and_then_Done in H as (parameters & Hp & H).
  exists parameters. destruct (features_table db) as [rows|]; [|discriminate].
  exists rows.
  rewrite (insert_parameters_length _ _ _ _ Hp), Nat.eqb_refl in H.
  cbn [negb] in H.
  rewrite <- insert_columns_are_the_table in H.
  rewrite row_of_insert_in_order in H.
  - destruct (_ || _) eqn:Hbad; [discriminate|].
    apply orb_false_iff in Hbad as [Hnull Hdup].
    injection H as <-. repeat split; assumption.
  - rewrite insert_columns_are_the_table. exact insert_columns_distinct.
  - rewrite length_map, (insert_parameters_length _ _ _ _ Hp). reflexivity.
Qed.

Lemma not_null_paths (mzn dzn : option string) (tail : list sql_value) :
  violates_not_null features_columns
    (adapt (py_of_path mzn) :: adapt (py_of_path dzn) :: tail) = false ->
  exists m d, mzn = Some m /\ dzn = Some d.
Proof.
  unfold violates_not_null, features_columns.
  cbn [app zip zip_with existsb fst snd andb].
  destruct mzn as [m|]; [|discriminate].
  destruct dzn as [d|]; [|intros H; cbn in H; discriminate].
  intros _. exists m, d. split; reflexivity.
Qed.

Lemma inserted_row_key (db db' : Database) (mzn dzn : option string)
    (problem_results : ProblemResults) :
  insert_result_set_in_db db mzn dzn problem_results = Done db' ->
  exists m d s0 s1 s2 s3 rest rows,
    mzn = Some m /\ dzn = Some d /\
    results problem_results = s0 :: s1 :: s2 :: s3 :: rest /\
    Forall has_all_features [s0; s1; s2; s3] /\
    features_table db = Some rows /\
    let row := Text m :: Text d
               :: flat_map (fun o => map (stored_feature o) insert_feature_keys)
                    [s0; s1; s2; s3]
               ++ [Integer (if solved problem_results then 1 else 0)] in
    duplicates_key rows row = false /\
    db' = {| todo_table := todo_table db;
             features_table := Some (rows ++ [row]) |}.
Proof.
  intros H.
  apply insert_result_set_Done in H
    as (parameters & rows & Hp & Hrows & Hnull & Hdup & ->).
  apply insert_parameters_Done in Hp
    as (s0 & s1 & s2 & s3 & rest & Hres & Hall & Hrow).
  rewrite Hrow in Hnull, Hdup |- *.
  destruct (not_null_paths _ _ _ Hnull) as (m & d & -> & ->).
  exists m, d, s0, s1, s2, s3, rest, rows.
  repeat split; assumption.
Qed.

(** A row is stored column by column from the position of the snapshots:
    the columns [p5_...] take the features of the first snapshot, [p10_...]
    those of the second, [p15_...] and [p20_...] those of the third and
    fourth, whatever the percent labels of the snapshots say; the column
    [long_vars] takes the feature [long]; snapshots after the fourth and
    features the statement does not read are left out. Both paths are there
    (neither is [None]), and [todo] is not touched. *)
Theorem insert_stores_by_position (db db' : Database) (mzn dzn : option string)
    (problem_results : ProblemResults) :
  insert_result_set_in_db db mzn dzn problem_results = Done db' ->
  exists m d s0 s1 s2 s3 rest rows row,
    mzn = Some m /\ dzn = Some d /\
    results problem_results = s0 :: s1 :: s2 :: s3 :: rest /\
    features_table db = Some rows /\
    features_table db' = Some (rows ++ [row]) /\
    todo_table db' = todo_table db /\
    zip (map fst features_columns) row
    = row_by_column m d [s0; s1; s2; s3] (solved problem_results).
Proof.
  intros H.
  apply inserted_row_key in H
    as (m & d & s0 & s1 & s2 & s3 & rest & rows
        & -> & -> & Hres & _ & Hrows & _ & ->).
  exists m, d, s0, s1, s2, s3, rest, rows. eexists.
  repeat (split; [first [reflexivity | assumption]|]).
  cbv - [stored_feature]. reflexivity.
Qed.

(** ** What the insertion raises *)

Lemma insert_parameters_complete (mzn dzn : option string)
    (problem_results : ProblemResults) (s0 s1 s2 s3 : Output)
    (rest : list Output) :
  results problem_results = s0 :: s1 :: s2 :: s3 :: rest ->
  Forall has_all_features [s0; s1; s2; s3] ->
  exists parameters,
    insert_parameters mzn dzn problem_results = Done parameters.
Proof.
  intros Hres Hall. unfold insert_parameters. rewrite Hres.
  apply Forall_cons in Hall as [F0 Hall].
  apply Forall_cons in Hall as [F1 Hall].
  apply Forall_cons in Hall as [F2 Hall].
  apply Forall_cons in Hall as [F3 _].
  destruct (snapshot_features (s0 :: s1 :: s2 :: s3 :: rest) 0 s0
              insert_feature_keys eq_refl F0) as (f0 & E0 & _).
  destruct (snapshot_features (s0 :: s1 :: s2 :: s3 :: rest) 1 s1
              insert_feature_keys eq_refl F1) as (f1 & E1 & _).
  destruct (snapshot_features (s0 :: s1 :: s2 :: s3 :: rest) 2 s2
              insert_feature_keys eq_refl F2) as (f2 & E2 & _).
  destruct (snapshot_features (s0 :: s1 :: s2 :: s3 :: rest) 3 s3
              insert_feature_keys eq_refl F3) as (f3 & E3 & _).
  cbn [flat_map].
  rewrite E0, E1, E2, E3, app_nil_r, <- !map_app.
  rewrite (proj2 (collect_Done _ _) eq_refl). cbn [and_then].
  eexists. reflexivity.
Qed.

Lemma missing_snapshot_raises (result_set : list Output) (i : nat)
    (done : list py_value) (rest : list (attempt py_value)) :
  result_set !! i = None ->
  collect (map Done done
           ++ map (feature_of result_set i) insert_feature_keys ++ rest)
  = Failed (Core IndexError).
Proof.
  intros Hi. unfold insert_feature_keys. cbn [map app].
  unfold feature_of at 1. rewrite Hi. apply collect_first_failure.
Qed.

(** With fewer than four snapshots, all of them with every feature, the
    insertion raises [IndexError] while the tuple is built: the statement
    is not run. *)
Theorem insert_needs_four_snapshots (db : Database) (mzn dzn : option string)
    (problem_results : ProblemResults) :
  (length (results problem_results) < 4)%nat ->
  Forall has_all_features (results problem_results) ->
  insert_result_set_in_db db mzn dzn problem_results = Failed (Core IndexError).
Proof.
  intros Hlen Hall. unfold insert_result_set_in_db, insert_parameters.
  assert (collect
            (flat_map (fun i => map (feature_of (results problem_results) i)
                                  insert_feature_keys) [0; 1; 2; 3]%nat)
          = Failed (Core IndexError)) as ->; [|reflexivity].
  cbn [flat_map].
  destruct (results problem_results) as [|s0 [|s1 [|s2 [|s3 rest]]]] eqn:Hres;
    cbn [length] in Hlen; [| | | |lia].
  - apply (missing_snapshot_raises [] 0 []). reflexivity.
  - apply Forall_cons in Hall as [F0 _].
    destruct (snapshot_features [s0] 0 s0 insert_feature_keys eq_refl F0)
      as (f0 & -> & _).
    apply missing_snapshot_raises. reflexivity.
  - apply Forall_cons in Hall as [F0 Hall].
    apply Forall_cons in Hall as [F1 _].
    destruct (snapshot_features [s0; s1] 0 s0 insert_feature_keys eq_refl F0)
      as (f0 & -> & _).
    destruct (snapshot_features [s0; s1] 1 s1 insert_feature_keys eq_refl F1)
      as (f1 & -> & _).
    rewrite app_assoc, <- map_app.
    apply missing_snapshot_raises. reflexivity.
  - apply Forall_cons in Hall as [F0 Hall].
    apply Forall_cons in Hall as [F1 Hall].
    apply Forall_cons in Hall as [F2 _].
    destruct (snapshot_features [s0; s1; s2] 0 s0 insert_feature_keys eq_refl F0)
      as (f0 & -> & _).
    destruct (snapshot_features [s0; s1; s2] 1 s1 insert_feature_keys eq_refl F1)
      as (f1 & -> & _).
    destruct (snapshot_features [s0; s1; s2] 2 s2 insert_feature_keys eq_refl F2)
      as (f2 & -> & _).
    rewrite app_assoc, <- map_app, app_assoc, <- map_app.
    apply missing_snapshot_raises. reflexivity.
Qed.

Lemma insert_parameters_Failed (mzn dzn : option string)
    (problem_results : ProblemResults) (e : error) :
  insert_parameters mzn dzn problem_results = Failed e ->
  (e = Core IndexError /\ (length (results problem_results) < 4)%nat) \/
  (exists key o,
     e = KeyError key /\ In key insert_feature_keys /\
     In o (take 4 (results problem_results)) /\ features o !! key = None).
Proof.
  unfold insert_parameters.
  destruct (collect _) as [values|e'] eqn:Hc; [discriminate|].
  cbn [and_then]. intros [= ->].
  apply collect_Failed in Hc. apply in_flat_map in Hc as (i & Hi & Hin).
  apply in_map_iff in Hin as (key & Hkey & Hk).
  apply feature_of_Failed in Hkey as [[-> Hlen] | (-> & o & Ho & Hnone)].
  - left. split; [reflexivity|]. cbn in Hi. lia.
  - right. exists key, o. repeat split; try assumption.
    apply list_elem_of_In, list_elem_of_lookup. exists i.
    rewrite lookup_take_lt; [exact Ho|]. cbn in Hi. lia.
Qed.

Lemma insert_result_set_Failed (db : Database) (mzn dzn : option string)
    (problem_results : ProblemResults) (e : error) :
  insert_result_set_in_db db mzn dzn problem_results = Failed e ->
  (e = Core IndexError /\ (length (results problem_results) < 4)%nat) \/
  (exists key o,
     e = KeyError key /\ In key insert_feature_keys /\
     In o (take 4 (results problem_results)) /\ features o !! key = None) \/
  (e = OperationalError /\ features_table db = None) \/
  (e = IntegrityError /\
   exists parameters rows,
     insert_parameters mzn dzn problem_results = Done parameters /\
     features_table db = Some rows /\
     violates_not_null features_columns (map adapt parameters)
     || duplicates_key rows (map adapt parameters) = true).
Proof.
  unfold insert_result_set_in_db.
  destruct (insert_parameters mzn dzn problem_results) as [parameters|e']
    eqn:Hp; cbn [and_then].
  - destruct (features_table db) as [rows|];
      [|intros [= <-]; right; right; left; split; reflexivity].
    rewrite (insert_parameters_length _ _ _ _ Hp), Nat.eqb_refl.
    cbn [negb].
    rewrite <- insert_columns_are_the_table, row_of_insert_in_order.
    + destruct (_ || _) eqn:Hbad; [|discriminate].
      intros [= <-]. right; right; right. split; [reflexivity|].
      exists parameters, rows. repeat split. exact Hbad.
    + rewrite insert_columns_are_the_table. exact insert_columns_distinct.
    + rewrite length_map, (insert_parameters_length _ _ _ _ Hp). reflexivity.
  - intros [= <-].
    destruct (insert_parameters_Failed _ _ _ _ Hp) as [H | H];
      [left | right; left]; exact H.
Qed.

(** A table [features] made by [setup_db] is there. *)
Lemma features_by_setup_table (db : Database) :
  features_by_setup db -> exists rows, features_table db = Some rows.
Proof.
  induction 1 as [db Hnone | db mzn dzn pr db' _ _ Hins | db rows _ IH].
  - unfold setup_db. rewrite Hnone. eexists. reflexivity.
  - apply insert_result_set_Done in Hins as (ps & rows & _ & _ & _ & _ & ->).
    eexists. reflexivity.
  - exact IH.
Qed.

(** All the insertion can raise, and when, on a database without a table
    [features] and on one whose table [features] was made by [setup_db]. On
    both: [IndexError] only with fewer than four snapshots, and [KeyError]
    only for a key the statement reads that one of the first four snapshots
    lacks. Without the table, nothing else but [OperationalError], once the
    tuple is built. With the table of [setup_db], nothing else but
    [IntegrityError], and only on a NULL in a [not null] column or on a key
    [(mzn, dzn)] already in the table; the number of values always fits the
    statement. *)
Theorem insert_failures (db : Database) (mzn dzn : option string)
    (problem_results : ProblemResults) (e : error) :
  insert_result_set_in_db db mzn dzn problem_results = Failed e ->
  (features_table db = None ->
   (e = Core IndexError /\ (length (results problem_results) < 4)%nat) \/
   (exists key o,
      e = KeyError key /\ In key insert_feature_keys /\
      In o (take 4 (results problem_results)) /\ features o !! key = None) \/
   (e = OperationalError /\
    exists parameters,
      insert_parameters mzn dzn problem_results = Done parameters)) /\
  (features_by_setup db ->
   (e = Core IndexError /\ (length (results problem_results) < 4)%nat) \/
   (exists key o,
      e = KeyError key /\ In key insert_feature_keys /\
      In o (take 4 (results problem_results)) /\ features o !! key = None) \/
   (e = IntegrityError /\
    exists parameters rows,
      insert_parameters mzn dzn problem_results = Done parameters /\
      features_table db = Some rows /\
      violates_not_null features_columns (map adapt parameters)
      || duplicates_key rows (map adapt parameters) = true)).
Proof.
  intros H. split.
  - intros Hnone.
    destruct (insert_result_set_Failed db mzn dzn problem_results e H)
      as [Hshort | [Hkey | [[He _] | (_ & ps & rows & _ & Hrows & _)]]].
    + left. exact Hshort.
    + right; left. exact Hkey.
    + right; right. split; [exact He|].
      destruct (insert_parameters mzn dzn problem_results) as [ps|e'] eqn:Hp;
        [exists ps; reflexivity|].
      unfold insert_result_set_in_db in H. rewrite Hp in H.
      cbn [and_then] in H. injection H as <-.
      apply insert_parameters_Failed in Hp
        as [[He' _] | (key & o & He' & _)]; congruence.
    + congruence.
  - intros Hmade. apply features_by_setup_table in Hmade as [rows Hrows].
    destruct (insert_result_set_Failed db mzn dzn problem_results e H)
      as [Hshort | [Hkey | [[_ Hnone] | Hrow]]].
    + left. exact Hshort.
    + right; left. exact Hkey.
    + congruence.
    + right; right. exact Hrow.
Qed.

(** A problem without an instance cannot be recorded in a table [features]
    made by [setup_db], where [dzn] is [not null]: with [None] for the
    instance the insertion never stores a row, and with four full snapshots
    it raises [IntegrityError]. *)
Theorem insert_rejects_missing_instance (db : Database) (mzn : option string)
    (problem_results : ProblemResults) :
  features_by_setup db ->
  (forall db',
     insert_result_set_in_db db mzn None problem_results <> Done db') /\
  (forall s0 s1 s2 s3 rest,
     results problem_results = s0 :: s1 :: s2 :: s3 :: rest ->
     Forall has_all_features [s0; s1; s2; s3] ->
     insert_result_set_in_db db mzn None problem_results
     = Failed IntegrityError).
Proof.
  intros Hmade. apply features_by_setup_table in Hmade as [rows Hrows].
  assert (forall db',
            insert_result_set_in_db db mzn None problem_results <> Done db')
    as Hnever.
  { intros db' H. apply inserted_row_key in H
      as (m & d & s0 & s1 & s2 & s3 & rest & rows' & _ & Hd & _).
    discriminate. }
  split; [exact Hnever|].
  intros s0 s1 s2 s3 rest Hres Hall.
  destruct (insert_result_set_in_db db mzn None problem_results)
    as [db'|e] eqn:H; [exfalso; exact (Hnever db' eq_refl)|].
  apply insert_result_set_Failed in H
    as [[_ Hlen] | [(key & o & _ & Hkey & Ho & Hnone) | [[_ Hno] | [-> _]]]].
  - rewrite Hres in Hlen. cbn in Hlen. lia.
  - exfalso. rewrite Hres in Ho. cbn [take] in Ho.
    apply list_elem_of_In in Ho, Hkey.
    rewrite Forall_forall in Hall. specialize (Hall o Ho).
    unfold has_all_features in Hall. rewrite Forall_forall in Hall.
    destruct (Hall key Hkey) as [v Hv]. congruence.
  - congruence.
  - reflexivity.
Qed.

(** The key [(mzn, dzn)] is stored once: after an insertion for a problem,
    no later insertion for the same two paths stores a row, whatever result
    it is given. *)
Theorem insert_twice_is_rejected (db db' : Database) (mzn dzn : option string)
    (first second : ProblemResults) :
  insert_result_set_in_db db mzn dzn first = Done db' ->
  forall db'', insert_result_set_in_db db' mzn dzn second <> Done db''.
Proof.
  intros H1 db'' H2.
  apply inserted_row_key in H1
    as (m & d & s0 & s1 & s2 & s3 & rest & rows
        & -> & -> & _ & _ & _ & _ & ->).
  apply inserted_row_key in H2
    as (m' & d' & t0 & t1 & t2 & t3 & rest' & rows'
        & [= <-] & [= <-] & _ & _ & Hrows' & Hdup & _).
  cbn [features_table] in Hrows'. injection Hrows' as <-.
  unfold duplicates_key in Hdup. rewrite existsb_app in Hdup.
  cbn in Hdup. rewrite !String.eqb_refl in Hdup. cbn in Hdup.
  rewrite orb_true_r in Hdup. discriminate.
Qed.

(** * Properties of the script *)

(** ** Reading and removing *)

Lemma filter_other_ids (id : Z) (rows : list TodoRow) :
  List.filter (fun r => negb (todo_id r =? id)) rows `sublist_of` rows /\
  Forall (fun r => todo_id r <> id)
    (List.filter (fun r => negb (todo_id r =? id)) rows).
Proof.
  induction rows as [|r rows [IH1 IH2]]; cbn.
  - split; constructor.
  - destruct (todo_id r =? id) eqn:Heq; cbn.
    + split; [apply sublist_cons; exact IH1 | exact IH2].
    + split; [apply sublist_skip; exact IH1|].
      constructor; [lia | exact IH2].
Qed.

(** Reading the next problem and removing its id, as the script does it
    twice: the row read is the first of the table, and it is gone, with every
    other row of its id, from the table left behind. *)
Lemma read_then_remove (db : Database) (rows : list TodoRow) :
  todo_table db = Some rows ->
  exists cur db' rows',
    read_next_problem_from_db db = Done (problem_of cur) /\
    remove_id_from_todo_list db (fst (fst (problem_of cur))) = Done db' /\
    features_table db' = features_table db /\
    todo_table db' = Some rows' /\
    option_list cur ++ rows' `sublist_of` rows /\
    (cur = None -> rows = []) /\
    (forall c, cur = Some c ->
       Forall (fun r => todo_id r <> todo_id c) rows'
       /\ (length rows' < length rows)%nat).
Proof.
  intros Hrows. unfold read_next_problem_from_db, remove_id_from_todo_list.
  rewrite Hrows. destruct rows as [|c rest].
  - exists None. eexists. exists []. cbn.
    repeat split; try reflexivity; congruence.
  - exists (Some c). eexists.
    exists (List.filter (fun r => negb (todo_id r =? todo_id c)) rest).
    cbn [problem_of fst List.filter]. rewrite Z.eqb_refl. cbn [negb].
    destruct (filter_other_ids (todo_id c) rest) as [Hsub Hids].
    do 4 (split; [reflexivity|]).
    split; [cbn; apply sublist_skip; exact Hsub|].
    split; [discriminate|].
    intros c' [= <-]. split; [exact Hids|].
    apply sublist_length in Hsub. cbn. lia.
Qed.

(** ** What a run and an insertion of the script can raise *)

Lemma run_problem_not_IndexError (w : World) (mzn executable solver : string)
    (dzn : option string) (time_limit : Z) (save_percentages : list Z) :
  save_percentages <> [] ->
  returned (run_problem w mzn dzn executable time_limit save_percentages solver)
  <> Raise IndexError.
Proof.
  intros Hne H.
  destruct (checks_pass w executable mzn dzn) eqn:Hc.
  - destruct save_percentages as [|first rest]; [congruence|].
    rewrite (run_problem_checked w mzn executable solver dzn time_limit
               (first :: rest) first Hc eq_refl) in H.
    cbn [returned] in H.
    destruct (run_loop _ _ _ _) as [fr|e] eqn:Hrun; [discriminate|].
    injection H as ->.
    apply run_loop_error in Hrun as [|[|[|]]];
      [discriminate.. | apply frame_ok_initial; reflexivity].
  - destruct (failed_check_raises w mzn executable solver dzn time_limit
                save_percentages Hc) as [msg Hmsg].
    congruence.
Qed.

Lemma insert_Failed_cases (db : Database) (mzn dzn : option string)
    (problem_results : ProblemResults) (e : error) :
  insert_result_set_in_db db mzn dzn problem_results = Failed e ->
  insert_parameters mzn dzn problem_results = Failed e
  \/ e = OperationalError \/ e = IntegrityError.
Proof.
  unfold insert_result_set_in_db.
  destruct (insert_parameters mzn dzn problem_results) as [parameters|e']
    eqn:Hp; cbn [and_then]; [|intros [= <-]; left; reflexivity].
  destruct (features_table db) as [rows|];
    [|intros [= <-]; right; left; reflexivity].
  rewrite (insert_parameters_length _ _ _ _ Hp), Nat.eqb_refl. cbn [negb].
  destruct (_ || _); [|discriminate].
  intros [= <-]. right; right. reflexivity.
Qed.

(** What the insertion of the script does to the database, made only for a
    result of four snapshots. *)
Lemma gated_insert (db : Database) (mzn : string) (dzn : option string)
    (problem_results : ProblemResults) :
  match (if (length (results problem_results) =? length save_points)%nat
         then insert_result_set_in_db db (Some mzn) dzn problem_results
         else Done db) with
  | Done db' =>
      todo_table db' = todo_table db /\
      features_rows db `prefix_of` features_rows db' /\
      (length (features_rows db') <= length (features_rows db) + 1)%nat
  | Failed e => e <> Core IndexError /\ e <> ProgrammingError
  end.
Proof.
  destruct (length (results problem_results) =? length save_points)%nat
    eqn:Hlen.
  - apply Nat.eqb_eq in Hlen. cbn in Hlen.
    destruct (insert_result_set_in_db db (Some mzn) dzn problem_results)
      as [db'|e] eqn:H.
    + apply insert_result_set_Done in H
        as (parameters & rows & _ & Hrows & _ & _ & ->).
      unfold features_rows. cbn [todo_table features_table]. rewrite Hrows.
      cbn. split; [reflexivity|].
      split; [apply prefix_app_r; reflexivity|].
      rewrite length_app. cbn. lia.
    + apply insert_Failed_cases in H as [H | [-> | ->]];
        [|split; discriminate..].
      apply insert_parameters_Failed in H
        as [[_ Hshort] | (key & o & -> & _)]; [lia|].
      split; discriminate.
  - split; [reflexivity|]. split; [reflexivity|]. lia.
Qed.

(** ** The loop of the script *)

Lemma main_loop_done (fuel : nat) (worlds : nat -> World) (n : nat)
    (db : Database) (cur : option TodoRow)
    (log : list (option Z * string * option string)) :
  (forall c, cur = Some c -> todo_mzn c = None) ->
  main_loop fuel worlds n db (problem_of cur) log
  = Some {| database := db; announced := log; stopped := None |}.
Proof.
  intros Hcur. destruct cur as [c|]; cbn [problem_of].
  - destruct fuel; cbn [main_loop]; rewrite (Hcur c eq_refl); reflexivity.
  - destruct fuel; reflexivity.
Qed.

Lemma script_ok_done (db : Database) (cur : option TodoRow)
    (rows : list TodoRow) (log : list (option Z * string * option string)) :
  todo_table db = Some rows ->
  script_ok (option_list cur ++ rows) (features_rows db) log
    {| database := db; announced := log; stopped := None |} [].
Proof.
  intros Hrows. split; cbn [database announced stopped map length app].
  - rewrite app_nil_r. reflexivity.
  - constructor.
  - unfold todo_rows. rewrite Hrows. cbn. apply sublist_inserts_l. reflexivity.
  - constructor.
  - reflexivity.
  - lia.
  - split; discriminate.
Qed.

Lemma script_ok_stopped (db : Database) (c : TodoRow) (m : string)
    (rows : list TodoRow) (log : list (option Z * string * option string))
    (e : error) :
  todo_table db = Some rows ->
  todo_mzn c = Some m ->
  Forall (fun r => todo_id r <> todo_id c) rows ->
  e <> Core IndexError -> e <> ProgrammingError ->
  script_ok (c :: rows) (features_rows db) log
    {| database := db;
       announced := log ++ [(Some (todo_id c), m, todo_dzn c)];
       stopped := Some e |} [c].
Proof.
  intros Hrows Hm Hids He1 He2.
  split; cbn [database announced stopped map length app].
  - unfold announce. rewrite Hm. reflexivity.
  - constructor; [rewrite Hm; eexists; reflexivity | constructor].
  - unfold todo_rows. rewrite Hrows. reflexivity.
  - constructor; [|constructor]. unfold todo_rows. rewrite Hrows. exact Hids.
  - reflexivity.
  - lia.
  - split; congruence.
Qed.

Lemma main_loop_spec (fuel : nat) (worlds : nat -> World) :
  forall (n : nat) (db : Database) (cur : option TodoRow)
         (log : list (option Z * string * option string))
         (rows : list TodoRow),
    todo_table db = Some rows ->
    (forall c, cur = Some c ->
       Forall (fun r => todo_id r <> todo_id c) rows
       /\ (length rows < fuel)%nat) ->
    exists s ran,
      main_loop fuel worlds n db (problem_of cur) log = Some s /\
      script_ok (option_list cur ++ rows) (features_rows db) log s ran.
Proof.
  induction fuel as [|fuel IH]; intros n db cur log rows Hrows Hcur.
  - exists {| database := db; announced := log; stopped := None |}, [].
    split; [|apply script_ok_done; exact Hrows].
    apply main_loop_done. intros c Hc. destruct (Hcur c Hc) as [_ Hlt]. lia.
  - destruct cur as [c|];
      [|exists {| database := db; announced := log; stopped := None |}, [];
        split; [apply main_loop_done; congruence
               | apply (script_ok_done db None); exact Hrows]].
    destruct (todo_mzn c) as [m|] eqn:Hm;
      [|exists {| database := db; announced := log; stopped := None |}, [];
        split; [apply main_loop_done; congruence
               | apply (script_ok_done db (Some c)); exact Hrows]].
    destruct (Hcur c eq_refl) as [Hids Hlt].
    cbn [main_loop problem_of option_list app]. rewrite Hm.
    destruct (returned (run_problem (worlds n) m (todo_dzn c)
                          default_executable default_time_limit save_points
                          default_solver)) as [pr|e] eqn:Hrun.
    + pose proof (gated_insert db m (todo_dzn c) pr) as Hins.
      destruct (if (length (results pr) =? length save_points)%nat
                then insert_result_set_in_db db (Some m) (todo_dzn c) pr
                else Done db) as [db1|e].
      * destruct Hins as (Htodo & Hpre & Hlen).
        rewrite Hrows in Htodo.
        destruct (read_then_remove db1 rows Htodo)
          as (cur' & db2 & rows' & -> & -> & Hfeat & Hrows' & Hsub & _ & Hcur').
        destruct (IH (S n) db2 cur'
                    (log ++ [(Some (todo_id c), m, todo_dzn c)]) rows' Hrows')
          as (s & ran & Hloop & [A1 A2 A3 A4 A5 A6 A7]).
        { intros c' Hc'. destruct (Hcur' c' Hc') as [Hids' Hlt'].
          split; [exact Hids' | lia]. }
        exists s, (c :: ran). split; [exact Hloop|].
        assert (features_rows db2 = features_rows db1) as Hf2
            by (unfold features_rows; rewrite Hfeat; reflexivity).
        assert (ran ++ todo_rows (database s) `sublist_of` rows) as Hin
            by (etransitivity; [exact A3 | exact Hsub]).
        split.
        -- rewrite A1, <- app_assoc. cbn. unfold announce at 2.
           rewrite Hm. reflexivity.
        -- constructor; [rewrite Hm; eexists; reflexivity | exact A2].
        -- cbn. apply sublist_skip. exact Hin.
        -- constructor; [|exact A4].
           apply Forall_forall. intros x Hx.
           rewrite Forall_forall in Hids. apply Hids.
           apply (sublist_subseteq _ _ Hin). apply elem_of_app. right. exact Hx.
        -- etransitivity; [exact Hpre|]. rewrite <- Hf2. exact A5.
        -- rewrite Hf2 in A6. cbn [length]. lia.
        -- exact A7.
      * destruct Hins as [He1 He2].
        eexists. exists [c]. split; [reflexivity|].
        apply script_ok_stopped; assumption.
    + eexists. exists [c]. split; [reflexivity|].
      apply script_ok_stopped; try assumption; [|discriminate].
      intros [= ->].
      apply (run_problem_not_IndexError (worlds n) m default_executable
               default_solver (todo_dzn c) default_time_limit save_points);
        [discriminate | exact Hrun].
Qed.

Lemma main_spec (worlds : nat -> World) (db : Database) :
  exists s ran,
    main worlds db = Some s /\
    script_ok (todo_rows db) (features_rows db) [] s ran.
Proof.
  unfold main.
  assert (todo_table (setup_db db) = todo_table db
          /\ features_rows (setup_db db) = features_rows db) as [Ht Hf].
  { unfold setup_db, features_rows.
    destruct (features_table db) eqn:E; cbn; rewrite ?E; split; reflexivity. }
  destruct (todo_table db) as [rows|] eqn:Hrows.
  - destruct (read_then_remove (setup_db db) rows Ht)
      as (cur & db' & rows' & -> & -> & Hfeat & Hrows' & Hsub & _ & Hcur).
    destruct (main_loop_spec (length (todo_rows (setup_db db))) worlds 0 db'
                cur [] rows' Hrows')
      as (s & ran & Hloop & [A1 A2 A3 A4 A5 A6 A7]).
    { intros c Hc. destruct (Hcur c Hc) as [Hids Hlt].
      split; [exact Hids|]. unfold todo_rows. rewrite Ht. exact Hlt. }
    assert (features_rows db' = features_rows db) as Hf'
        by (unfold features_rows in *; rewrite Hfeat; exact Hf).
    exists s, ran. split; [exact Hloop|].
    replace (todo_rows db) with rows
      by (unfold todo_rows; rewrite Hrows; reflexivity).
    split; try assumption.
    + etransitivity; [exact A3 | exact Hsub].
    + rewrite <- Hf'. exact A5.
    + rewrite <- Hf'. exact A6.
  - unfold read_next_problem_from_db. rewrite Ht.
    eexists. exists []. split; [reflexivity|].
    split; cbn [database announced stopped map length app].
    + reflexivity.
    + constructor.
    + unfold todo_rows. rewrite Ht, Hrows. reflexivity.
    + constructor.
    + rewrite Hf. reflexivity.
    + rewrite Hf. lia.
    + split; discriminate.
Qed.

(** ** The script as a whole *)

(** The script always comes to an end, and it runs rows of [todo] in the
    order of the table, each at most once: the problems it announces,
    followed by the rows it leaves in [todo], are rows of the table it
    started from, in their order there. Every problem announced has a
    model. *)
Theorem script_runs_rows_in_order (worlds : nat -> World) (db : Database) :
  exists s ran,
    main worlds db = Some s /\
    announced s = map announce ran /\
    Forall (fun r => is_Some (todo_mzn r)) ran /\
    ran ++ todo_rows (database s) `sublist_of` todo_rows db /\
    (length (announced s) <= length (todo_rows db))%nat.
Proof.
  destruct (main_spec worlds db) as (s & ran & Hmain & [A1 A2 A3 _ _ _ _]).
  exists s, ran. repeat split; try assumption.
  rewrite A1. cbn. rewrite length_map.
  apply sublist_length in A3. rewrite length_app in A3. lia.
Qed.

(** A problem is taken off [todo] before it is run, with every row of its
    id: however the script ends, also when an exception of the run or of the
    insertion stops it, no row left in [todo] has the id of a problem that
    was announced. *)
Theorem script_removes_before_running (worlds : nat -> World) (db : Database) :
  exists s ran,
    main worlds db = Some s /\
    announced s = map announce ran /\
    forall r x,
      r ∈ ran -> x ∈ todo_rows (database s) -> todo_id x <> todo_id r.
Proof.
  destruct (main_spec worlds db) as (s & ran & Hmain & [A1 _ _ A4 _ _ _]).
  exists s, ran. repeat split; try assumption.
  intros r x Hr Hx. rewrite Forall_forall in A4.
  specialize (A4 r Hr). rewrite Forall_forall in A4. exact (A4 x Hx).
Qed.

(** The script inserts a result only when it has as many snapshots as there
    are save points, so the insertion never lacks a snapshot: whatever stops
    the script, it is neither an [IndexError] nor a wrong number of
    parameters. *)
Theorem script_never_lacks_a_snapshot (worlds : nat -> World) (db : Database) :
  exists s,
    main worlds db = Some s /\
    stopped s <> Some (Core IndexError) /\
    stopped s <> Some ProgrammingError.
Proof.
  destruct (main_spec worlds db) as (s & ran & Hmain & [_ _ _ _ _ _ A7]).
  exists s. split; [exact Hmain | exact A7].
Qed.

(** The script only adds to [features]: the rows that were there stay, in
    place, and at most one row is added for each problem announced. *)
Theorem script_only_adds_results (worlds : nat -> World) (db : Database) :
  exists s,
    main worlds db = Some s /\
    features_rows db `prefix_of` features_rows (database s) /\
    (length (features_rows (database s))
     <= length (features_rows db) + length (announced s))%nat.
Proof.
  destruct (main_spec worlds db) as (s & ran & Hmain & [A1 _ _ _ A5 A6 _]).
  exists s. split; [exact Hmain|]. split; [exact A5|].
  rewrite A1. cbn. rewrite length_map. exact A6.
Qed.

(** After an id was removed, reading the next problem never returns it. *)
Theorem removed_id_is_not_read (db db' : Database) (id : Z)
    (next : option Z * option string * option string) :
  remove_id_from_todo_list db (Some id) = Done db' ->
  read_next_problem_from_db db' = Done next ->
  fst (fst next) <> Some id.
Proof.
  unfold remove_id_from_todo_list, read_next_problem_from_db.
  destruct (todo_table db) as [rows|]; [|discriminate].
  intros [= <-]. cbn [todo_table].
  destruct (filter_other_ids id rows) as [_ Hids].
  destruct (List.filter _ rows) as [|c rest].
  - intros [= <-]. discriminate.
  - intros [= <-]. cbn. apply Forall_cons in Hids as [Hc _]. congruence.
Qed.

(** ** The further properties at work *)

(** An empty instance path next to a model that exists. *)
Lemma empty_instance_is_passed_unchecked_witness :
  spawned (run_problem (scripted_world []) "model.mzn" (Some "")
             default_executable 1000 [50] default_solver)
  = [["minizinc"; "model.mzn"; ""; "--solver"; "org.chuffed.modded-chuffed";
      "-t"; "1000"]].
Proof.
  apply (empty_instance_is_passed_unchecked (scripted_world []) "model.mzn"
           default_executable default_solver 1000 [50] 50); reflexivity.
Defined.

(** A name with a blank in it and a value with an exponent. *)
Lemma parse_value_reads_back_witness :
  parse_value "%%%mzn-stat: peak depth=7e1" = Ok ("peak depth", 70%float).
Proof.
  exact (proj2 (parse_value_reads_back "peak depth" "7e1" eq_refl eq_refl)).
Defined.

(** Two ['='] in a value line. *)
Lemma parse_value_needs_one_equals_witness :
  parse_value "%%%mzn-stat: a=b=c" = Raise ValueError.
Proof.
  apply (parse_value_needs_one_equals "%%%mzn-stat: a=b=c").
  vm_compute. lia.
Defined.

(** The early-exit run, cut after its first four lines. *)
Lemma appended_snapshots_are_kept_witness :
  exists first fr,
    Py.getitem default_save_percentages 0 = Ok first /\
    run_loop 1000 default_save_percentages
      (initial_frame "model.mzn" None first) (take 4 early_exit_stream)
    = Ok fr /\
    results (results_obj fr)
    `prefix_of` results (result_or_empty early_exit_run).
Proof.
  apply (appended_snapshots_are_kept (scripted_world early_exit_stream)
           "model.mzn" default_executable default_solver None 1000
           default_save_percentages (result_or_empty early_exit_run)
           (take 4 early_exit_stream) (drop 4 early_exit_stream));
    vm_compute; reflexivity.
Defined.

(** The complete run labels its four snapshots 5, 5, 10 and 15. *)
Lemma snapshot_labels_witness :
  map percent (results (result_or_empty complete_run)) = [5; 5; 10; 15].
Proof.
  refine (snapshot_labels (scripted_world complete_stream) "a.mzn"
            default_executable default_solver (Some "a.dzn")
            default_time_limit save_points (result_or_empty complete_run) _).
  vm_compute. reflexivity.
Defined.

(** A malformed value line in the block being captured: a [ValueError]. *)
Lemma exceptions_of_run_problem_witness :
  let w := scripted_world
             (block_lines (block_at 600 "x" "1.0")
              ++ [(ms 700, value_line "x" "one")]) in
  returned (run_problem w "model.mzn" None default_executable 1000 [50]
              default_solver) = Raise ValueError /\
  checks_pass w default_executable "model.mzn" None = true /\
  loop_error ValueError.
Proof.
  intros w.
  assert (returned (run_problem w "model.mzn" None default_executable 1000
                      [50] default_solver) = Raise ValueError) as Hraise
      by (vm_compute; reflexivity).
  split; [exact Hraise|].
  destruct (exceptions_of_run_problem w "model.mzn" default_executable
              default_solver None 1000 [50] ValueError Hraise)
    as [[Hc _] | [(_ & Hsp & _) | (Hc & He & _)]].
  - vm_compute in Hc. discriminate.
  - discriminate.
  - split; [exact Hc | exact He].
Defined.

(** The early-exit run with and without its solution line. *)
Lemma snapshots_depend_on_statistics_lines_witness :
  result_map forget_solution
    (run_loop 1000 default_save_percentages (initial_frame "model.mzn" None 5)
       early_exit_stream)
  = result_map forget_solution
      (run_loop 1000 default_save_percentages
         (initial_frame "model.mzn" None 5)
         (statistics_lines early_exit_stream)) /\
  length (statistics_lines early_exit_stream)
  = (length early_exit_stream - 1)%nat.
Proof.
  split; [|vm_compute; reflexivity].
  apply snapshots_depend_on_statistics_lines. vm_compute. reflexivity.
Defined.

(** The single block of the first scenario, under a time limit of 0. *)
Lemma zero_time_limit_divides_by_zero_witness :
  returned (run_problem (scripted_world block_at_600ms) "model.mzn" None
              default_executable 0 [50] default_solver)
  = Raise ZeroDivisionError.
Proof.
  refine (zero_time_limit_divides_by_zero (scripted_world block_at_600ms)
            "model.mzn" default_executable default_solver None [50]
            eq_refl _).
  discriminate.
Defined.

(** A complete result stored in an empty table. *)
Lemma insert_stores_by_position_witness :
  exists db' row,
    insert_result_set_in_db empty_database (Some "a.mzn") (Some "a.dzn")
      (complete_result "a.mzn" (Some "a.dzn")) = Done db' /\
    features_table db' = Some [row] /\
    zip (map fst features_columns) row
    = row_by_column "a.mzn" "a.dzn"
        (results (complete_result "a.mzn" (Some "a.dzn"))) true.
Proof.
  destruct (insert_result_set_in_db empty_database (Some "a.mzn")
              (Some "a.dzn") (complete_result "a.mzn" (Some "a.dzn")))
    as [db'|e] eqn:H; [|vm_compute in H; discriminate].
  destruct (insert_stores_by_position _ _ _ _ _ H)
    as (m & d & s0 & s1 & s2 & s3 & rest & rows & row
        & [= <-] & [= <-] & [= <- <- <- <- <-] & [= <-] & Hrow & _ & Hzip).
  exists db', row. split; [reflexivity|]. split; [exact Hrow | exact Hzip].
Defined.

(** A result of two full snapshots. *)
Lemma insert_needs_four_snapshots_witness :
  insert_result_set_in_db empty_database (Some "a.mzn") (Some "a.dzn")
    (unsolved "a.mzn" (Some "a.dzn") [full_snapshot 5 1; full_snapshot 5 2])
  = Failed (Core IndexError).
Proof.
  apply insert_needs_four_snapshots.
  - cbn. lia.
  - apply (bool_decide_unpack _). vm_compute. exact I.
Defined.

(** A complete result on a database without the table [features]. *)
Lemma insert_failures_witness :
  let r := complete_result "a.mzn" (Some "a.dzn") in
  insert_result_set_in_db sample_queue (Some "a.mzn") (Some "a.dzn") r
  = Failed OperationalError /\
  exists parameters,
    insert_parameters (Some "a.mzn") (Some "a.dzn") r = Done parameters.
Proof.
  intros r.
  assert (insert_result_set_in_db sample_queue (Some "a.mzn") (Some "a.dzn") r
          = Failed OperationalError) as H by (vm_compute; reflexivity).
  split; [exact H|].
  pose proof (insert_failures sample_queue (Some "a.mzn") (Some "a.dzn") r
                OperationalError H) as [Hnone _].
  specialize (Hnone eq_refl).
  destruct Hnone as [[He _] | [(key & o & He & _) | [_ Hps]]].
  - discriminate He.
  - discriminate He.
  - exact Hps.
Defined.

(** A complete result without an instance, on the sample queue once
    [setup_db] has made the table. *)
Lemma insert_rejects_missing_instance_witness :
  features_by_setup (setup_db sample_queue) /\
  insert_result_set_in_db (setup_db sample_queue) (Some "b.mzn") None
    (complete_result "b.mzn" None)
  = Failed IntegrityError.
Proof.
  assert (features_by_setup (setup_db sample_queue)) as Hmade
      by (apply by_setup; reflexivity).
  split; [exact Hmade|].
  refine (proj2 (insert_rejects_missing_instance (setup_db sample_queue)
                   (Some "b.mzn") (complete_result "b.mzn" None) Hmade)
            _ _ _ _ [] eq_refl _).
  apply (bool_decide_unpack _). vm_compute. exact I.
Defined.

(** The same problem recorded twice. *)
Lemma insert_twice_is_rejected_witness :
  let r := complete_result "a.mzn" (Some "a.dzn") in
  exists db',
    insert_result_set_in_db empty_database (Some "a.mzn") (Some "a.dzn") r
    = Done db' /\
    forall db'',
      insert_result_set_in_db db' (Some "a.mzn") (Some "a.dzn") r
      <> Done db''.
Proof.
  intros r.
  destruct (insert_result_set_in_db empty_database (Some "a.mzn")
              (Some "a.dzn") r) as [db'|e] eqn:H;
    [|vm_compute in H; discriminate].
  exists db'. split; [reflexivity|].
  exact (insert_twice_is_rejected _ _ _ _ r r H).
Defined.

(** The sample queue after its first id was removed. *)
Lemma removed_id_is_not_read_witness :
  exists db' next,
    remove_id_from_todo_list sample_queue (Some 1) = Done db' /\
    read_next_problem_from_db db' = Done next /\
    next = (Some 2, Some "b.mzn", None) /\
    fst (fst next) <> Some 1.
Proof.
  eexists. eexists.
  split; [reflexivity|]. split; [reflexivity|]. split; [reflexivity|].
  eapply (removed_id_is_not_read sample_queue); reflexivity.
Defined.

(** The script on the sample queue: the first problem is run to the end and
    recorded, the second ends early and is not, the third is never run, its
    id having been removed with the first. *)
Example script_on_sample_queue :
  exists s row,
    main sample_worlds sample_queue = Some s /\
    announced s = [(Some 1, "a.mzn", Some "a.dzn"); (Some 2, "b.mzn", None)] /\
    stopped s = None /\
    todo_table (database s) = Some [] /\
    features_table (database s) = Some [row] /\
    take 2 row = [Text "a.mzn"; Text "a.dzn"].
Proof.
  eexists. eexists. split; [vm_compute; reflexivity|].
  repeat split.
Qed.

(** The early-exit run: five block ends, two snapshots. *)
Lemma two_block_ends_per_snapshot_witness :
  (2 * length (results (result_or_empty early_exit_run))
   <= block_ends early_exit_stream)%nat /\
  length (results (result_or_empty early_exit_run)) = 2%nat /\
  block_ends early_exit_stream = 5%nat.
Proof.
  split; [|split; vm_compute; reflexivity].
  refine (two_block_ends_per_snapshot (scripted_world early_exit_stream)
            "model.mzn" default_executable default_solver None 1000
            default_save_percentages (result_or_empty early_exit_run) _).
  vm_compute. reflexivity.
Defined.

(** The index 5 and the index -1 on a list of four targets. *)
Lemma reached_save_point_out_of_range_witness :
  reached_save_point (ms 600) 1000 default_save_percentages 5
  = Raise IndexError /\
  reached_save_point (ms 600) 1000 default_save_percentages (-1)
  = reached_save_point (ms 600) 1000 default_save_percentages 3.
Proof.
  split.
  - refine (proj1 (reached_save_point_out_of_range (ms 600) 1000
                     default_save_percentages 5 1 (ms 600) _ _) _);
      [vm_compute; reflexivity | vm_compute; reflexivity | cbn; lia].
  - refine (proj2 (reached_save_point_out_of_range (ms 600) 1000
                     default_save_percentages (-1) 1 (ms 600) _ _) _);
      [vm_compute; reflexivity | vm_compute; reflexivity | cbn; lia].
Defined.
